(** * Employee tracker: daily reports, sessions and credentials

    A shallow embedding of [shared/schema.ts], of every method of
    [DatabaseStorage] in [server/storage.ts] and, from [server/routes.ts],
    of the two authentication middlewares, the login, logout and [me]
    routes of both kinds of user, the report submission and the hourly
    session cleanup.  The four Postgres tables are lists of rows in
    storage order; every storage method is a computation over the
    database that may throw; the clock, the random sources and the
    length of seven local days are read from an environment.  A storage
    method is one statement and runs as one step; a route is served as
    one step too, and the report submission is given a second time in
    the two steps its last [await] separates, for what two requests at
    once can do.  The keys of the uuid columns are the texts Postgres
    prints for them. *)

From Stdlib Require Import ZArith QArith List String Bool Lia.
From Stdlib Require Import Permutation Sorted DecimalString.
Import ListNotations.

Local Open Scope string_scope.
Local Open Scope Z_scope.

(** ** JavaScript values used by the server *)

(** A [Date] object: a time value in milliseconds since the epoch, or
    the invalid date that [new Date("garbage")] builds. *)
Inductive JsDate : Type :=
| DateMs (ms : Z)
| InvalidDate.

(** Calendar dates (the text before the 'T' of [toISOString]) are day
    numbers since the epoch: Postgres compares the [date] column by
    calendar order. *)
Definition Day : Type := Z.

Definition msPerDay : Z := 86400000.

(** The largest time value of a [Date]: beyond it [new Date(ms)] is an
    invalid date. *)
Definition maxTime : Z := 8640000000000000.

(** 0001-01-01 and 9999-12-31 as day numbers.  [toISOString] prints the
    years 0000 to 9999 with four digits and the others with a sign and
    six digits; Postgres reads the text as a [date] for the years 0001
    to 9999 and refuses it otherwise. *)
Definition firstDay : Day := -719162.
Definition lastDay : Day := 2932896.

Definition readableDate (day : Day) : bool :=
  (firstDay <=? day) && (day <=? lastDay).

(** A [number] of JavaScript that is not [NaN] or infinite: a rational.
    Whether it is a whole number, and which. *)
Definition whole (q : Q) : bool := Qnum q mod Zpos (Qden q) =? 0.

Definition wholePart (q : Q) : Z := Qnum q / Zpos (Qden q).

(** What the code can throw: the RangeError of [toISOString], the error
    of a zod schema, the violation of a constraint of the database, the
    refusal of a value by the database (a data exception, SQLSTATE class
    22) and drizzle's "No values to set". *)
Inductive Error : Type :=
| RangeError
| ZodError
| DbError (constraint : string)
| DataException
| NoValuesToSet.

Inductive Outcome (A : Type) : Type :=
| Ok (a : A)
| Throw (e : Error).
Arguments Ok {A} a.
Arguments Throw {A} e.

(** [d.toISOString().split('T')[0]]: the UTC calendar date of [d];
    [toISOString] raises a RangeError on an invalid date. *)
Definition isoDate (d : JsDate) : Outcome Day :=
  match d with
  | DateMs ms =>
      if (- maxTime <=? ms) && (ms <=? maxTime) then Ok (ms / msPerDay)
      else Throw RangeError
  | InvalidDate => Throw RangeError
  end.

(** [new Date("YYYY-MM-DD")]: midnight UTC of that day. *)
Definition newDateOfDay (day : Day) : JsDate := DateMs (day * msPerDay).

(** Truthiness of the values the code tests with [if (x)]. *)
Definition truthyString (s : string) : bool := negb (s =? "")%string.

Definition truthyOptString (s : option string) : bool :=
  match s with
  | Some s => truthyString s
  | None => false
  end.

Definition truthyNumber (n : Z) : bool := negb (n =? 0).

Definition truthyOptNumber (n : option Z) : bool :=
  match n with
  | Some n => truthyNumber n
  | None => false
  end.

Fixpoint dropString (n : nat) (s : string) : string :=
  match n, s with
  | O, _ => s
  | S n, String _ s => dropString n s
  | S _, EmptyString => EmptyString
  end.

(** [s.replace(pat, rep)] with a string pattern: the first occurrence
    only. *)
Fixpoint replace (pat rep s : string) : string :=
  if String.prefix pat s then (rep ++ dropString (String.length pat) s)%string
  else match s with
       | EmptyString => EmptyString
       | String c s => String c (replace pat rep s)
       end.

Definition decimal (n : Z) : string := NilZero.string_of_int (Z.to_int n).

(** ** shared/schema.ts *)

Module Employee.
Record t : Type := mk {
  id : string;
  employeeId : string;
  employeeName : string;
  passwordHash : string;
  createdAt : Z;
  updatedAt : Z
}.
End Employee.

Module DailyReport.
Record t : Type := mk {
  id : string;
  employeeId : string;
  employeeName : string;
  numberOfDials : Z;
  connectedCalls : Z;
  positiveProspect : Z;
  deadCalls : Z;
  demos : Z;
  admission : Z;
  clientVisit : Z;
  clientClosing : Z;
  backdoorCalls : Z;
  postersDone : option Z;
  submissionDate : Day;
  createdAt : Z
}.
End DailyReport.

Module Admin.
Record t : Type := mk {
  id : string;
  username : string;
  passwordHash : string;
  createdAt : Z
}.
End Admin.

Module Session.
Record t : Type := mk {
  id : string;
  userId : string;
  userType : string;
  expiresAt : Z;
  createdAt : Z
}.
End Session.

(** [InsertEmployee]: the employee columns without [id], [createdAt]
    and [updatedAt]. *)
Module InsertEmployee.
Record t : Type := mk {
  employeeId : string;
  employeeName : string;
  passwordHash : string
}.
End InsertEmployee.

(** [Partial<InsertEmployee>]: [None] is an absent key. *)
Module PartialEmployee.
Record t : Type := mk {
  employeeId : option string;
  employeeName : option string;
  passwordHash : option string
}.
End PartialEmployee.

(** [InsertDailyReport]: the report columns without [id] and
    [createdAt]; the counters are [number]s, [postersDone] is
    optional. *)
Module InsertDailyReport.
Record t : Type := mk {
  employeeId : string;
  employeeName : string;
  numberOfDials : Q;
  connectedCalls : Q;
  positiveProspect : Q;
  deadCalls : Q;
  demos : Q;
  admission : Q;
  clientVisit : Q;
  clientClosing : Q;
  backdoorCalls : Q;
  postersDone : option Q;
  submissionDate : Day
}.
End InsertDailyReport.

(** [Partial<InsertDailyReport>]. *)
Module PartialDailyReport.
Record t : Type := mk {
  employeeId : option string;
  employeeName : option string;
  numberOfDials : option Q;
  connectedCalls : option Q;
  positiveProspect : option Q;
  deadCalls : option Q;
  demos : option Q;
  admission : option Q;
  clientVisit : option Q;
  clientClosing : option Q;
  backdoorCalls : option Q;
  postersDone : option Q;
  submissionDate : option Day
}.
End PartialDailyReport.

Module InsertAdmin.
Record t : Type := mk {
  username : string;
  passwordHash : string
}.
End InsertAdmin.

(** The union ['employee' | 'admin']; the [user_type] column itself is
    a varchar. *)
Inductive UserType : Type := EmployeeType | AdminType.

Definition userTypeText (k : UserType) : string :=
  match k with
  | EmployeeType => "employee"
  | AdminType => "admin"
  end.

(** A field of a JSON request body; [JUndefined] is an absent key. *)
Inductive Json : Type :=
| JUndefined
| JNull
| JBoolean (b : bool)
| JNumber (n : Q)
| JString (s : string).

(** [z.string()]. *)
Definition zString (v : Json) : Outcome string :=
  match v with
  | JString s => Ok s
  | _ => Throw ZodError
  end.

(** [z.string().min(1, ...)]. *)
Definition zStringMin1 (v : Json) : Outcome string :=
  match v with
  | JString s => if (1 <=? Z.of_nat (String.length s)) then Ok s else Throw ZodError
  | _ => Throw ZodError
  end.

(** [z.number().min(0)]. *)
Definition zNumberMin0 (v : Json) : Outcome Q :=
  match v with
  | JNumber n => if Qle_bool 0 n then Ok n else Throw ZodError
  | _ => Throw ZodError
  end.

(** [z.number().min(0).optional()]. *)
Definition zNumberMin0Optional (v : Json) : Outcome (option Q) :=
  match v with
  | JUndefined => Ok None
  | JNumber n => if Qle_bool 0 n then Ok (Some n) else Throw ZodError
  | _ => Throw ZodError
  end.

Definition andThen {A B} (o : Outcome A) (k : A -> Outcome B) : Outcome B :=
  match o with
  | Ok a => k a
  | Throw e => Throw e
  end.

(** The body of [POST /api/employee/login]. *)
Module EmployeeLoginBody.
Record t : Type := mk { employeeId : Json; password : Json }.
End EmployeeLoginBody.

Definition employeeLoginSchema (body : EmployeeLoginBody.t)
    : Outcome (string * string) :=
  andThen (zStringMin1 (EmployeeLoginBody.employeeId body)) (fun employeeId =>
  andThen (zStringMin1 (EmployeeLoginBody.password body)) (fun password =>
  Ok (employeeId, password))).

(** The body of [POST /api/admin/login]. *)
Module AdminLoginBody.
Record t : Type := mk { username : Json; password : Json }.
End AdminLoginBody.

Definition adminLoginSchema (body : AdminLoginBody.t)
    : Outcome (string * string) :=
  andThen (zStringMin1 (AdminLoginBody.username body)) (fun username =>
  andThen (zStringMin1 (AdminLoginBody.password body)) (fun password =>
  Ok (username, password))).

(** The body of [POST /api/reports/submit]. *)
Module ReportBody.
Record t : Type := mk {
  employeeId : Json;
  employeeName : Json;
  numberOfDials : Json;
  connectedCalls : Json;
  positiveProspect : Json;
  deadCalls : Json;
  demos : Json;
  admission : Json;
  clientVisit : Json;
  clientClosing : Json;
  backdoorCalls : Json;
  postersDone : Json;
  submissionDate : Json
}.
End ReportBody.

(** What [insertDailyReportSchema.parse] returns: the three text fields
    as the client sent them and the validated counters. *)
Module ReportData.
Record t : Type := mk {
  employeeId : string;
  employeeName : string;
  numberOfDials : Q;
  connectedCalls : Q;
  positiveProspect : Q;
  deadCalls : Q;
  demos : Q;
  admission : Q;
  clientVisit : Q;
  clientClosing : Q;
  backdoorCalls : Q;
  postersDone : option Q;
  submissionDate : string
}.
End ReportData.

Definition insertDailyReportSchema (body : ReportBody.t)
    : Outcome ReportData.t :=
  andThen (zString (ReportBody.employeeId body)) (fun employeeId =>
  andThen (zString (ReportBody.employeeName body)) (fun employeeName =>
  andThen (zNumberMin0 (ReportBody.numberOfDials body)) (fun numberOfDials =>
  andThen (zNumberMin0 (ReportBody.connectedCalls body)) (fun connectedCalls =>
  andThen (zNumberMin0 (ReportBody.positiveProspect body)) (fun positiveProspect =>
  andThen (zNumberMin0 (ReportBody.deadCalls body)) (fun deadCalls =>
  andThen (zNumberMin0 (ReportBody.demos body)) (fun demos =>
  andThen (zNumberMin0 (ReportBody.admission body)) (fun admission =>
  andThen (zNumberMin0 (ReportBody.clientVisit body)) (fun clientVisit =>
  andThen (zNumberMin0 (ReportBody.clientClosing body)) (fun clientClosing =>
  andThen (zNumberMin0 (ReportBody.backdoorCalls body)) (fun backdoorCalls =>
  andThen (zNumberMin0Optional (ReportBody.postersDone body)) (fun postersDone =>
  andThen (zString (ReportBody.submissionDate body)) (fun submissionDate =>
  Ok (ReportData.mk employeeId employeeName numberOfDials connectedCalls
        positiveProspect deadCalls demos admission clientVisit clientClosing
        backdoorCalls postersDone submissionDate)))))))))))))).

(** ** The database and the computations over it *)

Record Db : Type := mkDb {
  employees : list Employee.t;
  dailyReports : list DailyReport.t;
  admins : list Admin.t;
  sessions : list Session.t
}.

(** What a request reads from outside the database: the clock
    ([new Date()], [Date.now()] and Postgres [now()]), the uuid Postgres
    draws for a new row, [Math.random().toString(36).substr(2, 9)], the
    salt bcrypt draws, and the milliseconds from now to the same time of
    day seven calendar days later in the time zone of the server
    (604800000 unless the zone changes its clocks in between). *)
Record Env : Type := mkEnv {
  clock : Z;
  uuid : string;
  random : string;
  salt : string;
  sevenLocalDays : N
}.

Definition M (A : Type) : Type := Env -> Db -> Outcome A * Db.

Definition ret {A} (a : A) : M A := fun _ db => (Ok a, db).

Definition throw {A} (e : Error) : M A := fun _ db => (Throw e, db).

Definition bind {A B} (c : M A) (k : A -> M B) : M B :=
  fun env db =>
    match c env db with
    | (Ok a, db') => k a env db'
    | (Throw e, db') => (Throw e, db')
    end.

Definition tryCatch {A} (c : M A) (handler : Error -> M A) : M A :=
  fun env db =>
    match c env db with
    | (Ok a, db') => (Ok a, db')
    | (Throw e, db') => handler e env db'
    end.

Definition liftOutcome {A} (o : Outcome A) : M A := fun _ db => (o, db).

Definition getDb : M Db := fun _ db => (Ok db, db).

Definition putDb (db : Db) : M unit := fun _ _ => (Ok tt, db).

Definition getEnv : M Env := fun env db => (Ok env, db).

Notation "x <- c ;; k" := (bind c (fun x => k))
  (at level 61, c at next level, right associativity).

(** ** Rows, constraints and queries (what drizzle sends to Postgres) *)

Definition first {A} (rows : list A) : option A := hd_error rows.

Definition isSome {A} (o : option A) : bool :=
  match o with Some _ => true | None => false end.

(** A unique index on a text column. *)
Fixpoint uniqueText (keys : list string) : bool :=
  match keys with
  | [] => true
  | k :: keys => negb (existsb (String.eqb k) keys) && uniqueText keys
  end.

(** [desc(column)] of an [orderBy]. *)
Inductive Ordering : Type :=
| desc (column : DailyReport.t -> Z).

(** Whether [r1] may stand before [r2] under the [orderBy] list. *)
Fixpoint inOrder (by_ : list Ordering) (r1 r2 : DailyReport.t) : bool :=
  match by_ with
  | [] => true
  | desc column :: by_ =>
      if column r2 <? column r1 then true
      else if column r1 =? column r2 then inOrder by_ r1 r2
      else false
  end.

Fixpoint insertSorted (by_ : list Ordering) (r : DailyReport.t)
    (rows : list DailyReport.t) : list DailyReport.t :=
  match rows with
  | [] => [r]
  | r' :: rest =>
      if inOrder by_ r r' then r :: rows
      else r' :: insertSorted by_ r rest
  end.

(** ORDER BY.  Postgres leaves the order of rows with equal keys open;
    here they keep their storage order. *)
Definition orderRows (by_ : list Ordering) (rows : list DailyReport.t)
    : list DailyReport.t :=
  fold_right (insertSorted by_) [] rows.

(** The conditions [getDailyReports] builds. *)
Inductive Condition : Type :=
| eqEmployeeId (value : string)
| gteSubmissionDate (value : Day)
| lteSubmissionDate (value : Day).

Definition holds (c : Condition) (r : DailyReport.t) : bool :=
  match c with
  | eqEmployeeId v => (DailyReport.employeeId r =? v)%string
  | gteSubmissionDate d => d <=? DailyReport.submissionDate r
  | lteSubmissionDate d => DailyReport.submissionDate r <=? d
  end.

(** Whether Postgres can read the parameter of the condition. *)
Definition readable (c : Condition) : bool :=
  match c with
  | eqEmployeeId _ => true
  | gteSubmissionDate d => readableDate d
  | lteSubmissionDate d => readableDate d
  end.

(** [and(...conditions)]. *)
Inductive Where : Type :=
| and_ (conditions : list Condition).

Definition conditionsOf (w : option Where) : list Condition :=
  match w with
  | Some (and_ conditions) => conditions
  | None => []
  end.

Definition satisfies (w : Where) (r : DailyReport.t) : bool :=
  forallb (fun c => holds c r) (conditionsOf (Some w)).

(** A select on [daily_reports] as the builder accumulates it. *)
Record Query : Type := mkQuery {
  qWhere : option Where;
  qOrderBy : list Ordering;
  qLimit : option Z;
  qOffset : option Z
}.

Definition selectFromDailyReports : Query := mkQuery None [] None None.

Definition where_ (q : Query) (w : Where) : Query :=
  mkQuery (Some w) (qOrderBy q) (qLimit q) (qOffset q).

Definition orderBy (q : Query) (by_ : list Ordering) : Query :=
  mkQuery (qWhere q) by_ (qLimit q) (qOffset q).

Definition limit (q : Query) (n : Z) : Query :=
  mkQuery (qWhere q) (qOrderBy q) (Some n) (qOffset q).

Definition offset (q : Query) (n : Z) : Query :=
  mkQuery (qWhere q) (qOrderBy q) (qLimit q) (Some n).

Definition applyOffset (n : option Z) (rows : list DailyReport.t)
    : list DailyReport.t :=
  match n with
  | Some n => skipn (Z.to_nat n) rows
  | None => rows
  end.

Definition applyLimit (n : option Z) (rows : list DailyReport.t)
    : list DailyReport.t :=
  match n with
  | Some n => firstn (Z.to_nat n) rows
  | None => rows
  end.

Definition negative (n : option Z) : bool :=
  match n with
  | Some n => n <? 0
  | None => false
  end.

(** drizzle writes the LIMIT clause for a number that is not negative
    and leaves it out otherwise. *)
Definition writtenLimit (n : option Z) : option Z :=
  match n with
  | Some n => if 0 <=? n then Some n else None
  | None => None
  end.

(** [await query]: WHERE, then ORDER BY, then OFFSET, then LIMIT.
    Postgres refuses a date it cannot read and a negative OFFSET. *)
Definition runQuery (q : Query) : M (list DailyReport.t) :=
  db <- getDb ;;
  if negb (forallb readable (conditionsOf (qWhere q)))
  then throw DataException
  else if negative (qOffset q) then throw DataException
  else
    let rows :=
      match qWhere q with
      | Some w => filter (satisfies w) (dailyReports db)
      | None => dailyReports db
      end in
    ret (applyLimit (writtenLimit (qLimit q))
           (applyOffset (qOffset q) (orderRows (qOrderBy q) rows))).

(** The [filters] argument of [getDailyReports]. *)
Module Filters.
Record t : Type := mk {
  employeeId : option string;
  startDate : option JsDate;
  endDate : option JsDate;
  limit : option Z;
  offset : option Z
}.
End Filters.

(** ** Values as Postgres reads them *)

(** The value an [integer] column takes for a number: Postgres refuses
    a number that is not whole or lies outside 32 bits. *)
Definition integerIn (n : Q) : Outcome Z :=
  if whole n && (- 2147483648 <=? wholePart n) && (wholePart n <=? 2147483647)
  then Ok (wholePart n)
  else Throw DataException.

Definition dateIn (day : Day) : Outcome Day :=
  if readableDate day then Ok day
  else Throw DataException.

(** The values of a SET clause as Postgres reads them. *)
Module ReportColumns.
Record t : Type := mk {
  employeeId : option string;
  employeeName : option string;
  numberOfDials : option Z;
  connectedCalls : option Z;
  positiveProspect : option Z;
  deadCalls : option Z;
  demos : option Z;
  admission : option Z;
  clientVisit : option Z;
  clientClosing : option Z;
  backdoorCalls : option Z;
  postersDone : option Z;
  submissionDate : option Day
}.
End ReportColumns.

(** A value that may be absent, read when it is there. *)
Definition supplied {A B} (read : A -> Outcome B) (v : option A)
    : Outcome (option B) :=
  match v with
  | Some v => andThen (read v) (fun v => Ok (Some v))
  | None => Ok None
  end.

Definition columnsIn (report : PartialDailyReport.t)
    : Outcome ReportColumns.t :=
  andThen (supplied integerIn (PartialDailyReport.numberOfDials report)) (fun numberOfDials =>
  andThen (supplied integerIn (PartialDailyReport.connectedCalls report)) (fun connectedCalls =>
  andThen (supplied integerIn (PartialDailyReport.positiveProspect report)) (fun positiveProspect =>
  andThen (supplied integerIn (PartialDailyReport.deadCalls report)) (fun deadCalls =>
  andThen (supplied integerIn (PartialDailyReport.demos report)) (fun demos =>
  andThen (supplied integerIn (PartialDailyReport.admission report)) (fun admission =>
  andThen (supplied integerIn (PartialDailyReport.clientVisit report)) (fun clientVisit =>
  andThen (supplied integerIn (PartialDailyReport.clientClosing report)) (fun clientClosing =>
  andThen (supplied integerIn (PartialDailyReport.backdoorCalls report)) (fun backdoorCalls =>
  andThen (supplied integerIn (PartialDailyReport.postersDone report)) (fun postersDone =>
  andThen (supplied dateIn (PartialDailyReport.submissionDate report)) (fun submissionDate =>
  Ok (ReportColumns.mk
        (PartialDailyReport.employeeId report)
        (PartialDailyReport.employeeName report)
        numberOfDials connectedCalls positiveProspect deadCalls demos
        admission clientVisit clientClosing backdoorCalls postersDone
        submissionDate)))))))))))).

(** ** server/storage.ts: [DatabaseStorage] *)

Section Server.

(** [bcrypt.hash(data, rounds)] with the salt it draws made explicit,
    and [bcrypt.compare(data, encrypted)]. *)
Variable bcrypt_hash : string -> Z -> string -> string.
Variable bcrypt_compare : string -> string -> bool.

Definition setEmployees (rows : list Employee.t) : M unit :=
  db <- getDb ;;
  putDb (mkDb rows (dailyReports db) (admins db) (sessions db)).

Definition setDailyReports (rows : list DailyReport.t) : M unit :=
  db <- getDb ;;
  putDb (mkDb (employees db) rows (admins db) (sessions db)).

Definition setAdmins (rows : list Admin.t) : M unit :=
  db <- getDb ;;
  putDb (mkDb (employees db) (dailyReports db) rows (sessions db)).

Definition setSessions (rows : list Session.t) : M unit :=
  db <- getDb ;;
  putDb (mkDb (employees db) (dailyReports db) (admins db) rows).

(** The [employees] table keeps [id] (primary key) and [employee_id]
    (unique) free of duplicates: a statement that would break either
    is refused and changes nothing. *)
Definition writeEmployees (rows : list Employee.t) : M unit :=
  if negb (uniqueText (map Employee.id rows))
  then throw (DbError "employees_pkey")
  else if negb (uniqueText (map Employee.employeeId rows))
  then throw (DbError "employees_employee_id_unique")
  else setEmployees rows.

(** [daily_reports] has a primary key on [id] and no other
    constraint. *)
Definition writeDailyReports (rows : list DailyReport.t) : M unit :=
  if negb (uniqueText (map DailyReport.id rows))
  then throw (DbError "daily_reports_pkey")
  else setDailyReports rows.

Definition writeAdmins (rows : list Admin.t) : M unit :=
  if negb (uniqueText (map Admin.id rows))
  then throw (DbError "admins_pkey")
  else if negb (uniqueText (map Admin.username rows))
  then throw (DbError "admins_username_unique")
  else setAdmins rows.

Definition writeSessions (rows : list Session.t) : M unit :=
  if negb (uniqueText (map Session.id rows))
  then throw (DbError "sessions_pkey")
  else setSessions rows.

Definition getEmployee (id : string) : M (option Employee.t) :=
  db <- getDb ;;
  ret (first (filter (fun e => (Employee.id e =? id)%string) (employees db))).

Definition getEmployeeByEmployeeId (employeeId : string)
    : M (option Employee.t) :=
  db <- getDb ;;
  ret (first (filter (fun e => (Employee.employeeId e =? employeeId)%string)
                     (employees db))).

Definition createEmployee (insertEmployee : InsertEmployee.t)
    : M Employee.t :=
  env <- getEnv ;;
  db <- getDb ;;
  let passwordHash :=
    bcrypt_hash (InsertEmployee.passwordHash insertEmployee) 10 (salt env) in
  let employee :=
    Employee.mk (uuid env)
                (InsertEmployee.employeeId insertEmployee)
                (InsertEmployee.employeeName insertEmployee)
                passwordHash (clock env) (clock env) in
  _ <- writeEmployees (employees db ++ [employee])%list ;;
  ret employee.

(** [.set(updateData)] on one employee row: the keys present in
    [updateData] replace the columns, the others stay. *)
Definition setEmployee (updateData : PartialEmployee.t) (updatedAt : Z)
    (e : Employee.t) : Employee.t :=
  Employee.mk
    (Employee.id e)
    (match PartialEmployee.employeeId updateData with
     | Some v => v | None => Employee.employeeId e end)
    (match PartialEmployee.employeeName updateData with
     | Some v => v | None => Employee.employeeName e end)
    (match PartialEmployee.passwordHash updateData with
     | Some v => v | None => Employee.passwordHash e end)
    (Employee.createdAt e)
    updatedAt.

Definition updateEmployee (id : string) (updates : PartialEmployee.t)
    : M (option Employee.t) :=
  env <- getEnv ;;
  db <- getDb ;;
  let updateData :=
    if truthyOptString (PartialEmployee.passwordHash updates)
    then PartialEmployee.mk
           (PartialEmployee.employeeId updates)
           (PartialEmployee.employeeName updates)
           (option_map (fun p => bcrypt_hash p 10 (salt env))
                       (PartialEmployee.passwordHash updates))
    else updates in
  let updatedAt := clock env in
  let touched e := (Employee.id e =? id)%string in
  let rows :=
    map (fun e => if touched e then setEmployee updateData updatedAt e else e)
        (employees db) in
  _ <- writeEmployees rows ;;
  ret (first (filter touched rows)).

Definition deleteEmployee (id : string) : M bool :=
  db <- getDb ;;
  let gone e := (Employee.id e =? id)%string in
  let rowCount := Z.of_nat (List.length (filter gone (employees db))) in
  _ <- setEmployees (filter (fun e => negb (gone e)) (employees db)) ;;
  ret (0 <? rowCount).

Definition validateEmployeeCredentials (employeeId password : string)
    : M (option Employee.t) :=
  employee <- getEmployeeByEmployeeId employeeId ;;
  match employee with
  | None => ret None
  | Some employee =>
      let isValid := bcrypt_compare password (Employee.passwordHash employee) in
      ret (if isValid then Some employee else None)
  end.

(** The row Postgres stores for [.values(insertReport)]: a fresh uuid,
    [posters_done] defaulting to 0 and [created_at] to [now()]; no row
    when it cannot read one of the values. *)
Definition newDailyReport (id : string) (createdAt : Z)
    (r : InsertDailyReport.t) : Outcome DailyReport.t :=
  andThen (integerIn (InsertDailyReport.numberOfDials r)) (fun numberOfDials =>
  andThen (integerIn (InsertDailyReport.connectedCalls r)) (fun connectedCalls =>
  andThen (integerIn (InsertDailyReport.positiveProspect r)) (fun positiveProspect =>
  andThen (integerIn (InsertDailyReport.deadCalls r)) (fun deadCalls =>
  andThen (integerIn (InsertDailyReport.demos r)) (fun demos =>
  andThen (integerIn (InsertDailyReport.admission r)) (fun admission =>
  andThen (integerIn (InsertDailyReport.clientVisit r)) (fun clientVisit =>
  andThen (integerIn (InsertDailyReport.clientClosing r)) (fun clientClosing =>
  andThen (integerIn (InsertDailyReport.backdoorCalls r)) (fun backdoorCalls =>
  andThen (match InsertDailyReport.postersDone r with
           | Some n => integerIn n
           | None => Ok 0
           end) (fun postersDone =>
  andThen (dateIn (InsertDailyReport.submissionDate r)) (fun submissionDate =>
  Ok (DailyReport.mk id
        (InsertDailyReport.employeeId r)
        (InsertDailyReport.employeeName r)
        numberOfDials connectedCalls positiveProspect deadCalls demos
        admission clientVisit clientClosing backdoorCalls
        (Some postersDone) submissionDate createdAt)))))))))))).

Definition createDailyReport (insertReport : InsertDailyReport.t)
    : M DailyReport.t :=
  env <- getEnv ;;
  db <- getDb ;;
  report <- liftOutcome (newDailyReport (uuid env) (clock env) insertReport) ;;
  _ <- writeDailyReports (dailyReports db ++ [report])%list ;;
  ret report.

Definition getDailyReports (filters : option Filters.t)
    : M (list DailyReport.t) :=
  let employeeId := match filters with Some f => Filters.employeeId f | None => None end in
  let startDate := match filters with Some f => Filters.startDate f | None => None end in
  let endDate := match filters with Some f => Filters.endDate f | None => None end in
  let limit_ := match filters with Some f => Filters.limit f | None => None end in
  let offset_ := match filters with Some f => Filters.offset f | None => None end in
  let conditions := [] in
  let conditions :=
    match employeeId with
    | Some v => if truthyString v then (conditions ++ [eqEmployeeId v])%list else conditions
    | None => conditions
    end in
  conditions <-
    match startDate with
    | Some d => (day <- liftOutcome (isoDate d) ;;
                 ret (conditions ++ [gteSubmissionDate day])%list)
    | None => ret conditions
    end ;;
  conditions <-
    match endDate with
    | Some d => (day <- liftOutcome (isoDate d) ;;
                 ret (conditions ++ [lteSubmissionDate day])%list)
    | None => ret conditions
    end ;;
  let query := selectFromDailyReports in
  let query :=
    if (0 <? Z.of_nat (List.length conditions))
    then where_ query (and_ conditions) else query in
  let query :=
    orderBy query [desc DailyReport.submissionDate; desc DailyReport.createdAt] in
  let query :=
    match limit_ with
    | Some n => if truthyNumber n then limit query n else query
    | None => query
    end in
  let query :=
    match offset_ with
    | Some n => if truthyNumber n then offset query n else query
    | None => query
    end in
  runQuery query.

Definition getDailyReportsByDateRange (startDate endDate : JsDate)
    : M (list DailyReport.t) :=
  start <- liftOutcome (isoDate startDate) ;;
  end_ <- liftOutcome (isoDate endDate) ;;
  runQuery
    (orderBy
       (where_ selectFromDailyReports
               (and_ [gteSubmissionDate start; lteSubmissionDate end_]))
       [desc DailyReport.submissionDate]).

Definition checkExistingReport (employeeId : string) (date : JsDate)
    : M (option DailyReport.t) :=
  day <- liftOutcome (isoDate date) ;;
  day <- liftOutcome (dateIn day) ;;
  db <- getDb ;;
  ret (first
         (filter (fun r => (DailyReport.employeeId r =? employeeId)%string
                           && (DailyReport.submissionDate r =? day))
                 (dailyReports db))).

(** [.set(report)] on one report row. *)
Definition setDailyReport (values : ReportColumns.t)
    (r : DailyReport.t) : DailyReport.t :=
  let pick {A} (supplied : option A) (old : A) : A :=
    match supplied with Some v => v | None => old end in
  DailyReport.mk
    (DailyReport.id r)
    (pick (ReportColumns.employeeId values) (DailyReport.employeeId r))
    (pick (ReportColumns.employeeName values) (DailyReport.employeeName r))
    (pick (ReportColumns.numberOfDials values) (DailyReport.numberOfDials r))
    (pick (ReportColumns.connectedCalls values) (DailyReport.connectedCalls r))
    (pick (ReportColumns.positiveProspect values) (DailyReport.positiveProspect r))
    (pick (ReportColumns.deadCalls values) (DailyReport.deadCalls r))
    (pick (ReportColumns.demos values) (DailyReport.demos r))
    (pick (ReportColumns.admission values) (DailyReport.admission r))
    (pick (ReportColumns.clientVisit values) (DailyReport.clientVisit r))
    (pick (ReportColumns.clientClosing values) (DailyReport.clientClosing r))
    (pick (ReportColumns.backdoorCalls values) (DailyReport.backdoorCalls r))
    (match ReportColumns.postersDone values with
     | Some v => Some v | None => DailyReport.postersDone r end)
    (pick (ReportColumns.submissionDate values) (DailyReport.submissionDate r))
    (DailyReport.createdAt r).

(** Whether the partial report has no key at all. *)
Definition noValues (report : PartialDailyReport.t) : bool :=
  negb (isSome (PartialDailyReport.employeeId report)
        || isSome (PartialDailyReport.employeeName report)
        || isSome (PartialDailyReport.numberOfDials report)
        || isSome (PartialDailyReport.connectedCalls report)
        || isSome (PartialDailyReport.positiveProspect report)
        || isSome (PartialDailyReport.deadCalls report)
        || isSome (PartialDailyReport.demos report)
        || isSome (PartialDailyReport.admission report)
        || isSome (PartialDailyReport.clientVisit report)
        || isSome (PartialDailyReport.clientClosing report)
        || isSome (PartialDailyReport.backdoorCalls report)
        || isSome (PartialDailyReport.postersDone report)
        || isSome (PartialDailyReport.submissionDate report)).

(** drizzle's [.set] refuses an object without any value
    ("No values to set") before anything reaches the database;
    Postgres refuses the statement when it cannot read a value. *)
Definition updateDailyReport (id : string) (report : PartialDailyReport.t)
    : M (option DailyReport.t) :=
  db <- getDb ;;
  if noValues report then throw NoValuesToSet
  else
    values <- liftOutcome (columnsIn report) ;;
    let touched r := (DailyReport.id r =? id)%string in
    let rows :=
      map (fun r => if touched r then setDailyReport values r else r)
          (dailyReports db) in
    _ <- writeDailyReports rows ;;
    ret (first (filter touched rows)).

Definition deleteDailyReport (id : string) : M bool :=
  db <- getDb ;;
  let gone r := (DailyReport.id r =? id)%string in
  let rowCount := Z.of_nat (List.length (filter gone (dailyReports db))) in
  _ <- setDailyReports (filter (fun r => negb (gone r)) (dailyReports db)) ;;
  ret (0 <? rowCount).

Definition getAdmin (id : string) : M (option Admin.t) :=
  db <- getDb ;;
  ret (first (filter (fun a => (Admin.id a =? id)%string) (admins db))).

Definition getAdminByUsername (username : string) : M (option Admin.t) :=
  db <- getDb ;;
  ret (first (filter (fun a => (Admin.username a =? username)%string)
                     (admins db))).

Definition createAdmin (insertAdmin : InsertAdmin.t) : M Admin.t :=
  env <- getEnv ;;
  db <- getDb ;;
  let passwordHash :=
    bcrypt_hash (InsertAdmin.passwordHash insertAdmin) 10 (salt env) in
  let admin :=
    Admin.mk (uuid env) (InsertAdmin.username insertAdmin) passwordHash
             (clock env) in
  _ <- writeAdmins (admins db ++ [admin])%list ;;
  ret admin.

Definition validateAdminCredentials (username password : string)
    : M (option Admin.t) :=
  admin <- getAdminByUsername username ;;
  match admin with
  | None => ret None
  | Some admin =>
      let isValid := bcrypt_compare password (Admin.passwordHash admin) in
      ret (if isValid then Some admin else None)
  end.

(** [expiresAt.setDate(expiresAt.getDate() + 7)] moves the date seven
    calendar days ahead in local time. *)
Definition createSession (userId : string) (userType : UserType)
    : M Session.t :=
  env <- getEnv ;;
  db <- getDb ;;
  let expiresAt := clock env + Z.of_N (sevenLocalDays env) in
  let sessionId := ("sess_" ++ decimal (clock env) ++ "_" ++ random env)%string in
  let session :=
    Session.mk sessionId userId (userTypeText userType) expiresAt (clock env) in
  _ <- writeSessions (sessions db ++ [session])%list ;;
  ret session.

Definition getSession (sessionId : string) : M (option Session.t) :=
  env <- getEnv ;;
  db <- getDb ;;
  ret (first
         (filter (fun s => (Session.id s =? sessionId)%string
                           && (clock env <=? Session.expiresAt s))
                 (sessions db))).

Definition deleteSession (sessionId : string) : M unit :=
  db <- getDb ;;
  setSessions (filter (fun s => negb (Session.id s =? sessionId)%string)
                      (sessions db)).

Definition cleanExpiredSessions : M unit :=
  env <- getEnv ;;
  db <- getDb ;;
  setSessions (filter (fun s => negb (Session.expiresAt s <=? clock env))
                      (sessions db)).

(** ** server/routes.ts *)

(** [req.session] as the middleware fills it. *)
Record ReqSession : Type := mkReqSession {
  sessionId : string;
  userId : string;
  userType : string
}.

(** The JSON bodies the routes send. *)
Inductive Body : Type :=
| Message (message : string)
| InvalidInput
| EmployeeLoggedIn (sessionToken id employeeId employeeName : string)
| AdminLoggedIn (sessionToken id username : string)
| EmployeeInfo (id employeeId employeeName : string)
| AdminInfo (id username : string)
| ReportSubmitted (report : DailyReport.t).

Record Response : Type := mkResponse {
  status : Z;
  body : Body
}.

(** [res.status(code).json(body)]; [res.json(body)] answers 200. *)
Definition json (code : Z) (b : Body) : Response := mkResponse code b.

(** A middleware either answers or calls [next()]. *)
Inductive Middleware : Type :=
| answered (res : Response)
| next (session : ReqSession).

Definition authenticate (kind : string) (authorization : option string)
    : M Middleware :=
  let sessionId := option_map (replace "Bearer " "") authorization in
  match sessionId with
  | None => ret (answered (json 401 (Message "No session token provided")))
  | Some sessionId =>
      if negb (truthyString sessionId)
      then ret (answered (json 401 (Message "No session token provided")))
      else
        tryCatch
          (session <- getSession sessionId ;;
           match session with
           | None =>
               ret (answered (json 401 (Message "Invalid or expired session")))
           | Some session =>
               if negb (Session.userType session =? kind)%string
               then ret (answered (json 401 (Message "Invalid or expired session")))
               else ret (next (mkReqSession (Session.id session)
                                            (Session.userId session)
                                            (Session.userType session)))
           end)
          (fun _ => ret (answered (json 401 (Message "Authentication failed"))))
  end.

Definition authenticateEmployee : option string -> M Middleware :=
  authenticate "employee".

Definition authenticateAdmin : option string -> M Middleware :=
  authenticate "admin".

(** [app.METHOD(path, middleware, handler)] serving one request. *)
Definition guarded (middleware : option string -> M Middleware)
    (handler : ReqSession -> M Response) (authorization : option string)
    : M Response :=
  m <- middleware authorization ;;
  match m with
  | answered res => ret res
  | next session => handler session
  end.

Definition internalServerError : Response :=
  json 500 (Message "Internal server error").

(** The [catch] of the routes that parse a body. *)
Definition catchZod (error : Error) : M Response :=
  match error with
  | ZodError => ret (json 400 InvalidInput)
  | _ => ret internalServerError
  end.

Definition postEmployeeLogin (reqBody : EmployeeLoginBody.t) : M Response :=
  tryCatch
    (credentials <- liftOutcome (employeeLoginSchema reqBody) ;;
     let '(employeeId, password) := credentials in
     employee <- validateEmployeeCredentials employeeId password ;;
     match employee with
     | None => ret (json 401 (Message "Invalid employee ID or password"))
     | Some employee =>
         session <- createSession (Employee.id employee) EmployeeType ;;
         ret (json 200 (EmployeeLoggedIn (Session.id session)
                          (Employee.id employee)
                          (Employee.employeeId employee)
                          (Employee.employeeName employee)))
     end)
    catchZod.

Definition logout (session : ReqSession) : M Response :=
  tryCatch
    (_ <- (if truthyString (sessionId session)
           then deleteSession (sessionId session) else ret tt) ;;
     ret (json 200 (Message "Logout successful")))
    (fun _ => ret internalServerError).

Definition postEmployeeLogout : option string -> M Response :=
  guarded authenticateEmployee logout.

Definition getEmployeeMe : option string -> M Response :=
  guarded authenticateEmployee (fun session =>
    tryCatch
      (employee <- getEmployee (userId session) ;;
       match employee with
       | None => ret (json 404 (Message "Employee not found"))
       | Some employee =>
           ret (json 200 (EmployeeInfo (Employee.id employee)
                            (Employee.employeeId employee)
                            (Employee.employeeName employee)))
       end)
      (fun _ => ret internalServerError)).

(** The handler of [POST /api/reports/submit], after the middleware. *)
Definition submitReport (reqBody : ReportBody.t) (session : ReqSession)
    : M Response :=
  tryCatch
    (employee <- getEmployee (userId session) ;;
     match employee with
     | None => ret (json 404 (Message "Employee not found"))
     | Some employee =>
         reportData <- liftOutcome (insertDailyReportSchema reqBody) ;;
         env <- getEnv ;;
         today <- liftOutcome (isoDate (DateMs (clock env))) ;;
         existingReport <-
           checkExistingReport (Employee.employeeId employee)
                               (newDateOfDay today) ;;
         match existingReport with
         | Some _ =>
             ret (json 409 (Message "Report for today already submitted"))
         | None =>
             report <-
               createDailyReport
                 (InsertDailyReport.mk
                    (Employee.employeeId employee)
                    (Employee.employeeName employee)
                    (ReportData.numberOfDials reportData)
                    (ReportData.connectedCalls reportData)
                    (ReportData.positiveProspect reportData)
                    (ReportData.deadCalls reportData)
                    (ReportData.demos reportData)
                    (ReportData.admission reportData)
                    (ReportData.clientVisit reportData)
                    (ReportData.clientClosing reportData)
                    (ReportData.backdoorCalls reportData)
                    (ReportData.postersDone reportData)
                    today) ;;
             ret (json 200 (ReportSubmitted report))
         end
     end)
    catchZod.

Definition postReportsSubmit (reqBody : ReportBody.t)
    : option string -> M Response :=
  guarded authenticateEmployee (submitReport reqBody).

(** The same handler in the two steps that its last [await] separates:
    up to the answer of [checkExistingReport], where it either has its
    response or knows what to insert, and from [createDailyReport] on.
    Another request can be served between the two. *)
Inductive Checked : Type :=
| respond (res : Response)
| insert (insertReport : InsertDailyReport.t).

Definition submitReportCheck (reqBody : ReportBody.t) (session : ReqSession)
    : M Checked :=
  tryCatch
    (employee <- getEmployee (userId session) ;;
     match employee with
     | None => ret (respond (json 404 (Message "Employee not found")))
     | Some employee =>
         reportData <- liftOutcome (insertDailyReportSchema reqBody) ;;
         env <- getEnv ;;
         today <- liftOutcome (isoDate (DateMs (clock env))) ;;
         existingReport <-
           checkExistingReport (Employee.employeeId employee)
                               (newDateOfDay today) ;;
         match existingReport with
         | Some _ =>
             ret (respond
                    (json 409 (Message "Report for today already submitted")))
         | None =>
             ret (insert
                    (InsertDailyReport.mk
                       (Employee.employeeId employee)
                       (Employee.employeeName employee)
                       (ReportData.numberOfDials reportData)
                       (ReportData.connectedCalls reportData)
                       (ReportData.positiveProspect reportData)
                       (ReportData.deadCalls reportData)
                       (ReportData.demos reportData)
                       (ReportData.admission reportData)
                       (ReportData.clientVisit reportData)
                       (ReportData.clientClosing reportData)
                       (ReportData.backdoorCalls reportData)
                       (ReportData.postersDone reportData)
                       today))
         end
     end)
    (fun error => res <- catchZod error ;; ret (respond res)).

Definition submitReportStore (insertReport : InsertDailyReport.t)
    : M Response :=
  tryCatch
    (report <- createDailyReport insertReport ;;
     ret (json 200 (ReportSubmitted report)))
    catchZod.

Definition postAdminLogin (reqBody : AdminLoginBody.t) : M Response :=
  tryCatch
    (credentials <- liftOutcome (adminLoginSchema reqBody) ;;
     let '(username, password) := credentials in
     admin <- validateAdminCredentials username password ;;
     match admin with
     | None => ret (json 401 (Message "Invalid username or password"))
     | Some admin =>
         session <- createSession (Admin.id admin) AdminType ;;
         ret (json 200 (AdminLoggedIn (Session.id session)
                          (Admin.id admin) (Admin.username admin)))
     end)
    catchZod.

Definition postAdminLogout : option string -> M Response :=
  guarded authenticateAdmin logout.

Definition getAdminMe : option string -> M Response :=
  guarded authenticateAdmin (fun session =>
    tryCatch
      (admin <- getAdmin (userId session) ;;
       match admin with
       | None => ret (json 404 (Message "Admin not found"))
       | Some admin =>
           ret (json 200 (AdminInfo (Admin.id admin) (Admin.username admin)))
       end)
      (fun _ => ret internalServerError)).

(** The body of the hourly [setInterval] callback. *)
Definition sessionCleanup : M unit :=
  tryCatch cleanExpiredSessions (fun _ => ret tt).

End Server.

(** ** Vocabulary of the statements *)


Definition noFilters : Filters.t := Filters.mk None None None None None.

Definition filtersOf (filters : option Filters.t) : Filters.t :=
  match filters with
  | Some f => f
  | None => noFilters
  end.

Definition onOrAfter (d : option JsDate) (r : DailyReport.t) : bool :=
  match d with
  | Some (DateMs ms) => ms / msPerDay <=? DailyReport.submissionDate r
  | _ => true
  end.

Definition onOrBefore (d : option JsDate) (r : DailyReport.t) : bool :=
  match d with
  | Some (DateMs ms) => DailyReport.submissionDate r <=? ms / msPerDay
  | _ => true
  end.


(** The conjunction of the filters, an empty employee id counting as
    none. *)
Definition effectiveFilters (f : Filters.t) (r : DailyReport.t) : bool :=
  match Filters.employeeId f with
  | Some v => if truthyString v then (DailyReport.employeeId r =? v)%string else true
  | None => true
  end
  && onOrAfter (Filters.startDate f) r
  && onOrBefore (Filters.endDate f) r.

(** An offset of zero counts as none. *)
Definition nonzero (n : option Z) : option Z :=
  match n with
  | Some n => if truthyNumber n then Some n else None
  | None => None
  end.

(** A limit that is zero or negative counts as none. *)
Definition positiveOnly (n : option Z) : option Z :=
  match n with
  | Some n => if 0 <? n then Some n else None
  | None => None
  end.




(** A date filter that is absent, or a valid date of the years 0001 to
    9999. *)
Definition acceptedDate (d : option JsDate) : Prop :=
  match d with
  | Some (DateMs ms) => firstDay <= ms / msPerDay <= lastDay
  | Some InvalidDate => False
  | None => True
  end.




(** At most one report per employee id and submission date. *)
Definition submissionKey (r : DailyReport.t) : string * Day :=
  (DailyReport.employeeId r, DailyReport.submissionDate r).

Definition onePerDay (rows : list DailyReport.t) : Prop :=
  NoDup (map submissionKey rows).

(** The body with other values in the three identity fields. *)
Definition withIdentity (reqBody : ReportBody.t)
    (employeeId employeeName submissionDate : Json) : ReportBody.t :=
  ReportBody.mk employeeId employeeName
    (ReportBody.numberOfDials reqBody) (ReportBody.connectedCalls reqBody)
    (ReportBody.positiveProspect reqBody) (ReportBody.deadCalls reqBody)
    (ReportBody.demos reqBody) (ReportBody.admission reqBody)
    (ReportBody.clientVisit reqBody) (ReportBody.clientClosing reqBody)
    (ReportBody.backdoorCalls reqBody) (ReportBody.postersDone reqBody)
    submissionDate.

(** A column keeps its value unless the partial update supplies one. *)
Definition keeps {Row A B} (supplied : option B) (column : Row -> A)
    (old new : Row) : Prop :=
  supplied = None -> column new = column old.

(** What [updateEmployee id updates] may do to one row: rows with
    another id stay as they are, and on the row with that id the columns
    no key of [updates] names keep their values. *)
Definition employeeFrame (id : string) (updates : PartialEmployee.t)
    (old new : Employee.t) : Prop :=
  (Employee.id old <> id -> new = old)
  /\ Employee.id new = Employee.id old
  /\ Employee.createdAt new = Employee.createdAt old
  /\ keeps (PartialEmployee.employeeId updates) Employee.employeeId old new
  /\ keeps (PartialEmployee.employeeName updates) Employee.employeeName old new
  /\ keeps (PartialEmployee.passwordHash updates) Employee.passwordHash old new.

(** What a successful [updateEmployee] stores on the row with that id:
    the supplied id and name, the digest of a supplied password that is
    not empty, and the time of the update. *)
Definition employeeStored (bcrypt_hash : string -> Z -> string -> string)
    (id : string) (updates : PartialEmployee.t) (env : Env)
    (new : Employee.t) : Prop :=
  Employee.id new = id ->
  (forall v, PartialEmployee.employeeId updates = Some v ->
             Employee.employeeId new = v)
  /\ (forall v, PartialEmployee.employeeName updates = Some v ->
                Employee.employeeName new = v)
  /\ (forall p, PartialEmployee.passwordHash updates = Some p -> p <> ""%string ->
                Employee.passwordHash new = bcrypt_hash p 10 (salt env))
  /\ Employee.updatedAt new = clock env.

(** What [updateDailyReport id report] may do to one row. *)
Definition reportFrame (id : string) (report : PartialDailyReport.t)
    (old new : DailyReport.t) : Prop :=
  (DailyReport.id old <> id -> new = old)
  /\ DailyReport.id new = DailyReport.id old
  /\ DailyReport.createdAt new = DailyReport.createdAt old
  /\ keeps (PartialDailyReport.employeeId report) DailyReport.employeeId old new
  /\ keeps (PartialDailyReport.employeeName report) DailyReport.employeeName old new
  /\ keeps (PartialDailyReport.numberOfDials report) DailyReport.numberOfDials old new
  /\ keeps (PartialDailyReport.connectedCalls report) DailyReport.connectedCalls old new
  /\ keeps (PartialDailyReport.positiveProspect report) DailyReport.positiveProspect old new
  /\ keeps (PartialDailyReport.deadCalls report) DailyReport.deadCalls old new
  /\ keeps (PartialDailyReport.demos report) DailyReport.demos old new
  /\ keeps (PartialDailyReport.admission report) DailyReport.admission old new
  /\ keeps (PartialDailyReport.clientVisit report) DailyReport.clientVisit old new
  /\ keeps (PartialDailyReport.clientClosing report) DailyReport.clientClosing old new
  /\ keeps (PartialDailyReport.backdoorCalls report) DailyReport.backdoorCalls old new
  /\ (PartialDailyReport.postersDone report = None ->
      DailyReport.postersDone new = DailyReport.postersDone old)
  /\ keeps (PartialDailyReport.submissionDate report) DailyReport.submissionDate old new.

Definition onlyName (name : string) : PartialEmployee.t :=
  PartialEmployee.mk None (Some name) None.

Definition onlyPassword (password : string) : PartialEmployee.t :=
  PartialEmployee.mk None None (Some password).

Definition onlySubmissionDate (day : Day) : PartialDailyReport.t :=
  PartialDailyReport.mk None None None None None None None None None None None
                        None (Some day).

(** The [orderBy] of [getDailyReports]. *)
Definition byRecency : list Ordering :=
  [desc DailyReport.submissionDate; desc DailyReport.createdAt].

(** The row a submission stores, when Postgres can read its values. *)
Definition submittedReport (employee : Employee.t) (data : ReportData.t)
    (env : Env) : Outcome DailyReport.t :=
  newDailyReport (uuid env) (clock env)
    (InsertDailyReport.mk
       (Employee.employeeId employee) (Employee.employeeName employee)
       (ReportData.numberOfDials data) (ReportData.connectedCalls data)
       (ReportData.positiveProspect data) (ReportData.deadCalls data)
       (ReportData.demos data) (ReportData.admission data)
       (ReportData.clientVisit data) (ReportData.clientClosing data)
       (ReportData.backdoorCalls data) (ReportData.postersDone data)
       (clock env / msPerDay)).

(** ** server/index.ts: the request log *)

(** The cut of a log line, over any type of code units:
    [if (logLine.length > 80) logLine = logLine.slice(0, 79) + "\u2026"]. *)
Definition truncateLogLine {C : Type} (ellipsis : C) (logLine : list C)
    : list C :=
  if 80 <? Z.of_nat (List.length logLine)
  then (firstn 79 logLine ++ [ellipsis])%list
  else logLine.

(** ** The embedded routes as one server *)

Inductive Request : Type :=
| PostEmployeeLogin (reqBody : EmployeeLoginBody.t)
| PostEmployeeLogout (authorization : option string)
| GetEmployeeMe (authorization : option string)
| PostReportsSubmit (reqBody : ReportBody.t) (authorization : option string)
| PostAdminLogin (reqBody : AdminLoginBody.t)
| PostAdminLogout (authorization : option string)
| GetAdminMe (authorization : option string).

Definition serve (bcrypt_compare : string -> string -> bool)
    (request : Request) : M Response :=
  match request with
  | PostEmployeeLogin reqBody => postEmployeeLogin bcrypt_compare reqBody
  | PostEmployeeLogout authorization => postEmployeeLogout authorization
  | GetEmployeeMe authorization => getEmployeeMe authorization
  | PostReportsSubmit reqBody authorization => postReportsSubmit reqBody authorization
  | PostAdminLogin reqBody => postAdminLogin bcrypt_compare reqBody
  | PostAdminLogout authorization => postAdminLogout authorization
  | GetAdminMe authorization => getAdminMe authorization
  end.

(** ** Further vocabulary *)

(** Seven days of 24 hours, in milliseconds. *)
Definition sevenDays : N := 604800000.

(** A body field that [z.string().min(1)] accepts. *)
Definition nonEmptyText (v : Json) : Prop :=
  exists s, v = JString s /\ s <> ""%string.

(** The counters of a stored report are not negative. *)
Definition countersNotNegative (r : DailyReport.t) : Prop :=
  0 <= DailyReport.numberOfDials r
  /\ 0 <= DailyReport.connectedCalls r
  /\ 0 <= DailyReport.positiveProspect r
  /\ 0 <= DailyReport.deadCalls r
  /\ 0 <= DailyReport.demos r
  /\ 0 <= DailyReport.admission r
  /\ 0 <= DailyReport.clientVisit r
  /\ 0 <= DailyReport.clientClosing r
  /\ 0 <= DailyReport.backdoorCalls r
  /\ exists n, DailyReport.postersDone r = Some n /\ 0 <= n.

(** [r1] is submitted no earlier than [r2]. *)
Definition latestDateFirst (r1 r2 : DailyReport.t) : Prop :=
  DailyReport.submissionDate r2 <= DailyReport.submissionDate r1.

Definition inDateRange (start end_ : Day) (r : DailyReport.t) : bool :=
  (start <=? DailyReport.submissionDate r)
  && (DailyReport.submissionDate r <=? end_).


(** What no embedded route goes beyond: the accounts stay, and the
    report table stays or gains one row at its end. *)
Definition routeFrame (db db' : Db) : Prop :=
  employees db' = employees db
  /\ admins db' = admins db
  /\ (dailyReports db' = dailyReports db
      \/ exists report, dailyReports db' = (dailyReports db ++ [report])%list).

(** A column holds the value the partial update supplies. *)
Definition stores {Row A} (supplied : option A) (column : Row -> A)
    (new : Row) : Prop :=
  forall v, supplied = Some v -> column new = v.

(** An integer column holds the number the partial update supplies. *)
Definition storesNumber {Row} (supplied : option Q) (column : Row -> Z)
    (new : Row) : Prop :=
  forall v, supplied = Some v -> (inject_Z (column new) == v)%Q.

(** Every column that [report] supplies holds the supplied value. *)
Definition reportStored (report : PartialDailyReport.t) (new : DailyReport.t)
    : Prop :=
  stores (PartialDailyReport.employeeId report) DailyReport.employeeId new
  /\ stores (PartialDailyReport.employeeName report) DailyReport.employeeName new
  /\ storesNumber (PartialDailyReport.numberOfDials report) DailyReport.numberOfDials new
  /\ storesNumber (PartialDailyReport.connectedCalls report) DailyReport.connectedCalls new
  /\ storesNumber (PartialDailyReport.positiveProspect report) DailyReport.positiveProspect new
  /\ storesNumber (PartialDailyReport.deadCalls report) DailyReport.deadCalls new
  /\ storesNumber (PartialDailyReport.demos report) DailyReport.demos new
  /\ storesNumber (PartialDailyReport.admission report) DailyReport.admission new
  /\ storesNumber (PartialDailyReport.clientVisit report) DailyReport.clientVisit new
  /\ storesNumber (PartialDailyReport.clientClosing report) DailyReport.clientClosing new
  /\ storesNumber (PartialDailyReport.backdoorCalls report) DailyReport.backdoorCalls new
  /\ (forall v, PartialDailyReport.postersDone report = Some v ->
                exists n, DailyReport.postersDone new = Some n
                          /\ (inject_Z n == v)%Q)
  /\ stores (PartialDailyReport.submissionDate report) DailyReport.submissionDate new.

(** A number that an [integer] column takes: whole and within 32
    bits. *)
Definition int32 (n : Q) : Prop :=
  whole n = true /\ - 2147483648 <= wholePart n <= 2147483647.

Definition optionalInt32 (n : option Q) : Prop :=
  forall v, n = Some v -> int32 v.

(** The counters of a parsed body are numbers the columns take. *)
Definition storableCounters (data : ReportData.t) : Prop :=
  int32 (ReportData.numberOfDials data)
  /\ int32 (ReportData.connectedCalls data)
  /\ int32 (ReportData.positiveProspect data)
  /\ int32 (ReportData.deadCalls data)
  /\ int32 (ReportData.demos data)
  /\ int32 (ReportData.admission data)
  /\ int32 (ReportData.clientVisit data)
  /\ int32 (ReportData.clientClosing data)
  /\ int32 (ReportData.backdoorCalls data)
  /\ optionalInt32 (ReportData.postersDone data).

(** The values of a partial report are values the columns take: whole
    numbers within 32 bits and a date of the years 0001 to 9999. *)
Definition storableUpdate (report : PartialDailyReport.t) : Prop :=
  optionalInt32 (PartialDailyReport.numberOfDials report)
  /\ optionalInt32 (PartialDailyReport.connectedCalls report)
  /\ optionalInt32 (PartialDailyReport.positiveProspect report)
  /\ optionalInt32 (PartialDailyReport.deadCalls report)
  /\ optionalInt32 (PartialDailyReport.demos report)
  /\ optionalInt32 (PartialDailyReport.admission report)
  /\ optionalInt32 (PartialDailyReport.clientVisit report)
  /\ optionalInt32 (PartialDailyReport.clientClosing report)
  /\ optionalInt32 (PartialDailyReport.backdoorCalls report)
  /\ optionalInt32 (PartialDailyReport.postersDone report)
  /\ (forall day, PartialDailyReport.submissionDate report = Some day ->
                  firstDay <= day <= lastDay).


(** The filters an admin sets to see one employee on the day of [now]. *)
Definition employeeOnDay (employeeId : string) (now : Z) : Filters.t :=
  Filters.mk (Some employeeId) (Some (DateMs now)) (Some (DateMs now)) None None.

(** ** Sample data *)

(** 2025-01-15 and 2025-01-16 as day numbers; noon of 2025-01-15 in
    milliseconds. *)
Definition jan15 : Day := 20103.
Definition jan16 : Day := 20104.
Definition noonJan15 : Z := 1736942400000.


Definition sampleReport (id employeeId : string) (day : Day) (createdAt : Z)
    : DailyReport.t :=
  DailyReport.mk id employeeId "Asha" 10 5 2 1 1 0 0 0 0 (Some 0) day createdAt.

Definition reportA : DailyReport.t := sampleReport "r-a" "EMP001" jan15 noonJan15.
Definition reportB : DailyReport.t := sampleReport "r-b" "EMP001" jan16 (noonJan15 + msPerDay).
Definition reportC : DailyReport.t := sampleReport "r-c" "EMP002" jan15 (noonJan15 + 1000).

Definition sampleEmployee : Employee.t :=
  Employee.mk "u-1" "EMP001" "Asha" "$2b$10$stored" 1000 1000.

Definition sampleAdmin : Admin.t := Admin.mk "a-1" "admin" "$2b$10$admin" 1000.

Definition employeeSession : Session.t :=
  Session.mk "sess_1_emp" "u-1" "employee" (noonJan15 + 7 * msPerDay) noonJan15.

Definition adminSession : Session.t :=
  Session.mk "sess_1_adm" "a-1" "admin" (noonJan15 + 7 * msPerDay) noonJan15.

Definition sampleDb : Db :=
  mkDb [sampleEmployee] [reportA; reportB; reportC] [sampleAdmin]
       [employeeSession; adminSession].

Definition sampleEnv : Env :=
  mkEnv noonJan15 "r-new" "k3j9x0q1z" "salt" sevenDays.

Definition sampleBody : ReportBody.t :=
  ReportBody.mk (JString "EMP999") (JString "Mallory")
    (JNumber 10) (JNumber 5) (JNumber 2) (JNumber 1) (JNumber 1)
    (JNumber 0) (JNumber 0) (JNumber 0) (JNumber 0) JUndefined
    (JString "1999-12-31").

(** Bodies the schema accepts and Postgres does not: a counter beyond
    32 bits, a counter that is not whole. *)
Definition largeCounterBody : ReportBody.t :=
  ReportBody.mk (JString "EMP001") (JString "Asha")
    (JNumber 2147483648) (JNumber 5) (JNumber 2) (JNumber 1) (JNumber 1)
    (JNumber 0) (JNumber 0) (JNumber 0) (JNumber 0) JUndefined
    (JString "2025-01-15").

Definition fractionBody : ReportBody.t :=
  ReportBody.mk (JString "EMP001") (JString "Asha")
    (JNumber 10) (JNumber 5) (JNumber 2) (JNumber 1) (JNumber (3 # 2))
    (JNumber 0) (JNumber 0) (JNumber 0) (JNumber 0) JUndefined
    (JString "2025-01-15").

(** The sample database before any report of the day. *)
Definition morningDb : Db :=
  mkDb [sampleEmployee] [reportC] [sampleAdmin] [employeeSession; adminSession].

(** The row the sample submission stores on [morningDb], and a later
    state of that database: another employee has reported since and the
    admin has logged out. *)
Definition submittedSample : DailyReport.t :=
  DailyReport.mk "r-new" "EMP001" "Asha" 10 5 2 1 1 0 0 0 0 (Some 0)
                 jan15 noonJan15.


(** A stand-in for bcrypt in the examples: the digest embeds the salt
    and the password, and verification recomputes nothing but compares
    the embedded password. *)
Definition sampleHash (data : string) (rounds : Z) (salt : string) : string :=
  ("$2b$" ++ decimal rounds ++ "$" ++ salt ++ "$" ++ data)%string.

Definition sampleCompare (data encrypted : string) : bool :=
  (encrypted =? sampleHash data 10 "salt")%string.

(** A database whose employee and admin hold sample digests of
    "employee123" and "admin123". *)
Definition loginDb : Db :=
  mkDb [Employee.mk "u-1" "EMP001" "Asha" (sampleHash "employee123" 10 "salt") 1000 1000]
       []
       [Admin.mk "a-1" "admin" (sampleHash "admin123" 10 "salt") 1000]
       [].

Definition emptyDb : Db := mkDb [] [] [] [].

(** A database with the sample employee and no admin, and one with the
    sample admin and no employee. *)
Definition employeesOnlyDb : Db :=
  mkDb [Employee.mk "u-1" "EMP001" "Asha" (sampleHash "employee123" 10 "salt") 1000 1000]
       [] [] [].

Definition adminsOnlyDb : Db :=
  mkDb [] [] [Admin.mk "a-1" "admin" (sampleHash "admin123" 10 "salt") 1000] [].

(** * Properties *)

(** Unfolds the plumbing of the computations. *)
Ltac run :=
  cbv beta iota delta
    [bind ret throw tryCatch liftOutcome getDb putDb getEnv
     setEmployees setDailyReports setAdmins setSessions].

(** ** Lists of rows *)

Lemma first_filter_some {A} (p : A -> bool) (rows : list A) (a : A) :
  first (filter p rows) = Some a -> In a rows /\ p a = true.
Proof.
  unfold first. induction rows as [|x rows IH]; simpl; [discriminate|].
  destruct (p x) eqn:Hp; simpl.
  - intros [= <-]. auto.
  - intros H. destruct (IH H). auto.
Qed.

Lemma first_filter_none {A} (p : A -> bool) (rows : list A) :
  first (filter p rows) = None <-> forall a, In a rows -> p a = false.
Proof.
  unfold first. induction rows as [|x rows IH]; simpl.
  - split; [intros _ a []|reflexivity].
  - destruct (p x) eqn:Hp; simpl.
    + split; [discriminate|]. intros H. rewrite (H x) in Hp by auto. discriminate.
    + rewrite IH. split.
      * intros H a [<-|Ha]; auto.
      * intros H a Ha. apply H. auto.
Qed.

(** ** Sessions *)

(** [getSession] only reads, and resolves a token exactly when some row
    carries it with [now <= expiresAt]. *)
Lemma getSession_reads (sessionId : string) (env : Env) (db : Db) :
  snd (getSession sessionId env db) = db.
Proof. reflexivity. Qed.

Lemma getSession_some (sessionId : string) (env : Env) (db : Db) (s : Session.t) :
  fst (getSession sessionId env db) = Ok (Some s) ->
  In s (sessions db) /\ Session.id s = sessionId
  /\ clock env <= Session.expiresAt s.
Proof.
  unfold getSession. run. simpl. intros [= H].
  apply first_filter_some in H. destruct H as [Hin H].
  apply andb_true_iff in H. destruct H as [Hid Hexp].
  apply String.eqb_eq in Hid. apply Z.leb_le in Hexp. auto.
Qed.

Lemma getSession_none (sessionId : string) (env : Env) (db : Db) :
  fst (getSession sessionId env db) = Ok None <->
  forall s, In s (sessions db) -> Session.id s = sessionId ->
            Session.expiresAt s < clock env.
Proof.
  unfold getSession. run. simpl. split.
  - intros [= H] s Hin Hid. rewrite first_filter_none in H.
    specialize (H s Hin). rewrite Hid, String.eqb_refl in H. simpl in H.
    apply Z.leb_gt in H. exact H.
  - intros H. f_equal. apply first_filter_none. intros s Hin.
    destruct (Session.id s =? sessionId)%string eqn:Hid; [|reflexivity].
    apply String.eqb_eq in Hid. simpl. apply Z.leb_gt. auto.
Qed.

(** C3.  At the very instant of its expiry a stored session still
    resolves: [getSession] keeps the rows with [expiresAt >= now], so the
    token is not yet treated as an absent one, although the sweep run at
    the same instant deletes that row as expired. *)
Theorem getSession_resolves_at_expiry_instant
    (s : Session.t) (rest : list Session.t)
    (es : list Employee.t) (rs : list DailyReport.t) (ads : list Admin.t)
    (u r sa : string) (week : N) :
  let db := mkDb es rs ads (s :: rest) in
  let env := mkEnv (Session.expiresAt s) u r sa week in
  fst (getSession (Session.id s) env db) = Ok (Some s)
  /\ fst (getSession (Session.id s) env (mkDb es rs ads [])) = Ok None
  /\ ~ In s (sessions (snd (cleanExpiredSessions env db))).
Proof.
  intros db env. unfold getSession, cleanExpiredSessions. run. simpl.
  rewrite String.eqb_refl, Z.leb_refl. simpl. repeat split.
  intros H. apply filter_In in H. destruct H as [_ H].
  rewrite Z.leb_refl in H. discriminate.
Qed.

(** C8.  The sweep removes exactly the session rows with
    [expiresAt <= now]: the rows that stay are those with [expiresAt > now],
    in their order, and the other three tables are untouched. *)
Theorem cleanExpiredSessions_deletes_exactly_expired (env : Env) (db : Db) :
  let db' := snd (cleanExpiredSessions env db) in
  fst (cleanExpiredSessions env db) = Ok tt
  /\ (forall s, In s (sessions db) -> Session.expiresAt s <= clock env ->
                ~ In s (sessions db'))
  /\ (forall s, In s (sessions db') <->
                In s (sessions db) /\ clock env < Session.expiresAt s)
  /\ sessions db' = filter (fun s => clock env <? Session.expiresAt s) (sessions db)
  /\ employees db' = employees db
  /\ dailyReports db' = dailyReports db
  /\ admins db' = admins db.
Proof.
  unfold cleanExpiredSessions. run. simpl.
  assert (Hf : forall rows : list Session.t,
             filter (fun s => negb (Session.expiresAt s <=? clock env)) rows
             = filter (fun s => clock env <? Session.expiresAt s) rows).
  { intros rows. apply filter_ext. intros s.
    rewrite Z.ltb_antisym. reflexivity. }
  repeat split.
  - intros s _ Hexp Hin. apply filter_In in Hin. destruct Hin as [_ H].
    apply Z.leb_le in Hexp. rewrite Hexp in H. discriminate.
  - apply filter_In in H. tauto.
  - apply filter_In in H. destruct H as [_ H].
    apply negb_true_iff, Z.leb_gt in H. exact H.
  - intros [Hin Hexp]. apply filter_In. split; [exact Hin|].
    apply negb_true_iff, Z.leb_gt. exact Hexp.
  - apply Hf.
Qed.

(** ** Ordering of the rows *)

Lemma inOrder_total (by_ : list Ordering) (r1 r2 : DailyReport.t) :
  inOrder by_ r1 r2 = false -> inOrder by_ r2 r1 = true.
Proof.
  induction by_ as [|[column] by_ IH]; simpl; [discriminate|].
  destruct (column r2 <? column r1) eqn:H21; [discriminate|].
  destruct (column r1 =? column r2) eqn:Heq.
  - intros H. apply Z.eqb_eq in Heq. rewrite Heq, Z.ltb_irrefl, Z.eqb_refl. auto.
  - intros _. apply Z.ltb_ge in H21. apply Z.eqb_neq in Heq.
    assert (H12 : (column r1 <? column r2) = true) by (apply Z.ltb_lt; lia).
    rewrite H12. reflexivity.
Qed.

Lemma inOrder_trans (by_ : list Ordering) (r1 r2 r3 : DailyReport.t) :
  inOrder by_ r1 r2 = true -> inOrder by_ r2 r3 = true ->
  inOrder by_ r1 r3 = true.
Proof.
  induction by_ as [|[column] by_ IH]; simpl; [reflexivity|].
  destruct (column r2 <? column r1) eqn:H21;
    destruct (column r3 <? column r2) eqn:H32;
    destruct (column r1 =? column r2) eqn:H12;
    destruct (column r2 =? column r3) eqn:H23;
    destruct (column r3 <? column r1) eqn:H31;
    destruct (column r1 =? column r3) eqn:H13;
    try reflexivity; try discriminate; auto;
    repeat match goal with
           | H : (_ <? _) = true |- _ => apply Z.ltb_lt in H
           | H : (_ <? _) = false |- _ => apply Z.ltb_ge in H
           | H : (_ =? _) = true |- _ => apply Z.eqb_eq in H
           | H : (_ =? _) = false |- _ => apply Z.eqb_neq in H
           end; lia.
Qed.


Lemma insertSorted_perm (by_ : list Ordering) (r : DailyReport.t)
    (rows : list DailyReport.t) :
  Permutation (insertSorted by_ r rows) (r :: rows).
Proof.
  induction rows as [|r' rows IH]; simpl; [reflexivity|].
  destruct (inOrder by_ r r'); [reflexivity|].
  rewrite IH. apply perm_swap.
Qed.

Lemma orderRows_perm (by_ : list Ordering) (rows : list DailyReport.t) :
  Permutation (orderRows by_ rows) rows.
Proof.
  induction rows as [|r rows IH]; simpl; [reflexivity|].
  rewrite insertSorted_perm. constructor. exact IH.
Qed.

Lemma insertSorted_sorted (by_ : list Ordering) (r : DailyReport.t)
    (rows : list DailyReport.t) :
  StronglySorted (fun a b => inOrder by_ a b = true) rows ->
  StronglySorted (fun a b => inOrder by_ a b = true) (insertSorted by_ r rows).
Proof.
  induction rows as [|r' rows IH]; simpl; intros Hs.
  - constructor; constructor.
  - inversion Hs as [|? ? Hrest Hall]; subst.
    destruct (inOrder by_ r r') eqn:Hrr'.
    + constructor; [exact Hs|]. constructor; [exact Hrr'|].
      eapply Forall_impl; [|exact Hall]. intros a Ha.
      eapply inOrder_trans; eassumption.
    + constructor; [apply IH; exact Hrest|].
      apply inOrder_total in Hrr'.
      eapply Permutation_Forall;
        [symmetry; apply insertSorted_perm|].
      constructor; assumption.
Qed.

Lemma orderRows_sorted (by_ : list Ordering) (rows : list DailyReport.t) :
  StronglySorted (fun a b => inOrder by_ a b = true) (orderRows by_ rows).
Proof.
  induction rows as [|r rows IH]; simpl; [constructor|].
  apply insertSorted_sorted. exact IH.
Qed.


Lemma filter_all {A} (rows : list A) : filter (fun _ => true) rows = rows.
Proof. induction rows; simpl; congruence. Qed.

(** ** [getDailyReports] *)

Lemma isoDate_accepted (ms : Z) :
  firstDay <= ms / msPerDay <= lastDay ->
  isoDate (DateMs ms) = Ok (ms / msPerDay)
  /\ readableDate (ms / msPerDay) = true.
Proof.
  unfold isoDate, readableDate. intros H.
  assert (Hdiv := Z.div_mod ms msPerDay ltac:(unfold msPerDay; lia)).
  assert (Hmod := Z.mod_pos_bound ms msPerDay ltac:(unfold msPerDay; lia)).
  split.
  - replace ((- maxTime <=? ms) && (ms <=? maxTime)) with true; [reflexivity|].
    symmetry. apply andb_true_iff.
    unfold firstDay, lastDay, msPerDay, maxTime in *.
    split; apply Z.leb_le; lia.
  - apply andb_true_iff. split; apply Z.leb_le; lia.
Qed.

(** The query [getDailyReports] builds from its conditions, run. *)
Lemma runQuery_built (conditions : list Condition) (lim off : option Z)
    (env : Env) (db : Db) :
  forallb readable conditions = true ->
  negative off = false ->
  runQuery
    (let query :=
       orderBy (if 0 <? Z.of_nat (List.length conditions)
                then where_ selectFromDailyReports (and_ conditions)
                else selectFromDailyReports) byRecency in
     let query := match lim with
                  | Some n => if truthyNumber n then limit query n else query
                  | None => query end in
     match off with
     | Some n => if truthyNumber n then offset query n else query
     | None => query end) env db
  = (Ok (applyLimit (positiveOnly lim)
           (applyOffset (nonzero off)
              (orderRows byRecency
                 (filter (fun r => forallb (fun c => holds c r) conditions)
                         (dailyReports db))))), db).
Proof.
  intros Hread Hoff.
  assert (Hlim : forall n, truthyNumber n = true ->
                           writtenLimit (Some n) = positiveOnly (Some n)).
  { intros n Hn. unfold truthyNumber in Hn. apply negb_true_iff, Z.eqb_neq in Hn.
    simpl. destruct (0 <=? n) eqn:H1, (0 <? n) eqn:H2; try reflexivity;
      [apply Z.leb_le in H1; apply Z.ltb_ge in H2
      |apply Z.leb_gt in H1; apply Z.ltb_lt in H2]; lia. }
  unfold runQuery. run.
  destruct conditions as [|c conditions].
  - cbn [List.length Z.of_nat Z.ltb Z.compare].
    destruct lim as [n|]; [destruct (truthyNumber n) eqn:Hn|];
      (destruct off as [m|]; [destruct (truthyNumber m) eqn:Hm|]);
      cbn [orderBy limit offset where_ selectFromDailyReports qWhere
           qOrderBy qLimit qOffset conditionsOf forallb negb nonzero
           positiveOnly] in *;
      rewrite ?Hn, ?Hm, ?Hoff, ?filter_all;
      try (rewrite <- (Hlim n Hn)); try reflexivity.
    all: unfold truthyNumber in Hn; apply negb_false_iff, Z.eqb_eq in Hn;
      subst n; reflexivity.
  - replace (0 <? Z.of_nat (List.length (c :: conditions))) with true
      by (symmetry; apply Z.ltb_lt; simpl List.length; lia).
    destruct lim as [n|]; [destruct (truthyNumber n) eqn:Hn|];
      (destruct off as [m|]; [destruct (truthyNumber m) eqn:Hm|]);
      cbn [orderBy limit offset where_ selectFromDailyReports qWhere
           qOrderBy qLimit qOffset conditionsOf nonzero positiveOnly] in *;
      rewrite ?Hn, ?Hm, ?Hread, ?Hoff;
      cbn [negb]; unfold satisfies; cbn [conditionsOf];
      try (rewrite <- (Hlim n Hn)); try reflexivity.
    all: unfold truthyNumber in Hn; apply negb_false_iff, Z.eqb_eq in Hn;
      subst n; reflexivity.
Qed.

(** With dates Postgres reads and no negative offset, the query is the
    WHERE of the effective filters, the two-column ORDER BY, the offset
    that is not zero and the limit that is positive. *)
Lemma getDailyReports_run (filters : option Filters.t) (env : Env) (db : Db) :
  let f := filtersOf filters in
  acceptedDate (Filters.startDate f) -> acceptedDate (Filters.endDate f) ->
  negative (Filters.offset f) = false ->
  getDailyReports filters env db
  = (Ok (applyLimit (positiveOnly (Filters.limit f))
           (applyOffset (nonzero (Filters.offset f))
              (orderRows byRecency
                 (filter (effectiveFilters f) (dailyReports db))))), db).
Proof.
  destruct filters as [[eid sd ed lim off]|]; cbn [filtersOf noFilters
    Filters.startDate Filters.endDate Filters.limit Filters.offset].
  2: { intros _ _ _. unfold getDailyReports, runQuery. run. simpl.
       unfold effectiveFilters; simpl. rewrite filter_all. reflexivity. }
  intros Hsd Hed Hoff.
  pose (conditions :=
          ((match eid with
            | Some v => if truthyString v then [eqEmployeeId v] else []
            | None => []
            end)
           ++ (match sd with
               | Some (DateMs s) => [gteSubmissionDate (s / msPerDay)]
               | _ => []
               end)
           ++ (match ed with
               | Some (DateMs e) => [lteSubmissionDate (e / msPerDay)]
               | _ => []
               end))%list).
  assert (Hread : forallb readable conditions = true).
  { unfold conditions. rewrite !forallb_app.
    destruct eid as [v|]; [destruct (truthyString v)|];
      (destruct sd as [[s|]|]; [destruct (isoDate_accepted s Hsd) as [_ Hs]|destruct Hsd|]);
      (destruct ed as [[e|]|]; [destruct (isoDate_accepted e Hed) as [_ He]|destruct Hed|]);
      cbn [forallb readable andb]; rewrite ?Hs, ?He; reflexivity. }
  assert (Hext : filter (fun r => forallb (fun c => holds c r) conditions)
                        (dailyReports db)
                 = filter (effectiveFilters (Filters.mk eid sd ed lim off))
                          (dailyReports db)).
  { apply filter_ext. intros r. unfold conditions, effectiveFilters.
    rewrite !forallb_app.
    cbn [Filters.employeeId Filters.startDate Filters.endDate].
    destruct eid as [v|]; [destruct (truthyString v)|];
      (destruct sd as [[s|]|]; [|destruct Hsd|]);
      (destruct ed as [[e|]|]; [|destruct Hed|]);
      cbn [forallb holds onOrAfter onOrBefore andb];
      rewrite ?andb_true_r, ?andb_assoc; reflexivity. }
  rewrite <- Hext, <- (runQuery_built conditions lim off env db Hread Hoff).
  unfold getDailyReports, conditions. run.
  destruct eid as [v|]; [destruct (truthyString v) eqn:Hv|];
    (destruct sd as [[s|]|]; [destruct (isoDate_accepted s Hsd) as [Hs _]|destruct Hsd|]);
    (destruct ed as [[e|]|]; [destruct (isoDate_accepted e Hed) as [He _]|destruct Hed|]);
    cbn [Filters.employeeId Filters.startDate Filters.endDate Filters.limit
         Filters.offset app];
    rewrite ?Hv, ?Hs, ?He; reflexivity.
Qed.






(** On the sample table a limit of zero returns all three reports, and
    so does a negative limit. *)
Example getDailyReports_limit_zero_returns_all :
  fst (getDailyReports (Some (Filters.mk None None None (Some 0) (Some 0)))
                       sampleEnv sampleDb)
  = Ok [reportB; reportC; reportA]
  /\ fst (getDailyReports (Some (Filters.mk None None None (Some (-1)) None))
                          sampleEnv sampleDb)
     = Ok [reportB; reportC; reportA].
Proof. split; reflexivity. Qed.

(** ** The middleware *)

Lemma authenticate_reads (kind : string) (authorization : option string)
    (env : Env) (db : Db) :
  exists m, authenticate kind authorization env db = (Ok m, db).
Proof.
  unfold authenticate, getSession. run.
  destruct authorization as [h|]; simpl; [|eauto].
  destruct (truthyString (replace "Bearer " "" h)); simpl; [|eauto].
  destruct (first _) as [s|]; simpl; [|eauto].
  destruct (Session.userType s =? kind)%string; simpl; eauto.
Qed.

Lemma authenticate_next (kind : string) (authorization : option string)
    (env : Env) (db : Db) (session : ReqSession) :
  fst (authenticate kind authorization env db) = Ok (next session) ->
  exists header row,
    authorization = Some header
    /\ fst (getSession (replace "Bearer " "" header) env db) = Ok (Some row)
    /\ Session.userType row = kind
    /\ session = mkReqSession (Session.id row) (Session.userId row)
                              (Session.userType row).
Proof.
  unfold authenticate, getSession. run.
  destruct authorization as [h|]; simpl; [|discriminate].
  destruct (truthyString (replace "Bearer " "" h)); simpl; [|discriminate].
  destruct (first _) as [s|] eqn:Hs; simpl; [|discriminate].
  destruct (Session.userType s =? kind)%string eqn:Hk; simpl; [|discriminate].
  intros [= <-]. exists h, s. apply String.eqb_eq in Hk.
  repeat split; simpl; rewrite ?Hs; auto.
Qed.

Lemma guarded_next (middleware : option string -> M Middleware)
    (handler : ReqSession -> M Response) (authorization : option string)
    (env : Env) (db : Db) (session : ReqSession) :
  middleware authorization env db = (Ok (next session), db) ->
  guarded middleware handler authorization env db = handler session env db.
Proof. unfold guarded. run. intros ->. reflexivity. Qed.

Lemma guarded_answered (middleware : option string -> M Middleware)
    (handler : ReqSession -> M Response) (authorization : option string)
    (env : Env) (db : Db) (res : Response) :
  middleware authorization env db = (Ok (answered res), db) ->
  guarded middleware handler authorization env db = (Ok res, db).
Proof. unfold guarded. run. intros ->. reflexivity. Qed.

(** ** Report submission *)

Lemma andThen_ok {A B} (o : Outcome A) (k : A -> Outcome B) (b : B) :
  andThen o k = Ok b -> exists a, o = Ok a /\ k a = Ok b.
Proof. destruct o as [a|e]; simpl; [eauto|discriminate]. Qed.

Lemma dateIn_ok (day day' : Day) :
  dateIn day = Ok day' -> day' = day /\ readableDate day = true.
Proof.
  unfold dateIn. destruct (readableDate day); [|discriminate].
  intros [= <-]. auto.
Qed.

Lemma readableDate_accepted (day : Day) :
  readableDate day = true -> firstDay <= day <= lastDay.
Proof.
  unfold readableDate. intros H. apply andb_true_iff in H.
  destruct H as [H1 H2]. apply Z.leb_le in H1, H2. auto.
Qed.

(** A day Postgres reads is a day [new Date] and [toISOString] give
    back. *)
Lemma isoDate_newDateOfDay (day : Day) :
  readableDate day = true -> isoDate (newDateOfDay day) = Ok day.
Proof.
  intros H. apply readableDate_accepted in H.
  unfold newDateOfDay.
  assert (Hday : day * msPerDay / msPerDay = day)
    by (apply Z.div_mul; unfold msPerDay; lia).
  destruct (isoDate_accepted (day * msPerDay)) as [Hiso _];
    rewrite Hday in *; auto.
Qed.

Lemma isoDate_ok (ms : Z) (day : Day) :
  isoDate (DateMs ms) = Ok day -> day = ms / msPerDay.
Proof.
  unfold isoDate. destruct (_ && _); [|discriminate]. intros [= <-]. reflexivity.
Qed.

(** What the stored row takes from the values of the insert. *)
Lemma newDailyReport_ok (id : string) (createdAt : Z)
    (r : InsertDailyReport.t) (report : DailyReport.t) :
  newDailyReport id createdAt r = Ok report ->
  DailyReport.id report = id
  /\ DailyReport.employeeId report = InsertDailyReport.employeeId r
  /\ DailyReport.employeeName report = InsertDailyReport.employeeName r
  /\ DailyReport.submissionDate report = InsertDailyReport.submissionDate r
  /\ readableDate (DailyReport.submissionDate report) = true
  /\ DailyReport.createdAt report = createdAt
  /\ integerIn (InsertDailyReport.numberOfDials r)
     = Ok (DailyReport.numberOfDials report)
  /\ integerIn (InsertDailyReport.connectedCalls r)
     = Ok (DailyReport.connectedCalls report)
  /\ integerIn (InsertDailyReport.positiveProspect r)
     = Ok (DailyReport.positiveProspect report)
  /\ integerIn (InsertDailyReport.deadCalls r)
     = Ok (DailyReport.deadCalls report)
  /\ integerIn (InsertDailyReport.demos r) = Ok (DailyReport.demos report)
  /\ integerIn (InsertDailyReport.admission r)
     = Ok (DailyReport.admission report)
  /\ integerIn (InsertDailyReport.clientVisit r)
     = Ok (DailyReport.clientVisit report)
  /\ integerIn (InsertDailyReport.clientClosing r)
     = Ok (DailyReport.clientClosing report)
  /\ integerIn (InsertDailyReport.backdoorCalls r)
     = Ok (DailyReport.backdoorCalls report)
  /\ exists n, DailyReport.postersDone report = Some n
               /\ match InsertDailyReport.postersDone r with
                  | Some v => integerIn v = Ok n
                  | None => n = 0
                  end.
Proof.
  unfold newDailyReport. intros H.
  repeat match type of H with
         | andThen _ _ = Ok _ =>
             apply andThen_ok in H;
             let a := fresh "a" in
             let Ha := fresh "Ha" in
             destruct H as (a & Ha & H)
         end.
  injection H as <-. cbn [DailyReport.id DailyReport.employeeId
    DailyReport.employeeName DailyReport.submissionDate DailyReport.createdAt
    DailyReport.numberOfDials DailyReport.connectedCalls
    DailyReport.positiveProspect DailyReport.deadCalls DailyReport.demos
    DailyReport.admission DailyReport.clientVisit DailyReport.clientClosing
    DailyReport.backdoorCalls DailyReport.postersDone].
  match goal with
  | Hd : dateIn _ = Ok _ |- _ => apply dateIn_ok in Hd; destruct Hd as [-> Hd]
  end.
  repeat split; auto.
  eexists. split; [reflexivity|].
  destruct (InsertDailyReport.postersDone r); [assumption|congruence].
Qed.

Lemma submitReport_ok (reqBody : ReportBody.t) (session : ReqSession)
    (env : Env) (db db' : Db) (report : DailyReport.t) :
  submitReport reqBody session env db
  = (Ok (json 200 (ReportSubmitted report)), db') ->
  exists employee data,
    fst (getEmployee (userId session) env db) = Ok (Some employee)
    /\ insertDailyReportSchema reqBody = Ok data
    /\ isoDate (DateMs (clock env)) = Ok (clock env / msPerDay)
    /\ fst (checkExistingReport (Employee.employeeId employee)
                                (newDateOfDay (clock env / msPerDay)) env db)
       = Ok None
    /\ submittedReport employee data env = Ok report
    /\ db' = mkDb (employees db) (dailyReports db ++ [report])
                  (admins db) (sessions db).
Proof.
  unfold submitReport, getEmployee, checkExistingReport, createDailyReport,
    writeDailyReports, catchZod, submittedReport. run.
  cbn [fst snd].
  destruct (first (filter _ (employees db))) as [employee|];
    [|discriminate].
  destruct (insertDailyReportSchema reqBody) as [data|e];
    [|destruct e; discriminate].
  destruct (isoDate (DateMs (clock env))) as [today|e] eqn:Htoday;
    [|destruct e; discriminate].
  pose proof (isoDate_ok _ _ Htoday) as ->.
  destruct (isoDate (newDateOfDay (clock env / msPerDay))) as [day|e] eqn:Hday;
    [|destruct e; discriminate].
  destruct (dateIn day) as [day'|e] eqn:Hin; [|destruct e; discriminate].
  destruct (first (filter _ (dailyReports db))) as [existing|] eqn:Hex;
    [discriminate|].
  destruct (newDailyReport _ _ _) as [stored|e] eqn:Hnew;
    [|destruct e; discriminate].
  destruct (uniqueText _); [|discriminate].
  intros [= <- <-]. exists employee, data.
  repeat split; cbn [fst]; rewrite ?Hex; try exact Hnew; reflexivity.
Qed.

Lemma postReportsSubmit_ok (reqBody : ReportBody.t)
    (authorization : option string) (env : Env) (db db' : Db)
    (report : DailyReport.t) :
  postReportsSubmit reqBody authorization env db
  = (Ok (json 200 (ReportSubmitted report)), db') ->
  exists session,
    fst (authenticateEmployee authorization env db) = Ok (next session)
    /\ submitReport reqBody session env db
       = (Ok (json 200 (ReportSubmitted report)), db').
Proof.
  unfold postReportsSubmit, authenticateEmployee.
  destruct (authenticate_reads "employee" authorization env db) as [m Hm].
  destruct m as [res|session].
  - rewrite (guarded_answered _ _ _ _ _ _ Hm). intros [= -> <-].
    exfalso. revert Hm. unfold authenticate, getSession. run.
    destruct authorization as [h|]; simpl; [|discriminate].
    destruct (truthyString _); simpl; [|discriminate].
    destruct (first _) as [s|]; simpl; [|discriminate].
    destruct (_ =? _)%string; simpl; discriminate.
  - rewrite (guarded_next _ _ _ _ _ _ Hm). intros H. exists session.
    rewrite Hm. auto.
Qed.

(** The report a successful submission returns carries the business id
    of the employee of the session and a day Postgres reads. *)
Lemma submitReport_stored (reqBody : ReportBody.t) (session : ReqSession)
    (env : Env) (db db' : Db) (report : DailyReport.t) :
  submitReport reqBody session env db
  = (Ok (json 200 (ReportSubmitted report)), db') ->
  DailyReport.submissionDate report = clock env / msPerDay
  /\ readableDate (DailyReport.submissionDate report) = true
  /\ DailyReport.id report = uuid env
  /\ dailyReports db' = (dailyReports db ++ [report])%list.
Proof.
  intros H. apply submitReport_ok in H.
  destruct H as (employee & data & _ & _ & _ & _ & Hreport & ->).
  apply newDailyReport_ok in Hreport.
  destruct Hreport as (Hid & _ & _ & Hdate & Hread & _).
  auto.
Qed.

(** The existence check finds a stored report of the employee and the
    day. *)
Lemma checkExistingReport_found (employeeId : string) (report : DailyReport.t)
    (env : Env) (db : Db) :
  In report (dailyReports db) ->
  DailyReport.employeeId report = employeeId ->
  readableDate (DailyReport.submissionDate report) = true ->
  exists existing,
    checkExistingReport employeeId
      (newDateOfDay (DailyReport.submissionDate report)) env db
    = (Ok (Some existing), db).
Proof.
  intros Hin HE Hread. unfold checkExistingReport, dateIn. run.
  rewrite (isoDate_newDateOfDay _ Hread), Hread.
  destruct (first (filter _ (dailyReports db))) as [existing|] eqn:Hex;
    [eauto|].
  exfalso. rewrite first_filter_none in Hex. specialize (Hex report Hin).
  cbv beta in Hex.
  rewrite HE, String.eqb_refl, Z.eqb_refl in Hex. discriminate.
Qed.



(** The counters of a parsed body do not depend on its identity
    fields. *)
Lemma insertDailyReportSchema_withIdentity (reqBody : ReportBody.t)
    (data : ReportData.t) (employeeId employeeName submissionDate : string) :
  insertDailyReportSchema reqBody = Ok data ->
  insertDailyReportSchema
    (withIdentity reqBody (JString employeeId) (JString employeeName)
                  (JString submissionDate))
  = Ok (ReportData.mk employeeId employeeName
          (ReportData.numberOfDials data) (ReportData.connectedCalls data)
          (ReportData.positiveProspect data) (ReportData.deadCalls data)
          (ReportData.demos data) (ReportData.admission data)
          (ReportData.clientVisit data) (ReportData.clientClosing data)
          (ReportData.backdoorCalls data) (ReportData.postersDone data)
          submissionDate).
Proof.
  unfold insertDailyReportSchema. intros H.
  repeat match type of H with
         | andThen _ _ = Ok _ =>
             apply andThen_ok in H;
             let a := fresh "a" in
             let Ha := fresh "Ha" in
             destruct H as (a & Ha & H)
         end.
  injection H as <-. simpl.
  repeat match goal with
         | Ha : ?o = Ok _ |- context [andThen ?o _] => rewrite Ha; simpl
         end.
  reflexivity.
Qed.

(** The handler uses the parsed body through its counters only. *)
Lemma submitReport_counters (body1 body2 : ReportBody.t)
    (data1 data2 : ReportData.t) (session : ReqSession) (env : Env) (db : Db) :
  insertDailyReportSchema body1 = Ok data1 ->
  insertDailyReportSchema body2 = Ok data2 ->
  (forall employee, submittedReport employee data1 env
                    = submittedReport employee data2 env) ->
  submitReport body1 session env db = submitReport body2 session env db.
Proof.
  intros H1 H2 Hsame.
  unfold submitReport, getEmployee, checkExistingReport, createDailyReport,
    writeDailyReports, catchZod. run. cbn [fst snd].
  destruct (first (filter _ (employees db))) as [employee|];
    [|reflexivity].
  rewrite H1, H2.
  destruct (isoDate (DateMs (clock env))) as [today|e] eqn:Htoday;
    [|reflexivity].
  pose proof (isoDate_ok _ _ Htoday) as ->.
  destruct (isoDate (newDateOfDay _)) as [day|e]; [|reflexivity].
  destruct (dateIn day) as [day'|e]; [|reflexivity].
  destruct (first (filter _ (dailyReports db))); [reflexivity|].
  specialize (Hsame employee). unfold submittedReport in Hsame.
  cbn [ReportData.numberOfDials ReportData.connectedCalls
       ReportData.positiveProspect ReportData.deadCalls ReportData.demos
       ReportData.admission ReportData.clientVisit ReportData.clientClosing
       ReportData.backdoorCalls ReportData.postersDone] in *.
  rewrite Hsame. reflexivity.
Qed.

(** C9.  The report a successful submission persists carries the
    employee id and name of the stored employee row whose id the session
    row of the token holds, and the server's current date; whatever texts
    the body gives for [employeeId], [employeeName] and [submissionDate],
    the response and the database afterwards are the same. *)
Theorem submitted_report_identity_from_session
    (reqBody : ReportBody.t) (authorization : option string)
    (env : Env) (db db' : Db) (report : DailyReport.t) :
  postReportsSubmit reqBody authorization env db
  = (Ok (json 200 (ReportSubmitted report)), db') ->
  (exists header row employee,
     authorization = Some header
     /\ In row (sessions db)
     /\ Session.id row = replace "Bearer " "" header
     /\ Session.userType row = "employee"%string
     /\ fst (getSession (replace "Bearer " "" header) env db) = Ok (Some row)
     /\ In employee (employees db)
     /\ Employee.id employee = Session.userId row
     /\ fst (getEmployee (Session.userId row) env db) = Ok (Some employee)
     /\ DailyReport.employeeId report = Employee.employeeId employee
     /\ DailyReport.employeeName report = Employee.employeeName employee
     /\ DailyReport.submissionDate report = clock env / msPerDay
     /\ dailyReports db' = (dailyReports db ++ [report])%list)
  /\ (forall employeeId employeeName submissionDate : string,
        postReportsSubmit
          (withIdentity reqBody (JString employeeId) (JString employeeName)
                        (JString submissionDate))
          authorization env db
        = (Ok (json 200 (ReportSubmitted report)), db')).
Proof.
  intros H. pose proof H as H0.
  apply postReportsSubmit_ok in H. destruct H as (session & Hauth & Hsubmit).
  pose proof Hsubmit as Hsubmit0.
  apply submitReport_ok in Hsubmit.
  destruct Hsubmit as (employee & data & Hemp & Hparse & _ & _ & Hreport & Hdb').
  apply authenticate_next in Hauth.
  destruct Hauth as (header & row & -> & Hrow & Hkind & ->).
  split.
  - exists header, row, employee. cbn [userId] in Hemp.
    pose proof Hrow as Hrow0. apply getSession_some in Hrow0.
    destruct Hrow0 as (Hin & Hid & _).
    pose proof Hemp as Hemp0. unfold getEmployee in Hemp0. revert Hemp0. run.
    cbn [fst]. intros [= Hemp0]. apply first_filter_some in Hemp0.
    destruct Hemp0 as [Hine Hide]. apply String.eqb_eq in Hide.
    apply newDailyReport_ok in Hreport.
    destruct Hreport as (_ & HE & HN & HD & _).
    subst db'. cbn [dailyReports] in *. repeat split; auto.
  - intros employeeId employeeName submissionDate.
    rewrite <- H0. unfold postReportsSubmit, guarded. run.
    destruct (authenticateEmployee (Some header) env db) as [[[res|session]|e] db1];
      try reflexivity.
    apply (submitReport_counters _ _ _ _ _ _ _
             (insertDailyReportSchema_withIdentity _ _ _ _ _ Hparse) Hparse).
    intros employee0. reflexivity.
Qed.

Lemma submitted_report_identity_from_session_witness :
  exists report db',
    postReportsSubmit
      (withIdentity sampleBody (JString "EMP001") (JString "Asha")
                    (JString "2025-01-15"))
      (Some "Bearer sess_1_emp") sampleEnv morningDb
    = (Ok (json 200 (ReportSubmitted report)), db')
    /\ DailyReport.employeeId report = "EMP001"%string.
Proof.
  exists submittedSample.
  exists (snd (postReportsSubmit sampleBody (Some "Bearer sess_1_emp")
                                 sampleEnv morningDb)).
  split; [|reflexivity].
  apply (submitted_report_identity_from_session
           sampleBody (Some "Bearer sess_1_emp") sampleEnv morningDb).
  vm_compute; reflexivity.
Defined.

(** ** Credentials *)

(** C4.  A login for an identifier that no account carries and a login
    for an existing account with a password that fails verification get
    the same [null] from the credential check and the same 401 response,
    and neither touches the database; for employees, and likewise for
    admins. *)
Theorem login_rejections_indistinguishable
    (bcrypt_compare : string -> string -> bool) :
  (forall (reqBody : EmployeeLoginBody.t) (employeeId password : string)
          (envA envB : Env) (dbA dbB : Db) (employee : Employee.t),
     employeeLoginSchema reqBody = Ok (employeeId, password) ->
     fst (getEmployeeByEmployeeId employeeId envA dbA) = Ok None ->
     fst (getEmployeeByEmployeeId employeeId envB dbB) = Ok (Some employee) ->
     bcrypt_compare password (Employee.passwordHash employee) = false ->
     validateEmployeeCredentials bcrypt_compare employeeId password envA dbA
     = (Ok None, dbA)
     /\ validateEmployeeCredentials bcrypt_compare employeeId password envB dbB
        = (Ok None, dbB)
     /\ postEmployeeLogin bcrypt_compare reqBody envA dbA
        = (Ok (json 401 (Message "Invalid employee ID or password")), dbA)
     /\ postEmployeeLogin bcrypt_compare reqBody envB dbB
        = (Ok (json 401 (Message "Invalid employee ID or password")), dbB))
  /\ (forall (reqBody : AdminLoginBody.t) (username password : string)
             (envA envB : Env) (dbA dbB : Db) (admin : Admin.t),
        adminLoginSchema reqBody = Ok (username, password) ->
        fst (getAdminByUsername username envA dbA) = Ok None ->
        fst (getAdminByUsername username envB dbB) = Ok (Some admin) ->
        bcrypt_compare password (Admin.passwordHash admin) = false ->
        validateAdminCredentials bcrypt_compare username password envA dbA
        = (Ok None, dbA)
        /\ validateAdminCredentials bcrypt_compare username password envB dbB
           = (Ok None, dbB)
        /\ postAdminLogin bcrypt_compare reqBody envA dbA
           = (Ok (json 401 (Message "Invalid username or password")), dbA)
        /\ postAdminLogin bcrypt_compare reqBody envB dbB
           = (Ok (json 401 (Message "Invalid username or password")), dbB)).
Proof.
  split.
  - intros reqBody employeeId password envA envB dbA dbB employee
           Hbody Hno Hsome Hpw.
    unfold postEmployeeLogin, validateEmployeeCredentials, catchZod.
    revert Hno Hsome. unfold getEmployeeByEmployeeId. run. simpl.
    intros [= Hno] [= Hsome].
    rewrite Hbody. simpl. rewrite Hno, Hsome. simpl. rewrite Hpw.
    repeat split; reflexivity.
  - intros reqBody username password envA envB dbA dbB admin
           Hbody Hno Hsome Hpw.
    unfold postAdminLogin, validateAdminCredentials, catchZod.
    revert Hno Hsome. unfold getAdminByUsername. run. simpl.
    intros [= Hno] [= Hsome].
    rewrite Hbody. simpl. rewrite Hno, Hsome. simpl. rewrite Hpw.
    repeat split; reflexivity.
Qed.

Lemma login_rejections_indistinguishable_witness :
  (postEmployeeLogin sampleCompare
     (EmployeeLoginBody.mk (JString "EMP001") (JString "guess")) sampleEnv emptyDb
   = (Ok (json 401 (Message "Invalid employee ID or password")), emptyDb)
   /\ postEmployeeLogin sampleCompare
        (EmployeeLoginBody.mk (JString "EMP001") (JString "guess")) sampleEnv
        employeesOnlyDb
      = (Ok (json 401 (Message "Invalid employee ID or password")),
         employeesOnlyDb))
  /\ (postAdminLogin sampleCompare
        (AdminLoginBody.mk (JString "admin") (JString "guess")) sampleEnv emptyDb
      = (Ok (json 401 (Message "Invalid username or password")), emptyDb)
      /\ postAdminLogin sampleCompare
           (AdminLoginBody.mk (JString "admin") (JString "guess")) sampleEnv
           adminsOnlyDb
         = (Ok (json 401 (Message "Invalid username or password")),
            adminsOnlyDb)).
Proof.
  split.
  - destruct (proj1 (login_rejections_indistinguishable sampleCompare)
                (EmployeeLoginBody.mk (JString "EMP001") (JString "guess"))
                "EMP001" "guess" sampleEnv sampleEnv emptyDb employeesOnlyDb
                (Employee.mk "u-1" "EMP001" "Asha"
                             (sampleHash "employee123" 10 "salt") 1000 1000)
                eq_refl eq_refl eq_refl eq_refl)
      as (_ & _ & HA & HB).
    split; [exact HA|exact HB].
  - destruct (proj2 (login_rejections_indistinguishable sampleCompare)
                (AdminLoginBody.mk (JString "admin") (JString "guess"))
                "admin" "guess" sampleEnv sampleEnv emptyDb adminsOnlyDb
                (Admin.mk "a-1" "admin" (sampleHash "admin123" 10 "salt") 1000)
                eq_refl eq_refl eq_refl eq_refl)
      as (_ & _ & HA & HB).
    split; [exact HA|exact HB].
Defined.

(** ** Wrong-kind tokens *)

(** C5, as amended.  On every endpoint behind [authenticateEmployee] or
    [authenticateAdmin], a token that resolves to a live session of
    another kind is answered 401 with the body of an unknown or expired
    token, "Invalid or expired session", and the handler does not run;
    a request without token is answered 401 too, with its own body. *)
Theorem wrong_kind_token_answered_as_invalid
    (kind : string) (handler : ReqSession -> M Response)
    (header other : string) (row : Session.t) (env : Env) (db : Db) :
  truthyString (replace "Bearer " "" header) = true ->
  fst (getSession (replace "Bearer " "" header) env db) = Ok (Some row) ->
  Session.userType row <> kind ->
  truthyString (replace "Bearer " "" other) = true ->
  fst (getSession (replace "Bearer " "" other) env db) = Ok None ->
  guarded (authenticate kind) handler (Some header) env db
  = (Ok (json 401 (Message "Invalid or expired session")), db)
  /\ guarded (authenticate kind) handler (Some other) env db
     = (Ok (json 401 (Message "Invalid or expired session")), db)
  /\ guarded (authenticate kind) handler None env db
     = (Ok (json 401 (Message "No session token provided")), db).
Proof.
  intros Htok Hrow Hkind Htok' Hnone.
  revert Hrow Hnone. unfold guarded, authenticate, getSession. run. simpl.
  rewrite Htok, Htok'. simpl.
  intros [= ->] [= ->]. simpl.
  apply String.eqb_neq in Hkind. rewrite Hkind. simpl. auto.
Qed.

Lemma wrong_kind_token_answered_as_invalid_witness :
  getEmployeeMe (Some "Bearer sess_1_adm") sampleEnv sampleDb
  = (Ok (json 401 (Message "Invalid or expired session")), sampleDb)
  /\ getEmployeeMe (Some "Bearer sess_0_gone") sampleEnv sampleDb
     = (Ok (json 401 (Message "Invalid or expired session")), sampleDb).
Proof.
  destruct (wrong_kind_token_answered_as_invalid
              "employee"
              (fun session =>
                 tryCatch
                   (employee <- getEmployee (userId session) ;;
                    match employee with
                    | None => ret (json 404 (Message "Employee not found"))
                    | Some employee =>
                        ret (json 200 (EmployeeInfo (Employee.id employee)
                                         (Employee.employeeId employee)
                                         (Employee.employeeName employee)))
                    end)
                   (fun _ => ret internalServerError))
              "Bearer sess_1_adm" "Bearer sess_0_gone" adminSession
              sampleEnv sampleDb
              eq_refl eq_refl
              (fun H : Session.userType adminSession = "employee"%string =>
                 eq_ind "admin"%string
                        (fun s => if (s =? "admin")%string then True else False)
                        I "employee"%string H)
              eq_refl eq_refl)
    as (H1 & H2 & _).
  split; [exact H1|exact H2].
Defined.

(** C5, as stated, fails: an admin's live token on an employee endpoint
    and no token at all get different bodies. *)
Lemma wrong_kind_token_differs_from_no_token :
  getEmployeeMe (Some "Bearer sess_1_adm") sampleEnv sampleDb
  = (Ok (json 401 (Message "Invalid or expired session")), sampleDb)
  /\ getEmployeeMe None sampleEnv sampleDb
     = (Ok (json 401 (Message "No session token provided")), sampleDb)
  /\ getEmployeeMe (Some "Bearer sess_1_adm") sampleEnv sampleDb
     <> getEmployeeMe None sampleEnv sampleDb.
Proof.
  split; [vm_compute; reflexivity|].
  split; [vm_compute; reflexivity|].
  vm_compute. discriminate.
Qed.

(** ** Partial updates *)

Lemma Forall2_map_same {A} (R : A -> A -> Prop) (f : A -> A) (rows : list A) :
  (forall a, R a (f a)) -> Forall2 R rows (map f rows).
Proof. intros H. induction rows; simpl; constructor; auto. Qed.

Lemma Forall2_same {A} (R : A -> A -> Prop) (rows : list A) :
  (forall a, R a a) -> Forall2 R rows rows.
Proof. intros H. induction rows; constructor; auto. Qed.

Lemma employeeFrame_refl (id : string) (updates : PartialEmployee.t)
    (e : Employee.t) :
  employeeFrame id updates e e.
Proof. unfold employeeFrame, keeps. tauto. Qed.

Lemma reportFrame_refl (id : string) (report : PartialDailyReport.t)
    (r : DailyReport.t) :
  reportFrame id report r r.
Proof. unfold reportFrame, keeps. tauto. Qed.

Lemma setEmployee_frame (id : string) (updateData : PartialEmployee.t)
    (updates : PartialEmployee.t) (updatedAt : Z) (e : Employee.t) :
  PartialEmployee.employeeId updateData = PartialEmployee.employeeId updates ->
  PartialEmployee.employeeName updateData = PartialEmployee.employeeName updates ->
  (PartialEmployee.passwordHash updates = None ->
   PartialEmployee.passwordHash updateData = None) ->
  employeeFrame id updates e
    (if (Employee.id e =? id)%string then setEmployee updateData updatedAt e else e).
Proof.
  intros Hid Hname Hpw.
  destruct (Employee.id e =? id)%string eqn:Heq; [|apply employeeFrame_refl].
  apply String.eqb_eq in Heq.
  unfold employeeFrame, keeps, setEmployee; simpl.
  rewrite Hid, Hname.
  repeat split; try congruence.
  - intros ->. reflexivity.
  - intros ->. reflexivity.
  - intros H. rewrite (Hpw H). reflexivity.
Qed.

Lemma supplied_none {A B} (read : A -> Outcome B) (v : option A)
    (w : option B) :
  supplied read v = Ok w -> v = None -> w = None.
Proof. intros H ->. simpl in H. congruence. Qed.

(** What Postgres reads from the partial report, column by column. *)
Lemma columnsIn_ok (report : PartialDailyReport.t) (values : ReportColumns.t) :
  columnsIn report = Ok values ->
  ReportColumns.employeeId values = PartialDailyReport.employeeId report
  /\ ReportColumns.employeeName values = PartialDailyReport.employeeName report
  /\ supplied integerIn (PartialDailyReport.numberOfDials report)
     = Ok (ReportColumns.numberOfDials values)
  /\ supplied integerIn (PartialDailyReport.connectedCalls report)
     = Ok (ReportColumns.connectedCalls values)
  /\ supplied integerIn (PartialDailyReport.positiveProspect report)
     = Ok (ReportColumns.positiveProspect values)
  /\ supplied integerIn (PartialDailyReport.deadCalls report)
     = Ok (ReportColumns.deadCalls values)
  /\ supplied integerIn (PartialDailyReport.demos report)
     = Ok (ReportColumns.demos values)
  /\ supplied integerIn (PartialDailyReport.admission report)
     = Ok (ReportColumns.admission values)
  /\ supplied integerIn (PartialDailyReport.clientVisit report)
     = Ok (ReportColumns.clientVisit values)
  /\ supplied integerIn (PartialDailyReport.clientClosing report)
     = Ok (ReportColumns.clientClosing values)
  /\ supplied integerIn (PartialDailyReport.backdoorCalls report)
     = Ok (ReportColumns.backdoorCalls values)
  /\ supplied integerIn (PartialDailyReport.postersDone report)
     = Ok (ReportColumns.postersDone values)
  /\ supplied dateIn (PartialDailyReport.submissionDate report)
     = Ok (ReportColumns.submissionDate values).
Proof.
  unfold columnsIn. intros H.
  repeat match type of H with
         | andThen _ _ = Ok _ =>
             apply andThen_ok in H;
             let a := fresh "a" in
             let Ha := fresh "Ha" in
             destruct H as (a & Ha & H)
         end.
  injection H as <-. simpl. repeat split; assumption.
Qed.

Lemma setDailyReport_frame (id : string) (report : PartialDailyReport.t)
    (values : ReportColumns.t) (r : DailyReport.t) :
  columnsIn report = Ok values ->
  reportFrame id report r
    (if (DailyReport.id r =? id)%string then setDailyReport values r else r).
Proof.
  intros Hvalues.
  destruct (DailyReport.id r =? id)%string eqn:Heq; [|apply reportFrame_refl].
  apply String.eqb_eq in Heq. apply columnsIn_ok in Hvalues.
  destruct Hvalues as (H1 & H2 & H3 & H4 & H5 & H6 & H7 & H8 & H9 & H10 & H11
                       & H12 & H13).
  unfold reportFrame, keeps, setDailyReport; simpl.
  rewrite H1, H2.
  repeat split; try congruence; intros Hnone;
    try (rewrite Hnone; reflexivity);
    match goal with
    | H : supplied _ ?v = Ok _ |- _ =>
        match type of Hnone with
        | v = None => rewrite (supplied_none _ _ _ H Hnone); reflexivity
        end
    end.
Qed.

(** C7, as amended.  [updateEmployee] and [updateDailyReport] touch only
    their own table, leave the rows with another id as they are and, on
    the row with the given id, keep [id], [createdAt] and every column
    the partial update does not supply -- the stored password hash when
    the password is omitted; [updateEmployee] always sets [updatedAt] to
    the time of the update, and a supplied password that is not empty is
    stored as its bcrypt digest. *)
Theorem partial_update_keeps_unsupplied_columns
    (bcrypt_hash : string -> Z -> string -> string)
    (id : string) (updates : PartialEmployee.t) (report : PartialDailyReport.t)
    (env : Env) (db : Db) :
  (let db' := snd (updateEmployee bcrypt_hash id updates env db) in
   Forall2 (employeeFrame id updates) (employees db) (employees db')
   /\ dailyReports db' = dailyReports db
   /\ admins db' = admins db
   /\ sessions db' = sessions db
   /\ forall result,
        fst (updateEmployee bcrypt_hash id updates env db) = Ok result ->
        Forall (employeeStored bcrypt_hash id updates env) (employees db'))
  /\ (let db' := snd (updateDailyReport id report env db) in
      Forall2 (reportFrame id report) (dailyReports db) (dailyReports db')
      /\ employees db' = employees db
      /\ admins db' = admins db
      /\ sessions db' = sessions db).
Proof.
  split.
  - unfold updateEmployee, writeEmployees. run. simpl.
    set (updateData :=
           if truthyOptString (PartialEmployee.passwordHash updates)
           then _ else updates).
    set (rows := map _ (employees db)).
    assert (Hframe : Forall2 (employeeFrame id updates) (employees db) rows).
    { apply Forall2_map_same. intros e. apply setEmployee_frame.
      - unfold updateData. destruct (truthyOptString _); reflexivity.
      - unfold updateData. destruct (truthyOptString _); reflexivity.
      - unfold updateData. intros H. rewrite H. simpl. exact H. }
    assert (Hstored : Forall (employeeStored bcrypt_hash id updates env) rows).
    { apply Forall_forall. intros e' Hin. apply in_map_iff in Hin.
      destruct Hin as (e & <- & _). intros Hid.
      destruct (Employee.id e =? id)%string eqn:Heq.
      2: { apply String.eqb_neq in Heq. contradiction. }
      unfold setEmployee, updateData; simpl.
      repeat split.
      - intros v Hv. destruct (truthyOptString _); simpl; rewrite Hv; reflexivity.
      - intros v Hv. destruct (truthyOptString _); simpl; rewrite Hv; reflexivity.
      - intros p Hp Hne. rewrite Hp. simpl. unfold truthyString.
        apply String.eqb_neq in Hne. rewrite Hne. reflexivity. }
    destruct (uniqueText (map Employee.id rows)); simpl.
    2: { repeat split; auto.
         - apply Forall2_same. intros e. apply employeeFrame_refl.
         - discriminate. }
    destruct (uniqueText (map Employee.employeeId rows)); simpl.
    2: { repeat split; auto.
         - apply Forall2_same. intros e. apply employeeFrame_refl.
         - discriminate. }
    repeat split; auto.
  - unfold updateDailyReport, writeDailyReports. run. simpl.
    destruct (noValues report); simpl.
    { repeat split; auto. apply Forall2_same. intros r. apply reportFrame_refl. }
    destruct (columnsIn report) as [values|e] eqn:Hvalues; simpl.
    2: { repeat split; auto. apply Forall2_same. intros r. apply reportFrame_refl. }
    destruct (uniqueText _); simpl.
    + repeat split; auto. apply Forall2_map_same. intros r.
      apply setDailyReport_frame. exact Hvalues.
    + repeat split; auto. apply Forall2_same. intros r. apply reportFrame_refl.
Qed.

Lemma partial_update_keeps_unsupplied_columns_witness :
  Forall (employeeStored sampleHash "u-1" (onlyPassword "secret1") sampleEnv)
         (employees (snd (updateEmployee sampleHash "u-1" (onlyPassword "secret1")
                                         sampleEnv sampleDb))).
Proof.
  destruct (partial_update_keeps_unsupplied_columns
              sampleHash "u-1" (onlyPassword "secret1") (onlySubmissionDate jan15)
              sampleEnv sampleDb) as [(_ & _ & _ & _ & H) _].
  exact (H (Some (Employee.mk "u-1" "EMP001" "Asha"
                              (sampleHash "secret1" 10 "salt") 1000 noonJan15))
           eq_refl).
Defined.

(** C7, as stated, fails on [updateEmployee]: an update that supplies
    the name alone also changes [updatedAt], and a supplied password that
    is empty is written to [password_hash] as it is, whatever the hash
    function. *)
Lemma updateEmployee_not_a_plain_merge :
  (exists e',
     fst (updateEmployee sampleHash "u-1" (onlyName "Asha K") sampleEnv sampleDb)
     = Ok (Some e')
     /\ Employee.updatedAt e' <> Employee.updatedAt sampleEmployee)
  /\ (exists e',
        fst (updateEmployee sampleHash "u-1" (onlyPassword "") sampleEnv sampleDb)
        = Ok (Some e')
        /\ Employee.passwordHash e' = ""%string
        /\ Employee.passwordHash e' <> sampleHash "" 10 (salt sampleEnv)).
Proof.
  split.
  - exists (Employee.mk "u-1" "EMP001" "Asha K" "$2b$10$stored" 1000 noonJan15).
    split; [vm_compute; reflexivity|]. vm_compute. discriminate.
  - exists (Employee.mk "u-1" "EMP001" "Asha" "" 1000 noonJan15).
    split; [vm_compute; reflexivity|].
    split; [reflexivity|]. vm_compute. discriminate.
Qed.

(** ** One report per employee and day *)

Lemma onePerDay_append (rows : list DailyReport.t) (r : DailyReport.t) :
  onePerDay rows ->
  (forall r', In r' rows -> submissionKey r' <> submissionKey r) ->
  onePerDay (rows ++ [r]).
Proof.
  unfold onePerDay. intros Hnd Hfresh.
  rewrite map_app. simpl.
  apply (Permutation_NoDup (Permutation_cons_append _ _)).
  constructor; [|exact Hnd].
  intros Hin. apply in_map_iff in Hin. destruct Hin as (r' & Hk & Hr').
  exact (Hfresh r' Hr' Hk).
Qed.

(** The submit handler, run from its check to its insert on one state
    of the table, keeps the table at one report per employee and day: it
    inserts only after [checkExistingReport] found nothing. *)
Lemma submitReport_keeps_onePerDay (reqBody : ReportBody.t)
    (session : ReqSession) (env : Env) (db : Db) :
  onePerDay (dailyReports db) ->
  onePerDay (dailyReports (snd (submitReport reqBody session env db))).
Proof.
  intros Hinv.
  unfold submitReport, getEmployee, checkExistingReport, createDailyReport,
    writeDailyReports, catchZod. run. cbn [fst snd].
  destruct (first (filter _ (employees db))) as [employee|]; [|exact Hinv].
  destruct (insertDailyReportSchema reqBody) as [data|e];
    [|destruct e; exact Hinv].
  destruct (isoDate (DateMs (clock env))) as [today|e];
    [|destruct e; exact Hinv].
  destruct (isoDate (newDateOfDay today)) as [day|e] eqn:Hday;
    [|destruct e; exact Hinv].
  destruct (dateIn day) as [day'|e] eqn:Hin; [|destruct e; exact Hinv].
  destruct (first (filter _ (dailyReports db))) as [existing|] eqn:Hex;
    [exact Hinv|].
  destruct (newDailyReport _ _ _) as [report|e] eqn:Hnew;
    [|destruct e; exact Hinv].
  destruct (uniqueText _); [|exact Hinv].
  cbn [snd dailyReports]. apply onePerDay_append; [exact Hinv|].
  intros r' Hr' Hkey. rewrite first_filter_none in Hex. specialize (Hex r' Hr').
  apply isoDate_ok in Hday. unfold newDateOfDay in Hday.
  rewrite Z.div_mul in Hday by (unfold msPerDay; lia).
  apply dateIn_ok in Hin. destruct Hin as [-> _]. subst day.
  apply newDailyReport_ok in Hnew. destruct Hnew as (_ & HE & _ & HD & _).
  cbn [InsertDailyReport.employeeId InsertDailyReport.submissionDate] in HE, HD.
  unfold submissionKey in Hkey. rewrite HE, HD in Hkey.
  injection Hkey as Hid Hdate. cbv beta in Hex.
  rewrite Hid, Hdate, String.eqb_refl, Z.eqb_refl in Hex. discriminate.
Qed.

(** C2.  [updateDailyReport] takes the table out of the invariant: on a
    table with one report per employee and day, moving the report of
    EMP001 for 2025-01-16 to 2025-01-15 succeeds and leaves two reports
    of EMP001 for 2025-01-15. *)
Theorem updateDailyReport_breaks_onePerDay :
  onePerDay (dailyReports sampleDb)
  /\ exists r db',
       updateDailyReport "r-b" (onlySubmissionDate jan15) sampleEnv sampleDb
       = (Ok (Some r), db')
       /\ submissionKey r = submissionKey reportA
       /\ In r (dailyReports db') /\ In reportA (dailyReports db')
       /\ r <> reportA
       /\ ~ onePerDay (dailyReports db').
Proof.
  split.
  - unfold onePerDay. simpl.
    repeat constructor; simpl; intuition discriminate.
  - exists (sampleReport "r-b" "EMP001" jan15 (noonJan15 + msPerDay)).
    exists (mkDb [sampleEmployee]
                 [reportA; sampleReport "r-b" "EMP001" jan15 (noonJan15 + msPerDay);
                  reportC]
                 [sampleAdmin] [employeeSession; adminSession]).
    split; [vm_compute; reflexivity|].
    split; [reflexivity|].
    split; [simpl; auto|]. split; [simpl; auto|].
    split; [discriminate|].
    unfold onePerDay. simpl. intros H.
    inversion H as [|? ? Hnotin _]; subst. apply Hnotin. left. reflexivity.
Qed.

(** * Further properties of the storage and the routes *)

(** ** Unique keys *)

Lemma existsb_eqb_false (k : string) (keys : list string) :
  existsb (String.eqb k) keys = false <-> ~ In k keys.
Proof.
  induction keys as [|k' keys IH]; simpl; [tauto|].
  rewrite orb_false_iff, IH. split.
  - intros [Hk Hn] [->|Hin]; [|tauto].
    rewrite String.eqb_refl in Hk. discriminate.
  - intros H. split; [|tauto].
    apply String.eqb_neq. intros ->. tauto.
Qed.

Lemma uniqueText_NoDup (keys : list string) :
  uniqueText keys = true <-> NoDup keys.
Proof.
  induction keys as [|k keys IH]; simpl.
  - split; [constructor|reflexivity].
  - rewrite andb_true_iff, negb_true_iff, existsb_eqb_false, IH.
    split.
    + intros [Hn Hd]. constructor; assumption.
    + intros H. inversion H; subst. tauto.
Qed.

Lemma uniqueText_last (keys : list string) (k : string) :
  uniqueText (keys ++ [k]) = true -> ~ In k keys.
Proof.
  rewrite uniqueText_NoDup. intros H Hin.
  apply NoDup_remove_2 in H. apply H. rewrite app_nil_r. exact Hin.
Qed.

Lemma NoDup_map_filter {A B} (f : A -> B) (p : A -> bool) (rows : list A) :
  NoDup (map f rows) -> NoDup (map f (filter p rows)).
Proof.
  induction rows as [|a rows IH]; simpl; [auto|].
  intros H. inversion H as [|? ? Hn Hd]; subst.
  destruct (p a); simpl; [|auto].
  constructor; [|auto].
  intros Hin. apply Hn. apply in_map_iff in Hin.
  destruct Hin as (b & Hb & Hin). apply filter_In in Hin.
  apply in_map_iff. exists b. tauto.
Qed.

Lemma NoDup_map_eq {A B} (f : A -> B) (rows : list A) (a b : A) :
  NoDup (map f rows) -> In a rows -> In b rows -> f a = f b -> a = b.
Proof.
  induction rows as [|x rows IH]; simpl; [tauto|].
  intros H Ha Hb Hf. inversion H as [|? ? Hn Hd]; subst.
  destruct Ha as [->|Ha], Hb as [->|Hb]; auto.
  - exfalso. apply Hn. rewrite Hf. apply in_map. exact Hb.
  - exfalso. apply Hn. rewrite <- Hf. apply in_map. exact Ha.
Qed.

Lemma filter_none {A} (p : A -> bool) (rows : list A) :
  (forall a, In a rows -> p a = false) -> filter p rows = [].
Proof.
  induction rows as [|a rows IH]; simpl; [reflexivity|].
  intros H. rewrite (H a) by auto. apply IH. auto.
Qed.

Lemma filter_twice {A} (p q : A -> bool) (rows : list A) :
  filter p (filter q rows) = filter (fun a => q a && p a) rows.
Proof.
  induction rows as [|a rows IH]; simpl; [reflexivity|].
  destruct (q a); simpl; [destruct (p a)|]; rewrite IH; reflexivity.
Qed.

(** ** The life of a session *)

Lemma createSession_ok (userId : string) (kind : UserType)
    (env : Env) (db db' : Db) (session : Session.t) :
  createSession userId kind env db = (Ok session, db') ->
  session = Session.mk ("sess_" ++ decimal (clock env) ++ "_" ++ random env)
                       userId (userTypeText kind)
                       (clock env + Z.of_N (sevenLocalDays env)) (clock env)
  /\ db' = mkDb (employees db) (dailyReports db) (admins db)
                (sessions db ++ [session])
  /\ ~ In (Session.id session) (map Session.id (sessions db)).
Proof.
  unfold createSession, writeSessions.
  cbv beta iota zeta delta
    [bind ret throw getDb putDb getEnv setSessions negb].
  destruct (uniqueText _) eqn:Hu; cbv beta iota; [|discriminate].
  intros [= <- <-]. split; [reflexivity|]. split; [reflexivity|].
  rewrite map_app in Hu. exact (uniqueText_last _ _ Hu).
Qed.

(** X1.  A session that [createSession] stored carries the user and the
    kind it was created for and expires seven local calendar days after
    its creation, which is seven times 24 hours where the clocks do not
    change; from then on [getSession] resolves its id to that very row at
    every time up to the stored expiry and to nothing afterwards, and
    resolves every other id as it did before. *)
Theorem createSession_then_getSession
    (userId : string) (kind : UserType) (env : Env) (db db' : Db)
    (session : Session.t) :
  createSession userId kind env db = (Ok session, db') ->
  Session.userId session = userId
  /\ Session.userType session = userTypeText kind
  /\ Session.expiresAt session = clock env + Z.of_N (sevenLocalDays env)
  /\ (sevenLocalDays env = sevenDays ->
      Session.expiresAt session = clock env + 7 * msPerDay)
  /\ (forall env', clock env' <= Session.expiresAt session ->
        getSession (Session.id session) env' db' = (Ok (Some session), db'))
  /\ (forall env', Session.expiresAt session < clock env' ->
        getSession (Session.id session) env' db' = (Ok None, db'))
  /\ (forall id env', id <> Session.id session ->
        fst (getSession id env' db') = fst (getSession id env' db)).
Proof.
  intros H. apply createSession_ok in H. destruct H as (Hs & -> & Hfresh).
  assert (Hexp : Session.expiresAt session
                 = clock env + Z.of_N (sevenLocalDays env))
    by (rewrite Hs; reflexivity).
  assert (Hnone : forall env',
             filter (fun r => (Session.id r =? Session.id session)%string
                              && (clock env' <=? Session.expiresAt r))
                    (sessions db) = []).
  { intros env'. apply filter_none. intros r Hr.
    destruct (Session.id r =? Session.id session)%string eqn:Heq; [|reflexivity].
    apply String.eqb_eq in Heq. exfalso. apply Hfresh. rewrite <- Heq.
    apply in_map. exact Hr. }
  split; [rewrite Hs; reflexivity|]. split; [rewrite Hs; reflexivity|].
  split; [exact Hexp|].
  split; [intros Hweek; rewrite Hexp, Hweek; reflexivity|].
  unfold getSession. run. cbn [sessions].
  repeat split.
  - intros env' Hle. rewrite filter_app, Hnone. cbn [filter app].
    rewrite String.eqb_refl. cbn [andb].
    apply Z.leb_le in Hle. rewrite Hle. reflexivity.
  - intros env' Hlt. rewrite filter_app, Hnone. cbn [filter app].
    rewrite String.eqb_refl. cbn [andb].
    apply Z.leb_gt in Hlt. rewrite Hlt. reflexivity.
  - intros id env' Hid. rewrite filter_app. cbn [filter fst].
    apply String.eqb_neq in Hid. rewrite String.eqb_sym, Hid. cbn [andb].
    rewrite app_nil_r. reflexivity.
Qed.

Lemma createSession_then_getSession_witness :
  getSession "sess_1736942400000_k3j9x0q1z"
             (mkEnv (noonJan15 + 3 * msPerDay) "" "" "" sevenDays)
             (snd (createSession "u-1" EmployeeType sampleEnv sampleDb))
  = (Ok (Some (Session.mk "sess_1736942400000_k3j9x0q1z" "u-1" "employee"
                          (noonJan15 + 7 * msPerDay) noonJan15)),
     snd (createSession "u-1" EmployeeType sampleEnv sampleDb)).
Proof.
  destruct (createSession_then_getSession
              "u-1" EmployeeType sampleEnv sampleDb
              (snd (createSession "u-1" EmployeeType sampleEnv sampleDb))
              (Session.mk "sess_1736942400000_k3j9x0q1z" "u-1" "employee"
                          (noonJan15 + 7 * msPerDay) noonJan15)
              eq_refl) as (_ & _ & _ & _ & H & _).
  apply (H (mkEnv (noonJan15 + 3 * msPerDay) "" "" "" sevenDays)).
  vm_compute. discriminate.
Defined.

(** X2.  After [deleteSession] the id resolves to nothing at any time,
    every other id resolves as before, the other tables are untouched,
    and deleting again changes nothing. *)
Theorem deleteSession_forgets (sessionId : string) (env : Env) (db : Db) :
  let db' := snd (deleteSession sessionId env db) in
  fst (deleteSession sessionId env db) = Ok tt
  /\ (forall env', getSession sessionId env' db' = (Ok None, db'))
  /\ (forall id env', id <> sessionId ->
        fst (getSession id env' db') = fst (getSession id env' db))
  /\ deleteSession sessionId env db' = (Ok tt, db')
  /\ employees db' = employees db
  /\ dailyReports db' = dailyReports db
  /\ admins db' = admins db.
Proof.
  unfold deleteSession, getSession. run. simpl. repeat split.
  - intros env'. rewrite filter_twice. rewrite filter_none; [reflexivity|].
    intros s _. destruct (Session.id s =? sessionId)%string; reflexivity.
  - intros id env' Hid. rewrite filter_twice. f_equal. f_equal.
    apply filter_ext. intros s.
    destruct (Session.id s =? id)%string eqn:Heq; simpl.
    + apply String.eqb_eq in Heq. apply String.eqb_neq in Hid.
      rewrite Heq, Hid. reflexivity.
    + apply andb_false_r.
  - rewrite filter_twice. f_equal. f_equal. apply filter_ext. intros s.
    destruct (Session.id s =? sessionId)%string; reflexivity.
Qed.

(** X3.  A sweep is invisible later on: at any time after the sweep,
    [getSession] resolves every id on the swept table as it would on the
    table before the sweep. *)
Theorem cleanExpiredSessions_invisible_later
    (sessionId : string) (env env' : Env) (db : Db) :
  clock env < clock env' ->
  fst (getSession sessionId env' (snd (cleanExpiredSessions env db)))
  = fst (getSession sessionId env' db).
Proof.
  intros Hlt. unfold cleanExpiredSessions, getSession. run. simpl.
  rewrite filter_twice. f_equal. f_equal. apply filter_ext. intros s.
  destruct (Session.expiresAt s <=? clock env) eqn:Hexp; simpl; [|reflexivity].
  apply Z.leb_le in Hexp.
  assert (H : (clock env' <=? Session.expiresAt s) = false)
    by (apply Z.leb_gt; lia).
  rewrite H, andb_false_r. reflexivity.
Qed.

Lemma cleanExpiredSessions_invisible_later_witness :
  fst (getSession "sess_1_emp" (mkEnv (noonJan15 + 1) "" "" "" sevenDays)
                  (snd (cleanExpiredSessions sampleEnv sampleDb)))
  = fst (getSession "sess_1_emp" (mkEnv (noonJan15 + 1) "" "" "" sevenDays) sampleDb).
Proof.
  apply (cleanExpiredSessions_invisible_later
           "sess_1_emp" sampleEnv (mkEnv (noonJan15 + 1) "" "" "" sevenDays) sampleDb).
  vm_compute. reflexivity.
Defined.

(** ** From login to logout *)

Lemma bearer_decoded (token : string) :
  replace "Bearer " "" ("Bearer " ++ token)%string = token.
Proof. destruct token; reflexivity. Qed.

Lemma getSession_created (userId : string) (kind : UserType)
    (env env' : Env) (db db' : Db) (session : Session.t) :
  createSession userId kind env db = (Ok session, db') ->
  clock env' <= Session.expiresAt session ->
  getSession (Session.id session) env' db' = (Ok (Some session), db').
Proof.
  intros H Hle. apply createSession_ok in H. destruct H as (Hs & -> & Hfresh).
  unfold getSession. run. cbn [sessions].
  rewrite filter_app, filter_none.
  - cbn [filter app]. rewrite String.eqb_refl. cbn [andb].
    apply Z.leb_le in Hle. rewrite Hle. reflexivity.
  - intros r Hr.
    destruct (Session.id r =? Session.id session)%string eqn:Heq; [|reflexivity].
    apply String.eqb_eq in Heq. exfalso. apply Hfresh. rewrite <- Heq.
    apply in_map. exact Hr.
Qed.

(** What the middleware of kind [kind] does with the token of a session
    it can resolve. *)
Lemma authenticate_resolved (kind : string) (token : string)
    (row : Session.t) (env : Env) (db : Db) :
  truthyString token = true ->
  getSession token env db = (Ok (Some row), db) ->
  authenticate kind (Some ("Bearer " ++ token)%string) env db
  = (Ok (if (Session.userType row =? kind)%string
         then next (mkReqSession (Session.id row) (Session.userId row)
                                 (Session.userType row))
         else answered (json 401 (Message "Invalid or expired session"))),
     db).
Proof.
  intros Htok Hrow. unfold authenticate. cbn [option_map].
  rewrite bearer_decoded, Htok. cbn [negb].
  unfold tryCatch, bind. rewrite Hrow.
  destruct (Session.userType row =? kind)%string; reflexivity.
Qed.

Lemma createSession_token_truthy (userId : string) (kind : UserType)
    (env : Env) (db db' : Db) (session : Session.t) :
  createSession userId kind env db = (Ok session, db') ->
  truthyString (Session.id session) = true.
Proof.
  intros H. apply createSession_ok in H. destruct H as (-> & _). reflexivity.
Qed.

(** X4.  A successful employee login was for an employee row whose
    stored hash verifies the password; it stored a session row under the
    token it returns, expiring seven local calendar days later, and the
    token then passes [authenticateEmployee] as that employee at every
    time up to the stored expiry, and is answered 401 by
    [authenticateAdmin]. *)
Theorem employee_login_token_authenticates
    (bcrypt_compare : string -> string -> bool)
    (reqBody : EmployeeLoginBody.t) (env : Env) (db db' : Db)
    (token id employeeId employeeName : string) :
  postEmployeeLogin bcrypt_compare reqBody env db
  = (Ok (json 200 (EmployeeLoggedIn token id employeeId employeeName)), db') ->
  (exists employee password,
     employeeLoginSchema reqBody = Ok (employeeId, password)
     /\ In employee (employees db)
     /\ Employee.id employee = id
     /\ Employee.employeeId employee = employeeId
     /\ Employee.employeeName employee = employeeName
     /\ bcrypt_compare password (Employee.passwordHash employee) = true)
  /\ (exists session,
        In session (sessions db')
        /\ Session.id session = token
        /\ Session.expiresAt session = clock env + Z.of_N (sevenLocalDays env)
        /\ forall env', clock env' <= Session.expiresAt session ->
             authenticateEmployee (Some ("Bearer " ++ token)%string) env' db'
             = (Ok (next (mkReqSession token id "employee")), db')
             /\ authenticateAdmin (Some ("Bearer " ++ token)%string) env' db'
                = (Ok (answered (json 401 (Message "Invalid or expired session"))),
                   db')).
Proof.
  unfold postEmployeeLogin, validateEmployeeCredentials,
    getEmployeeByEmployeeId, catchZod. run.
  destruct (employeeLoginSchema reqBody) as [[eid password]|e] eqn:Hbody;
    [|destruct e; discriminate].
  cbv beta iota.
  destruct (first (filter _ (employees db))) as [employee|] eqn:Hfound;
    cbv beta iota; [|discriminate].
  destruct (bcrypt_compare password (Employee.passwordHash employee)) eqn:Hpw;
    cbv beta iota; [|discriminate].
  destruct (createSession (Employee.id employee) EmployeeType env db)
    as [[session|e] db1] eqn:Hc; cbv beta iota; [|destruct e; discriminate].
  intros [= <- <- <- <- <-].
  apply first_filter_some in Hfound. destruct Hfound as [Hin Heid].
  apply String.eqb_eq in Heid.
  split.
  - exists employee, password. rewrite Heid. auto 10.
  - exists session.
    pose proof (createSession_token_truthy _ _ _ _ _ _ Hc) as Htok.
    pose proof (fun env' => getSession_created _ _ _ env' _ _ _ Hc) as Hrow.
    apply createSession_ok in Hc. destruct Hc as (Hs & -> & _).
    split; [cbn [sessions]; apply in_or_app; right; left; reflexivity|].
    split; [reflexivity|]. split; [rewrite Hs; reflexivity|].
    intros env' Hle. specialize (Hrow env' Hle).
    unfold authenticateEmployee, authenticateAdmin.
    rewrite !(authenticate_resolved _ _ _ _ _ Htok Hrow).
    rewrite Hs. split; reflexivity.
Qed.

Lemma employee_login_token_authenticates_witness :
  authenticateEmployee
    (Some "Bearer sess_1736942400000_k3j9x0q1z")
    (mkEnv (noonJan15 + msPerDay) "" "" "" sevenDays)
    (snd (postEmployeeLogin sampleCompare
            (EmployeeLoginBody.mk (JString "EMP001") (JString "employee123"))
            sampleEnv loginDb))
  = (Ok (next (mkReqSession "sess_1736942400000_k3j9x0q1z" "u-1" "employee")),
     snd (postEmployeeLogin sampleCompare
            (EmployeeLoginBody.mk (JString "EMP001") (JString "employee123"))
            sampleEnv loginDb)).
Proof.
  destruct (employee_login_token_authenticates
              sampleCompare
              (EmployeeLoginBody.mk (JString "EMP001") (JString "employee123"))
              sampleEnv loginDb
              (snd (postEmployeeLogin sampleCompare
                      (EmployeeLoginBody.mk (JString "EMP001")
                                            (JString "employee123"))
                      sampleEnv loginDb))
              "sess_1736942400000_k3j9x0q1z" "u-1" "EMP001" "Asha"
              eq_refl) as [_ (session & _ & _ & Hexp & H)].
  apply (H (mkEnv (noonJan15 + msPerDay) "" "" "" sevenDays)).
  rewrite Hexp. vm_compute. discriminate.
Defined.

(** X5.  The same for admins: the token of a successful admin login
    passes [authenticateAdmin] as that admin at every time up to the
    stored expiry of its session row, seven local calendar days after
    the login, and is answered 401 by [authenticateEmployee]. *)
Theorem admin_login_token_authenticates
    (bcrypt_compare : string -> string -> bool)
    (reqBody : AdminLoginBody.t) (env : Env) (db db' : Db)
    (token id username : string) :
  postAdminLogin bcrypt_compare reqBody env db
  = (Ok (json 200 (AdminLoggedIn token id username)), db') ->
  (exists admin password,
     adminLoginSchema reqBody = Ok (username, password)
     /\ In admin (admins db)
     /\ Admin.id admin = id
     /\ Admin.username admin = username
     /\ bcrypt_compare password (Admin.passwordHash admin) = true)
  /\ (exists session,
        In session (sessions db')
        /\ Session.id session = token
        /\ Session.expiresAt session = clock env + Z.of_N (sevenLocalDays env)
        /\ forall env', clock env' <= Session.expiresAt session ->
             authenticateAdmin (Some ("Bearer " ++ token)%string) env' db'
             = (Ok (next (mkReqSession token id "admin")), db')
             /\ authenticateEmployee (Some ("Bearer " ++ token)%string) env' db'
                = (Ok (answered (json 401 (Message "Invalid or expired session"))),
                   db')).
Proof.
  unfold postAdminLogin, validateAdminCredentials, getAdminByUsername,
    catchZod. run.
  destruct (adminLoginSchema reqBody) as [[name password]|e] eqn:Hbody;
    [|destruct e; discriminate].
  cbv beta iota.
  destruct (first (filter _ (admins db))) as [admin|] eqn:Hfound;
    cbv beta iota; [|discriminate].
  destruct (bcrypt_compare password (Admin.passwordHash admin)) eqn:Hpw;
    cbv beta iota; [|discriminate].
  destruct (createSession (Admin.id admin) AdminType env db)
    as [[session|e] db1] eqn:Hc; cbv beta iota; [|destruct e; discriminate].
  intros [= <- <- <- <-].
  apply first_filter_some in Hfound. destruct Hfound as [Hin Hname].
  apply String.eqb_eq in Hname.
  split.
  - exists admin, password. rewrite Hname. auto 10.
  - exists session.
    pose proof (createSession_token_truthy _ _ _ _ _ _ Hc) as Htok.
    pose proof (fun env' => getSession_created _ _ _ env' _ _ _ Hc) as Hrow.
    apply createSession_ok in Hc. destruct Hc as (Hs & -> & _).
    split; [cbn [sessions]; apply in_or_app; right; left; reflexivity|].
    split; [reflexivity|]. split; [rewrite Hs; reflexivity|].
    intros env' Hle. specialize (Hrow env' Hle).
    unfold authenticateEmployee, authenticateAdmin.
    rewrite !(authenticate_resolved _ _ _ _ _ Htok Hrow).
    rewrite Hs. split; reflexivity.
Qed.

Lemma admin_login_token_authenticates_witness :
  authenticateAdmin
    (Some "Bearer sess_1736942400000_k3j9x0q1z")
    (mkEnv (noonJan15 + msPerDay) "" "" "" sevenDays)
    (snd (postAdminLogin sampleCompare
            (AdminLoginBody.mk (JString "admin") (JString "admin123"))
            sampleEnv loginDb))
  = (Ok (next (mkReqSession "sess_1736942400000_k3j9x0q1z" "a-1" "admin")),
     snd (postAdminLogin sampleCompare
            (AdminLoginBody.mk (JString "admin") (JString "admin123"))
            sampleEnv loginDb)).
Proof.
  destruct (admin_login_token_authenticates
              sampleCompare
              (AdminLoginBody.mk (JString "admin") (JString "admin123"))
              sampleEnv loginDb
              (snd (postAdminLogin sampleCompare
                      (AdminLoginBody.mk (JString "admin") (JString "admin123"))
                      sampleEnv loginDb))
              "sess_1736942400000_k3j9x0q1z" "a-1" "admin"
              eq_refl) as [_ (session & _ & _ & Hexp & H)].
  apply (H (mkEnv (noonJan15 + msPerDay) "" "" "" sevenDays)).
  rewrite Hexp. vm_compute. discriminate.
Defined.

Lemma getSession_deleted (sessionId : string) (env env' : Env) (db : Db) :
  getSession sessionId env' (snd (deleteSession sessionId env db))
  = (Ok None, snd (deleteSession sessionId env db)).
Proof.
  unfold deleteSession, getSession. run. simpl.
  rewrite filter_twice, filter_none; [reflexivity|].
  intros s _. destruct (Session.id s =? sessionId)%string; reflexivity.
Qed.

(** The middleware answers with 401 whenever it answers. *)
Lemma authenticate_answered (kind : string) (authorization : option string)
    (env : Env) (db : Db) (res : Response) :
  fst (authenticate kind authorization env db) = Ok (answered res) ->
  status res = 401.
Proof.
  unfold authenticate, getSession. run.
  destruct authorization as [h|]; simpl; [|intros [= <-]; reflexivity].
  destruct (truthyString (replace "Bearer " "" h)); simpl;
    [|intros [= <-]; reflexivity].
  destruct (first _) as [s|]; simpl; [|intros [= <-]; reflexivity].
  destruct (Session.userType s =? kind)%string; simpl;
    [discriminate|intros [= <-]; reflexivity].
Qed.

(** When the middleware lets a request through, the token is not empty
    and the session of the request is the row the token resolves to. *)
Lemma authenticate_passed (kind : string) (header : string)
    (env : Env) (db : Db) (session : ReqSession) :
  fst (authenticate kind (Some header) env db) = Ok (next session) ->
  truthyString (replace "Bearer " "" header) = true
  /\ sessionId session = replace "Bearer " "" header
  /\ exists row,
       getSession (replace "Bearer " "" header) env db = (Ok (Some row), db)
       /\ userId session = Session.userId row
       /\ Session.userType row = kind.
Proof.
  unfold authenticate. cbn [option_map].
  destruct (truthyString (replace "Bearer " "" header)) eqn:Htok;
    cbn [negb]; [|discriminate].
  unfold tryCatch, bind.
  destruct (getSession (replace "Bearer " "" header) env db)
    as [[[row|]|e] db1] eqn:Hrow; cbv beta iota; try discriminate.
  pose proof (getSession_reads (replace "Bearer " "" header) env db) as Hdb.
  rewrite Hrow in Hdb. simpl in Hdb. subst db1.
  destruct (Session.userType row =? kind)%string eqn:Hk; cbn [negb];
    [|discriminate].
  unfold ret. cbn [fst]. intros [= <-]. cbn [sessionId userId].
  assert (Hsome := getSession_some (replace "Bearer " "" header) env db row).
  rewrite Hrow in Hsome. destruct (Hsome eq_refl) as (_ & Hid & _).
  apply String.eqb_eq in Hk.
  repeat split; auto. exists row. auto.
Qed.

(** X6.  After a logout that was answered 200, on either logout route,
    the token is dead: every guarded route of either kind answers it 401
    "Invalid or expired session" at any time and does not run its
    handler. *)
Theorem logout_kills_token
    (kind0 : string) (header : string) (env : Env) (db db' : Db) :
  guarded (authenticate kind0) logout (Some header) env db
  = (Ok (json 200 (Message "Logout successful")), db') ->
  forall (kind : string) (handler : ReqSession -> M Response) (env' : Env),
    guarded (authenticate kind) handler (Some header) env' db'
    = (Ok (json 401 (Message "Invalid or expired session")), db').
Proof.
  intros H kind handler env'.
  destruct (authenticate_reads kind0 (Some header) env db) as [m Hm].
  destruct m as [res|session].
  - rewrite (guarded_answered _ _ _ _ _ _ Hm) in H.
    injection H as Hres _.
    assert (Hst : status res = 401).
    { apply (authenticate_answered kind0 (Some header) env db).
      rewrite Hm. reflexivity. }
    rewrite Hres in Hst. discriminate.
  - rewrite (guarded_next _ _ _ _ _ _ Hm) in H.
    assert (Hpass := authenticate_passed kind0 header env db session).
    rewrite Hm in Hpass. destruct (Hpass eq_refl) as (Htok & Hsid & _).
    revert H. unfold logout, tryCatch, bind. rewrite Hsid, Htok.
    pose proof (getSession_deleted (replace "Bearer " "" header) env env' db)
      as Hgone.
    destruct (deleteSession (replace "Bearer " "" header) env db)
      as [[[]|e] db1]; cbv beta iota.
    + unfold ret. intros [= <-]. cbn [snd] in Hgone.
      unfold guarded, authenticate, bind. cbn [option_map].
      rewrite Htok. cbn [negb]. unfold tryCatch, bind. rewrite Hgone.
      reflexivity.
    + unfold ret, internalServerError. discriminate.
Qed.

Lemma logout_kills_token_witness :
  getEmployeeMe (Some "Bearer sess_1_emp") sampleEnv
    (snd (postEmployeeLogout (Some "Bearer sess_1_emp") sampleEnv sampleDb))
  = (Ok (json 401 (Message "Invalid or expired session")),
     snd (postEmployeeLogout (Some "Bearer sess_1_emp") sampleEnv sampleDb)).
Proof.
  apply (logout_kills_token
           "employee" "Bearer sess_1_emp" sampleEnv sampleDb
           (snd (postEmployeeLogout (Some "Bearer sess_1_emp") sampleEnv sampleDb))).
  vm_compute. reflexivity.
Defined.

(** ** Accounts *)

Lemma uniqueText_snoc (keys : list string) (k : string) :
  uniqueText keys = true -> ~ In k keys -> uniqueText (keys ++ [k]) = true.
Proof.
  rewrite !uniqueText_NoDup. intros Hd Hn.
  apply (Permutation_NoDup (Permutation_cons_append keys k)).
  constructor; assumption.
Qed.

Lemma first_filter_last {A} (p : A -> bool) (rows : list A) (a : A) :
  (forall b, In b rows -> p b = false) -> p a = true ->
  first (filter p (rows ++ [a])) = Some a.
Proof.
  intros Hrows Ha. rewrite filter_app, (filter_none _ _ Hrows).
  simpl. rewrite Ha. reflexivity.
Qed.

Lemma createEmployee_ok (bcrypt_hash : string -> Z -> string -> string)
    (insertEmployee : InsertEmployee.t) (env : Env) (db db' : Db)
    (e : Employee.t) :
  createEmployee bcrypt_hash insertEmployee env db = (Ok e, db') ->
  e = Employee.mk (uuid env)
        (InsertEmployee.employeeId insertEmployee)
        (InsertEmployee.employeeName insertEmployee)
        (bcrypt_hash (InsertEmployee.passwordHash insertEmployee) 10 (salt env))
        (clock env) (clock env)
  /\ db' = mkDb (employees db ++ [e]) (dailyReports db) (admins db) (sessions db)
  /\ ~ In (Employee.id e) (map Employee.id (employees db))
  /\ ~ In (Employee.employeeId e) (map Employee.employeeId (employees db)).
Proof.
  unfold createEmployee, writeEmployees.
  cbv beta iota zeta delta
    [bind ret throw getDb putDb getEnv setEmployees negb].
  destruct (uniqueText (map Employee.id _)) eqn:Hid; cbv beta iota;
    [|discriminate].
  destruct (uniqueText (map Employee.employeeId _)) eqn:Heid; cbv beta iota;
    [|discriminate].
  intros [= <- <-]. split; [reflexivity|]. split; [reflexivity|].
  rewrite map_app in Hid, Heid.
  split; [exact (uniqueText_last _ _ Hid)|exact (uniqueText_last _ _ Heid)].
Qed.

(** X8.  An employee that [createEmployee] stored is found again by its
    new id and by its employee id, holds the bcrypt hash of the given
    password, and [validateEmployeeCredentials] returns that employee exactly for the
    passwords that [bcrypt.compare] accepts against that hash. *)
Theorem createEmployee_then_validate
    (bcrypt_hash : string -> Z -> string -> string)
    (bcrypt_compare : string -> string -> bool)
    (insertEmployee : InsertEmployee.t) (env : Env) (db db' : Db)
    (e : Employee.t) :
  createEmployee bcrypt_hash insertEmployee env db = (Ok e, db') ->
  Employee.passwordHash e
  = bcrypt_hash (InsertEmployee.passwordHash insertEmployee) 10 (salt env)
  /\ (forall env', getEmployee (Employee.id e) env' db' = (Ok (Some e), db'))
  /\ (forall env',
        getEmployeeByEmployeeId (InsertEmployee.employeeId insertEmployee) env' db'
        = (Ok (Some e), db'))
  /\ (forall password env',
        validateEmployeeCredentials bcrypt_compare
          (InsertEmployee.employeeId insertEmployee) password env' db'
        = (Ok (if bcrypt_compare password
                    (bcrypt_hash (InsertEmployee.passwordHash insertEmployee)
                                 10 (salt env))
               then Some e else None), db')).
Proof.
  intros H. apply createEmployee_ok in H.
  destruct H as (He & -> & Hid & Heid).
  assert (Hpw : Employee.passwordHash e
                = bcrypt_hash (InsertEmployee.passwordHash insertEmployee) 10
                              (salt env)) by (rewrite He; reflexivity).
  assert (Hkey : Employee.employeeId e = InsertEmployee.employeeId insertEmployee)
    by (rewrite He; reflexivity).
  assert (Hby : first (filter (fun x => (Employee.employeeId x
                                         =? InsertEmployee.employeeId insertEmployee)%string)
                              (employees db ++ [e])) = Some e).
  { apply first_filter_last.
    - intros b Hb. apply String.eqb_neq. intros Heq. apply Heid.
      rewrite Hkey, <- Heq. apply in_map. exact Hb.
    - rewrite Hkey. apply String.eqb_refl. }
  split; [exact Hpw|].
  unfold validateEmployeeCredentials, getEmployee, getEmployeeByEmployeeId.
  run. cbn [employees].
  repeat split.
  - intros env'. rewrite first_filter_last; [reflexivity| |apply String.eqb_refl].
    intros b Hb. apply String.eqb_neq. intros Heq. apply Hid.
    rewrite <- Heq. apply in_map. exact Hb.
  - intros env'. rewrite Hby. reflexivity.
  - intros password env'. rewrite Hby. cbv beta iota. rewrite Hpw. reflexivity.
Qed.

Lemma createEmployee_then_validate_witness :
  validateEmployeeCredentials sampleCompare "EMP007" "secret7" sampleEnv
    (snd (createEmployee sampleHash (InsertEmployee.mk "EMP007" "Ravi" "secret7")
                         sampleEnv sampleDb))
  = (Ok (Some (Employee.mk "r-new" "EMP007" "Ravi"
                           (sampleHash "secret7" 10 "salt") noonJan15 noonJan15)),
     snd (createEmployee sampleHash (InsertEmployee.mk "EMP007" "Ravi" "secret7")
                         sampleEnv sampleDb)).
Proof.
  destruct (createEmployee_then_validate
              sampleHash sampleCompare
              (InsertEmployee.mk "EMP007" "Ravi" "secret7") sampleEnv sampleDb
              (snd (createEmployee sampleHash
                      (InsertEmployee.mk "EMP007" "Ravi" "secret7")
                      sampleEnv sampleDb))
              (Employee.mk "r-new" "EMP007" "Ravi"
                           (sampleHash "secret7" 10 "salt") noonJan15 noonJan15)
              eq_refl) as (_ & _ & _ & H).
  exact (H "secret7"%string sampleEnv).
Defined.

(** X9.  [createEmployee] with an employee id that a stored employee
    already has is refused by the database and changes nothing. *)
Theorem createEmployee_duplicate_refused
    (bcrypt_hash : string -> Z -> string -> string)
    (insertEmployee : InsertEmployee.t) (env : Env) (db : Db)
    (taken : Employee.t) :
  In taken (employees db) ->
  Employee.employeeId taken = InsertEmployee.employeeId insertEmployee ->
  exists constraint,
    createEmployee bcrypt_hash insertEmployee env db
    = (Throw (DbError constraint), db).
Proof.
  intros Hin Heq.
  destruct (createEmployee bcrypt_hash insertEmployee env db)
    as [[e|err] db'] eqn:H.
  - exfalso. apply createEmployee_ok in H. destruct H as (He & _ & _ & Hfresh).
    apply Hfresh. rewrite He. cbn [Employee.employeeId]. rewrite <- Heq.
    apply in_map. exact Hin.
  - revert H. unfold createEmployee, writeEmployees.
    cbv beta iota zeta delta
      [bind ret throw getDb putDb getEnv setEmployees negb].
    destruct (uniqueText (map Employee.id _)); cbv beta iota.
    + destruct (uniqueText (map Employee.employeeId _)); cbv beta iota;
        [discriminate|].
      intros [= <- <-]. eauto.
    + intros [= <- <-]. eauto.
Qed.

Lemma createEmployee_duplicate_refused_witness :
  exists constraint,
    createEmployee sampleHash (InsertEmployee.mk "EMP001" "Other" "secret7")
                   sampleEnv sampleDb
    = (Throw (DbError constraint), sampleDb).
Proof.
  apply (createEmployee_duplicate_refused
           sampleHash (InsertEmployee.mk "EMP001" "Other" "secret7")
           sampleEnv sampleDb sampleEmployee).
  - simpl. auto.
  - reflexivity.
Defined.

(** X10.  [updateEmployee] that would give an employee the employee id
    of another stored employee is refused by the database and changes
    nothing. *)
Theorem updateEmployee_duplicate_refused
    (bcrypt_hash : string -> Z -> string -> string)
    (id : string) (updates : PartialEmployee.t) (env : Env) (db : Db)
    (target taken : Employee.t) :
  In target (employees db) -> Employee.id target = id ->
  In taken (employees db) -> Employee.id taken <> id ->
  PartialEmployee.employeeId updates = Some (Employee.employeeId taken) ->
  exists constraint,
    updateEmployee bcrypt_hash id updates env db
    = (Throw (DbError constraint), db).
Proof.
  intros Htarget Hid Htaken Hother Hupd.
  unfold updateEmployee, writeEmployees.
  cbv beta iota zeta delta
    [bind ret throw getDb putDb getEnv setEmployees negb].
  set (updateData := if truthyOptString _ then _ else updates).
  set (f := fun e : Employee.t => if (Employee.id e =? id)%string
                                  then setEmployee updateData (clock env) e
                                  else e).
  destruct (uniqueText (map Employee.id _)); cbv beta iota; [|eauto].
  destruct (uniqueText (map Employee.employeeId (map f (employees db))))
    eqn:Hu; cbv beta iota; [|eauto].
  exfalso. apply uniqueText_NoDup in Hu.
  assert (Hf1 : f target = setEmployee updateData (clock env) target).
  { unfold f. rewrite Hid, String.eqb_refl. reflexivity. }
  assert (Hf2 : f taken = taken).
  { unfold f. apply String.eqb_neq in Hother. rewrite Hother. reflexivity. }
  assert (Heq : f target = f taken).
  { apply (NoDup_map_eq Employee.employeeId (map f (employees db)));
      [exact Hu|apply in_map; exact Htarget|apply in_map; exact Htaken|].
    rewrite Hf1, Hf2. unfold setEmployee. cbn [Employee.employeeId].
    assert (Hd : PartialEmployee.employeeId updateData
                 = Some (Employee.employeeId taken)).
    { unfold updateData. destruct (truthyOptString _); exact Hupd. }
    rewrite Hd. reflexivity. }
  rewrite Hf1, Hf2 in Heq. apply Hother. rewrite <- Heq, <- Hid. reflexivity.
Qed.

Lemma updateEmployee_duplicate_refused_witness :
  exists constraint,
    updateEmployee sampleHash "u-2"
      (PartialEmployee.mk (Some "EMP001") None None) sampleEnv
      (mkDb [sampleEmployee; Employee.mk "u-2" "EMP002" "Bo" "h" 1 1] [] [] [])
    = (Throw (DbError constraint),
       mkDb [sampleEmployee; Employee.mk "u-2" "EMP002" "Bo" "h" 1 1] [] [] []).
Proof.
  apply (updateEmployee_duplicate_refused
           sampleHash "u-2" (PartialEmployee.mk (Some "EMP001") None None)
           sampleEnv
           (mkDb [sampleEmployee; Employee.mk "u-2" "EMP002" "Bo" "h" 1 1] [] [] [])
           (Employee.mk "u-2" "EMP002" "Bo" "h" 1 1) sampleEmployee).
  - simpl. auto.
  - reflexivity.
  - simpl. auto.
  - vm_compute. discriminate.
  - reflexivity.
Defined.

Lemma authenticate_header (kind : string) (header : string)
    (row : Session.t) (env : Env) (db : Db) :
  truthyString (replace "Bearer " "" header) = true ->
  getSession (replace "Bearer " "" header) env db = (Ok (Some row), db) ->
  authenticate kind (Some header) env db
  = (Ok (if (Session.userType row =? kind)%string
         then next (mkReqSession (Session.id row) (Session.userId row)
                                 (Session.userType row))
         else answered (json 401 (Message "Invalid or expired session"))),
     db).
Proof.
  intros Htok Hrow. unfold authenticate. cbn [option_map].
  rewrite Htok. cbn [negb].
  unfold tryCatch, bind. rewrite Hrow.
  destruct (Session.userType row =? kind)%string; reflexivity.
Qed.

Lemma getSession_same_sessions (token : string) (env : Env) (db db' : Db)
    (row : Session.t) :
  getSession token env db = (Ok (Some row), db) ->
  sessions db' = sessions db ->
  getSession token env db' = (Ok (Some row), db').
Proof.
  unfold getSession. run. intros [= H] Hs. rewrite Hs, H. reflexivity.
Qed.

Lemma filter_length_positive {A} (p : A -> bool) (rows : list A) :
  (0 <? Z.of_nat (List.length (filter p rows))) = true
  <-> exists a, In a rows /\ p a = true.
Proof.
  split.
  - destruct (filter p rows) as [|a l] eqn:Hf; [discriminate|].
    intros _. exists a. apply filter_In. rewrite Hf. left. reflexivity.
  - intros (a & Ha & Hp).
    assert (Hin : In a (filter p rows)) by (apply filter_In; auto).
    destruct (filter p rows); [destruct Hin|]. simpl. reflexivity.
Qed.

(** X11.  [deleteEmployee] on the id of a stored employee reports the
    deletion, removes the rows with that id and no other, after it the
    id is not found, and nothing cascades: sessions and reports stay.  A
    live session of the deleted employee therefore still passes the
    middleware, and [GET /api/employee/me] and the submission answer it
    404 "Employee not found". *)
Theorem deleteEmployee_leaves_sessions (e : Employee.t) (env : Env) (db : Db) :
  In e (employees db) ->
  let id := Employee.id e in
  let db' := snd (deleteEmployee id env db) in
  fst (deleteEmployee id env db) = Ok true
  /\ (forall env', getEmployee id env' db' = (Ok None, db'))
  /\ (forall e', In e' (employees db') <->
                 In e' (employees db) /\ Employee.id e' <> id)
  /\ sessions db' = sessions db
  /\ dailyReports db' = dailyReports db
  /\ admins db' = admins db
  /\ (forall header row env' reqBody,
        truthyString (replace "Bearer " "" header) = true ->
        getSession (replace "Bearer " "" header) env' db = (Ok (Some row), db) ->
        Session.userType row = "employee"%string ->
        Session.userId row = id ->
        getEmployeeMe (Some header) env' db'
        = (Ok (json 404 (Message "Employee not found")), db')
        /\ postReportsSubmit reqBody (Some header) env' db'
           = (Ok (json 404 (Message "Employee not found")), db')).
Proof.
  intros Hin id.
  assert (Hgone : forall env',
            getEmployee id env' (snd (deleteEmployee id env db))
            = (Ok None, snd (deleteEmployee id env db))).
  { intros env'. unfold deleteEmployee, getEmployee. run. simpl.
    rewrite filter_twice, filter_none; [reflexivity|].
    intros x _. destruct (Employee.id x =? id)%string; reflexivity. }
  cbv zeta. split; [|split; [exact Hgone|split]].
  - unfold deleteEmployee. run. simpl. f_equal.
    apply filter_length_positive. exists e. split; [exact Hin|].
    apply String.eqb_refl.
  - intros e'. unfold deleteEmployee. run. simpl. rewrite filter_In.
    rewrite negb_true_iff, String.eqb_neq. reflexivity.
  - split; [reflexivity|]. split; [reflexivity|]. split; [reflexivity|].
    intros header row env' reqBody Htok Hrow Hkind Huser.
    assert (Hrow' := getSession_same_sessions _ env' db
                       (snd (deleteEmployee id env db)) row Hrow eq_refl).
    assert (Hauth := authenticate_header "employee" header row env' _ Htok Hrow').
    rewrite Hkind in Hauth. cbn [String.eqb Ascii.eqb Bool.eqb] in Hauth.
    unfold getEmployeeMe, postReportsSubmit, authenticateEmployee.
    rewrite !(guarded_next _ _ _ _ _ _ Hauth).
    unfold submitReport, tryCatch, bind. cbn [userId]. rewrite Huser, Hgone.
    split; reflexivity.
Qed.

Lemma deleteEmployee_leaves_sessions_witness :
  getEmployeeMe (Some "Bearer sess_1_emp") sampleEnv
                (snd (deleteEmployee "u-1" sampleEnv sampleDb))
  = (Ok (json 404 (Message "Employee not found")),
     snd (deleteEmployee "u-1" sampleEnv sampleDb)).
Proof.
  destruct (deleteEmployee_leaves_sessions sampleEmployee sampleEnv sampleDb)
    as (_ & _ & _ & _ & _ & _ & H).
  - simpl. auto.
  - destruct (H "Bearer sess_1_emp"%string employeeSession sampleEnv sampleBody
                eq_refl eq_refl eq_refl eq_refl) as [Hme _].
    exact Hme.
Defined.

Lemma createAdmin_ok (bcrypt_hash : string -> Z -> string -> string)
    (insertAdmin : InsertAdmin.t) (env : Env) (db db' : Db) (a : Admin.t) :
  createAdmin bcrypt_hash insertAdmin env db = (Ok a, db') ->
  a = Admin.mk (uuid env) (InsertAdmin.username insertAdmin)
               (bcrypt_hash (InsertAdmin.passwordHash insertAdmin) 10 (salt env))
               (clock env)
  /\ db' = mkDb (employees db) (dailyReports db) (admins db ++ [a]) (sessions db)
  /\ ~ In (Admin.username a) (map Admin.username (admins db)).
Proof.
  unfold createAdmin, writeAdmins.
  cbv beta iota zeta delta
    [bind ret throw getDb putDb getEnv setAdmins negb].
  destruct (uniqueText (map Admin.id _)) eqn:Hid; cbv beta iota;
    [|discriminate].
  destruct (uniqueText (map Admin.username _)) eqn:Hname; cbv beta iota;
    [|discriminate].
  intros [= <- <-]. split; [reflexivity|]. split; [reflexivity|].
  rewrite map_app in Hname. exact (uniqueText_last _ _ Hname).
Qed.

(** X12.  An admin that [createAdmin] stored can log in: when
    [bcrypt.compare] accepts the password against the hash [bcrypt.hash]
    made of it and the session id drawn at the login is not taken, the
    login with the same username and password is answered 200 with that
    admin's id and a token that resolves to a session of kind admin for
    this admin. *)
Theorem createAdmin_then_login
    (bcrypt_hash : string -> Z -> string -> string)
    (bcrypt_compare : string -> string -> bool)
    (insertAdmin : InsertAdmin.t) (reqBody : AdminLoginBody.t)
    (env env' : Env) (db db1 : Db) (a : Admin.t) :
  createAdmin bcrypt_hash insertAdmin env db = (Ok a, db1) ->
  adminLoginSchema reqBody
  = Ok (InsertAdmin.username insertAdmin, InsertAdmin.passwordHash insertAdmin) ->
  bcrypt_compare (InsertAdmin.passwordHash insertAdmin)
    (bcrypt_hash (InsertAdmin.passwordHash insertAdmin) 10 (salt env)) = true ->
  uniqueText (map Session.id (sessions db)) = true ->
  ~ In ("sess_" ++ decimal (clock env') ++ "_" ++ random env')%string
       (map Session.id (sessions db)) ->
  exists token db2 session,
    postAdminLogin bcrypt_compare reqBody env' db1
    = (Ok (json 200 (AdminLoggedIn token (Admin.id a)
                       (InsertAdmin.username insertAdmin))), db2)
    /\ getSession token env' db2 = (Ok (Some session), db2)
    /\ Session.userId session = Admin.id a
    /\ Session.userType session = "admin"%string.
Proof.
  intros Hc Hbody Hpw Huniq Hfresh.
  apply createAdmin_ok in Hc. destruct Hc as (Ha & -> & Hname).
  assert (Hfound : first (filter (fun x => (Admin.username x
                                            =? InsertAdmin.username insertAdmin)%string)
                                 (admins db ++ [a])) = Some a).
  { apply first_filter_last.
    - intros b Hb. apply String.eqb_neq. intros Heq. apply Hname.
      rewrite Ha. cbn [Admin.username]. rewrite <- Heq. apply in_map. exact Hb.
    - rewrite Ha. apply String.eqb_refl. }
  assert (Hhash : Admin.passwordHash a
                  = bcrypt_hash (InsertAdmin.passwordHash insertAdmin) 10 (salt env))
    by (rewrite Ha; reflexivity).
  assert (Huser : Admin.username a = InsertAdmin.username insertAdmin)
    by (rewrite Ha; reflexivity).
  set (db1 := mkDb (employees db) (dailyReports db) (admins db ++ [a]) (sessions db)).
  destruct (createSession (Admin.id a) AdminType env' db1)
    as [[session|e] db2] eqn:Hs.
  - exists (Session.id session), db2, session.
    pose proof (getSession_created _ _ _ env' _ _ _ Hs) as Hrow.
    split; [|split].
    + unfold postAdminLogin, validateAdminCredentials, getAdminByUsername,
        catchZod. run. rewrite Hbody. cbv beta iota. cbn [admins db1].
      rewrite Hfound. cbv beta iota. rewrite Hhash, Hpw. cbv beta iota.
      fold db1. rewrite Hs. cbv beta iota. rewrite Huser. reflexivity.
    + apply Hrow. apply createSession_ok in Hs. destruct Hs as (-> & _).
      cbn [Session.expiresAt]. lia.
    + apply createSession_ok in Hs. destruct Hs as (-> & _). auto.
  - exfalso. revert Hs. unfold createSession, writeSessions.
    cbv beta iota zeta delta
      [bind ret throw getDb putDb getEnv setSessions negb].
    cbn [sessions db1]. rewrite map_app.
    cbn [map Session.id]. rewrite (uniqueText_snoc _ _ Huniq Hfresh).
    discriminate.
Qed.

Lemma createAdmin_then_login_witness :
  exists token db2 session,
    postAdminLogin sampleCompare
      (AdminLoginBody.mk (JString "root") (JString "admin456"))
      (mkEnv (noonJan15 + 5) "" "q" "" sevenDays)
      (snd (createAdmin sampleHash (InsertAdmin.mk "root" "admin456")
                        sampleEnv sampleDb))
    = (Ok (json 200 (AdminLoggedIn token "r-new" "root")), db2)
    /\ getSession token (mkEnv (noonJan15 + 5) "" "q" "" sevenDays) db2
       = (Ok (Some session), db2)
    /\ Session.userId session = "r-new"%string
    /\ Session.userType session = "admin"%string.
Proof.
  apply (createAdmin_then_login
           sampleHash sampleCompare (InsertAdmin.mk "root" "admin456")
           (AdminLoginBody.mk (JString "root") (JString "admin456"))
           sampleEnv (mkEnv (noonJan15 + 5) "" "q" "" sevenDays) sampleDb
           (snd (createAdmin sampleHash (InsertAdmin.mk "root" "admin456")
                             sampleEnv sampleDb))
           (Admin.mk "r-new" "root" (sampleHash "admin456" 10 "salt") noonJan15)).
  - vm_compute. reflexivity.
  - reflexivity.
  - vm_compute. reflexivity.
  - vm_compute. reflexivity.
  - vm_compute. intuition discriminate.
Defined.

(** ** Reports *)

(** X13.  [deleteDailyReport] on the id of a stored report reports the
    deletion, removes exactly the rows with that id, keeps the table at
    one report per employee and day, and leaves the other tables
    alone. *)
Theorem deleteDailyReport_removes_exactly
    (r : DailyReport.t) (env : Env) (db : Db) :
  In r (dailyReports db) ->
  let id := DailyReport.id r in
  let db' := snd (deleteDailyReport id env db) in
  fst (deleteDailyReport id env db) = Ok true
  /\ (forall r', In r' (dailyReports db') <->
                 In r' (dailyReports db) /\ DailyReport.id r' <> id)
  /\ (onePerDay (dailyReports db) -> onePerDay (dailyReports db'))
  /\ employees db' = employees db
  /\ admins db' = admins db
  /\ sessions db' = sessions db.
Proof.
  intros Hin id. unfold deleteDailyReport. run. simpl.
  split; [|split; [|split; [|auto]]].
  - f_equal. apply filter_length_positive. exists r. split; [exact Hin|].
    apply String.eqb_refl.
  - intros r'. rewrite filter_In, negb_true_iff, String.eqb_neq. reflexivity.
  - unfold onePerDay. apply NoDup_map_filter.
Qed.

Lemma deleteDailyReport_removes_exactly_witness :
  fst (deleteDailyReport "r-a" sampleEnv sampleDb) = Ok true
  /\ dailyReports (snd (deleteDailyReport "r-a" sampleEnv sampleDb))
     = [reportB; reportC].
Proof.
  destruct (deleteDailyReport_removes_exactly reportA sampleEnv sampleDb)
    as (H & _).
  - simpl. auto.
  - split; [exact H|reflexivity].
Defined.

Lemma integerIn_int32 (n : Q) : int32 n -> integerIn n = Ok (wholePart n).
Proof.
  unfold int32, integerIn. intros (Hw & Hlo & Hhi).
  apply Z.leb_le in Hlo, Hhi. rewrite Hw, Hlo, Hhi. reflexivity.
Qed.

Lemma integerIn_ok (n : Q) (i : Z) :
  integerIn n = Ok i -> i = wholePart n /\ whole n = true.
Proof.
  unfold integerIn. destruct (whole n); [|discriminate].
  destruct (_ && _); [|discriminate]. intros [= <-]. auto.
Qed.

(** A whole number is the integer stored for it. *)
Lemma whole_inject (n : Q) : whole n = true -> (inject_Z (wholePart n) == n)%Q.
Proof.
  unfold whole, wholePart, Qeq, inject_Z. cbn [Qnum Qden]. intros H.
  apply Z.eqb_eq in H. rewrite Z.mul_1_r.
  rewrite Z.mul_comm. symmetry. apply Z.div_exact; [lia|exact H].
Qed.

Lemma readableDate_of_accepted (day : Day) :
  firstDay <= day <= lastDay -> readableDate day = true.
Proof.
  intros [H1 H2]. unfold readableDate. apply andb_true_iff.
  split; apply Z.leb_le; assumption.
Qed.

(** The row Postgres stores for a body whose counters the columns
    take. *)
Lemma submittedReport_storable (employee : Employee.t) (data : ReportData.t)
    (env : Env) :
  storableCounters data ->
  firstDay <= clock env / msPerDay <= lastDay ->
  exists report, submittedReport employee data env = Ok report.
Proof.
  intros (H1 & H2 & H3 & H4 & H5 & H6 & H7 & H8 & H9 & H10) Hday.
  unfold submittedReport, newDailyReport, dateIn.
  cbn [InsertDailyReport.numberOfDials InsertDailyReport.connectedCalls
       InsertDailyReport.positiveProspect InsertDailyReport.deadCalls
       InsertDailyReport.demos InsertDailyReport.admission
       InsertDailyReport.clientVisit InsertDailyReport.clientClosing
       InsertDailyReport.backdoorCalls InsertDailyReport.postersDone
       InsertDailyReport.submissionDate].
  rewrite (integerIn_int32 _ H1), (integerIn_int32 _ H2),
    (integerIn_int32 _ H3), (integerIn_int32 _ H4), (integerIn_int32 _ H5),
    (integerIn_int32 _ H6), (integerIn_int32 _ H7), (integerIn_int32 _ H8),
    (integerIn_int32 _ H9), (readableDate_of_accepted _ Hday).
  cbn [andThen].
  destruct (ReportData.postersDone data) as [v|] eqn:Hv.
  - rewrite (integerIn_int32 v (H10 v eq_refl)). cbn [andThen]. eauto.
  - cbn [andThen]. eauto.
Qed.

(** The submission that finds nothing in its way. *)
Lemma submitReport_succeeds (reqBody : ReportBody.t) (session : ReqSession)
    (env : Env) (db : Db) (employee : Employee.t) (data : ReportData.t)
    (report : DailyReport.t) :
  getEmployee (userId session) env db = (Ok (Some employee), db) ->
  insertDailyReportSchema reqBody = Ok data ->
  firstDay <= clock env / msPerDay <= lastDay ->
  (forall r, In r (dailyReports db) ->
             submissionKey r
             <> (Employee.employeeId employee, clock env / msPerDay)) ->
  submittedReport employee data env = Ok report ->
  uniqueText (map DailyReport.id (dailyReports db ++ [report])) = true ->
  submitReport reqBody session env db
  = (Ok (json 200 (ReportSubmitted report)),
     mkDb (employees db) (dailyReports db ++ [report]) (admins db) (sessions db)).
Proof.
  intros Hemp Hparse Hday Hnone Hreport Hu.
  destruct (isoDate_accepted (clock env) Hday) as [Htoday Hread].
  unfold submitReport, checkExistingReport, createDailyReport,
    writeDailyReports, catchZod, dateIn. run.
  rewrite Hemp, Hparse, Htoday, (isoDate_newDateOfDay _ Hread), Hread.
  rewrite filter_none.
  2: { intros r Hr. specialize (Hnone r Hr). unfold submissionKey in Hnone.
       destruct (DailyReport.employeeId r =? Employee.employeeId employee)%string
         eqn:He; [|reflexivity].
       destruct (DailyReport.submissionDate r =? clock env / msPerDay) eqn:Hd;
         [|reflexivity].
       apply String.eqb_eq in He. apply Z.eqb_eq in Hd.
       exfalso. apply Hnone. rewrite He, Hd. reflexivity. }
  cbn [first hd_error]. unfold submittedReport in Hreport. rewrite Hreport.
  rewrite Hu. reflexivity.
Qed.

(** X14.  Deleting today's report of an employee reopens the day: with
    one report per employee and day and distinct report ids in the table,
    a submission by that employee after the deletion, on a day of the
    years 0001 to 9999 and with counters that are whole numbers within
    32 bits, is answered 200 and stores the new report, provided the
    uuid drawn for it is not taken. *)
Theorem delete_then_submit_again
    (r : DailyReport.t) (reqBody : ReportBody.t) (data : ReportData.t)
    (authorization : option string) (session : ReqSession)
    (employee : Employee.t) (env env' : Env) (db : Db) :
  let db' := snd (deleteDailyReport (DailyReport.id r) env db) in
  onePerDay (dailyReports db) ->
  uniqueText (map DailyReport.id (dailyReports db)) = true ->
  In r (dailyReports db) ->
  authenticateEmployee authorization env' db' = (Ok (next session), db') ->
  getEmployee (userId session) env' db' = (Ok (Some employee), db') ->
  submissionKey r = (Employee.employeeId employee, clock env' / msPerDay) ->
  firstDay <= clock env' / msPerDay <= lastDay ->
  insertDailyReportSchema reqBody = Ok data ->
  storableCounters data ->
  ~ In (uuid env') (map DailyReport.id (dailyReports db)) ->
  exists report,
    postReportsSubmit reqBody authorization env' db'
    = (Ok (json 200 (ReportSubmitted report)),
       mkDb (employees db') (dailyReports db' ++ [report])
            (admins db') (sessions db'))
    /\ DailyReport.id report = uuid env'
    /\ submissionKey report = submissionKey r.
Proof.
  intros db' Hone Huniq Hin Hauth Hemp Hkey Hday Hparse Hstorable Hfresh.
  destruct (submittedReport_storable employee data env' Hstorable Hday)
    as [report Hreport].
  exists report.
  pose proof Hreport as Hnew. unfold submittedReport in Hnew.
  apply newDailyReport_ok in Hnew.
  destruct Hnew as (Hid & HE & _ & HD & _).
  cbn [InsertDailyReport.employeeId InsertDailyReport.submissionDate] in HE, HD.
  split; [|split; [exact Hid|]].
  2: { unfold submissionKey at 1. rewrite HE, HD, Hkey. reflexivity. }
  unfold postReportsSubmit. rewrite (guarded_next _ _ _ _ _ _ Hauth).
  apply submitReport_succeeds with (employee := employee) (data := data);
    auto.
  - intros x Hx Hsame. unfold db', deleteDailyReport in Hx. revert Hx. run.
    cbn [snd dailyReports]. intros Hx. apply filter_In in Hx.
    destruct Hx as [Hx Hne]. apply negb_true_iff, String.eqb_neq in Hne.
    apply Hne. f_equal.
    apply (NoDup_map_eq submissionKey (dailyReports db)); auto.
    rewrite Hkey. exact Hsame.
  - unfold db', deleteDailyReport. run. cbn [snd dailyReports].
    rewrite map_app. apply uniqueText_snoc.
    + apply uniqueText_NoDup, NoDup_map_filter, uniqueText_NoDup, Huniq.
    + cbn [map]. rewrite Hid. intros H. apply Hfresh. apply in_map_iff in H.
      destruct H as (x & Hx & Hxin). apply filter_In in Hxin.
      apply in_map_iff. exists x. tauto.
Qed.

Lemma delete_then_submit_again_witness :
  exists report,
    postReportsSubmit sampleBody (Some "Bearer sess_1_emp") sampleEnv
      (snd (deleteDailyReport "r-a" sampleEnv sampleDb))
    = (Ok (json 200 (ReportSubmitted report)),
       mkDb [sampleEmployee] ([reportB; reportC] ++ [report])
            [sampleAdmin] [employeeSession; adminSession])
    /\ DailyReport.id report = "r-new"%string
    /\ submissionKey report = submissionKey reportA.
Proof.
  apply (delete_then_submit_again
           reportA sampleBody
           (ReportData.mk "EMP999" "Mallory" 10 5 2 1 1 0 0 0 0 None "1999-12-31")
           (Some "Bearer sess_1_emp"%string)
           (mkReqSession "sess_1_emp" "u-1" "employee")
           sampleEmployee sampleEnv sampleEnv sampleDb).
  - unfold onePerDay. simpl. repeat constructor; simpl; intuition discriminate.
  - reflexivity.
  - simpl. auto.
  - vm_compute. reflexivity.
  - vm_compute. reflexivity.
  - vm_compute. reflexivity.
  - vm_compute. split; discriminate.
  - reflexivity.
  - unfold storableCounters, int32, optionalInt32.
    repeat split; try discriminate; vm_compute; reflexivity.
  - simpl. intuition discriminate.
Defined.

Lemma inOrder_latestDateFirst (r1 r2 : DailyReport.t) :
  inOrder [desc DailyReport.submissionDate] r1 r2 = true
  <-> latestDateFirst r1 r2.
Proof.
  unfold latestDateFirst. simpl.
  destruct (DailyReport.submissionDate r2 <? DailyReport.submissionDate r1) eqn:Hlt.
  - apply Z.ltb_lt in Hlt. split; [lia|reflexivity].
  - apply Z.ltb_ge in Hlt.
    destruct (DailyReport.submissionDate r1 =? DailyReport.submissionDate r2) eqn:He.
    + apply Z.eqb_eq in He. split; [lia|reflexivity].
    + apply Z.eqb_neq in He. split; [discriminate|lia].
Qed.

(** X15.  For two valid dates of the years 0001 to 9999,
    [getDailyReportsByDateRange] returns, without touching the database,
    the reports whose submission date lies between the UTC days of the
    dates, bounds included, latest date first: the same reports
    [getDailyReports] returns for that range.  It returns none when the
    end day is before the start day, and throws a RangeError on an
    invalid date. *)
Theorem getDailyReportsByDateRange_inclusive
    (startMs endMs : Z) (env : Env) (db : Db) :
  firstDay <= startMs / msPerDay <= lastDay ->
  firstDay <= endMs / msPerDay <= lastDay ->
  (exists rows rows',
     getDailyReportsByDateRange (DateMs startMs) (DateMs endMs) env db
     = (Ok rows, db)
     /\ Permutation rows
          (filter (inDateRange (startMs / msPerDay) (endMs / msPerDay))
                  (dailyReports db))
     /\ StronglySorted latestDateFirst rows
     /\ (endMs / msPerDay < startMs / msPerDay -> rows = [])
     /\ getDailyReports
          (Some (Filters.mk None (Some (DateMs startMs)) (Some (DateMs endMs))
                            None None)) env db
        = (Ok rows', db)
     /\ Permutation rows rows')
  /\ getDailyReportsByDateRange InvalidDate (DateMs endMs) env db
     = (Throw RangeError, db)
  /\ getDailyReportsByDateRange (DateMs startMs) InvalidDate env db
     = (Throw RangeError, db).
Proof.
  intros Hstart Hend.
  destruct (isoDate_accepted startMs Hstart) as [Hs Hsr].
  destruct (isoDate_accepted endMs Hend) as [He Her].
  split; [|split; [reflexivity|]].
  2: { unfold getDailyReportsByDateRange. run. rewrite Hs. reflexivity. }
  assert (Hext : forall rows : list DailyReport.t,
            filter (satisfies (and_ [gteSubmissionDate (startMs / msPerDay);
                                     lteSubmissionDate (endMs / msPerDay)])) rows
            = filter (inDateRange (startMs / msPerDay) (endMs / msPerDay)) rows).
  { intros rows. apply filter_ext. intros r. unfold satisfies, inDateRange. simpl.
    rewrite andb_true_r. reflexivity. }
  exists (orderRows [desc DailyReport.submissionDate]
            (filter (inDateRange (startMs / msPerDay) (endMs / msPerDay))
                    (dailyReports db))).
  exists (orderRows byRecency
            (filter (inDateRange (startMs / msPerDay) (endMs / msPerDay))
                    (dailyReports db))).
  split; [|split; [|split; [|split; [|split]]]].
  - unfold getDailyReportsByDateRange, runQuery. run. rewrite Hs, He.
    cbn [where_ orderBy selectFromDailyReports qWhere qOrderBy qLimit qOffset
         conditionsOf forallb readable negative writtenLimit applyLimit
         applyOffset].
    rewrite Hsr, Her. cbn [andb negb]. rewrite Hext. reflexivity.
  - apply orderRows_perm.
  - assert (H := orderRows_sorted [desc DailyReport.submissionDate]
                   (filter (inDateRange (startMs / msPerDay) (endMs / msPerDay))
                           (dailyReports db))).
    induction H as [|a l Hsorted IH Hall]; constructor; [exact IH|].
    eapply Forall_impl; [|exact Hall]. intros b. apply inOrder_latestDateFirst.
  - intros Hlt. rewrite filter_none; [reflexivity|].
    intros r _. unfold inDateRange.
    destruct (startMs / msPerDay <=? DailyReport.submissionDate r) eqn:H1;
      [|reflexivity].
    apply Z.leb_le in H1. simpl. apply Z.leb_gt. lia.
  - rewrite (getDailyReports_run
               (Some (Filters.mk None (Some (DateMs startMs))
                                 (Some (DateMs endMs)) None None)) env db
               Hstart Hend eq_refl).
    cbn [filtersOf Filters.limit Filters.offset positiveOnly nonzero
         applyLimit applyOffset].
    erewrite filter_ext; [reflexivity|]. intros r. reflexivity.
  - rewrite orderRows_perm. symmetry. apply orderRows_perm.
Qed.

Lemma getDailyReportsByDateRange_inclusive_witness :
  exists rows,
    getDailyReportsByDateRange (DateMs noonJan15) (DateMs noonJan15)
                               sampleEnv sampleDb
    = (Ok rows, sampleDb)
    /\ Permutation rows [reportA; reportC].
Proof.
  destruct (getDailyReportsByDateRange_inclusive
              noonJan15 noonJan15 sampleEnv sampleDb)
    as [(rows & rows' & Hrun & Hperm & _) _].
  - vm_compute. split; discriminate.
  - vm_compute. split; discriminate.
  - exists rows. split; [exact Hrun|exact Hperm].
Defined.






Lemma zNumberMin0_ok (v : Json) (n : Q) :
  zNumberMin0 v = Ok n -> 0 <= wholePart n.
Proof.
  destruct v; simpl; try discriminate.
  destruct (Qle_bool 0 n0) eqn:H; [|discriminate].
  intros [= <-]. unfold Qle_bool in H. cbn [Qnum Qden] in H.
  apply Z.leb_le in H. unfold wholePart. apply Z.div_pos; lia.
Qed.

Lemma zNumberMin0Optional_ok (v : Json) (n : Q) :
  zNumberMin0Optional v = Ok (Some n) -> 0 <= wholePart n.
Proof.
  destruct v; simpl; try discriminate.
  destruct (Qle_bool 0 n0) eqn:H; [|discriminate].
  intros [= <-]. unfold Qle_bool in H. cbn [Qnum Qden] in H.
  apply Z.leb_le in H. unfold wholePart. apply Z.div_pos; lia.
Qed.

(** The counters a submission stores are those of the body, which the
    schema lets through only when they are not negative. *)
Lemma insertDailyReportSchema_counters (reqBody : ReportBody.t)
    (data : ReportData.t) (employee : Employee.t) (env : Env)
    (report : DailyReport.t) :
  insertDailyReportSchema reqBody = Ok data ->
  submittedReport employee data env = Ok report ->
  countersNotNegative report.
Proof.
  unfold insertDailyReportSchema. intros H Hreport.
  repeat match type of H with
         | andThen _ _ = Ok _ =>
             apply andThen_ok in H;
             let a := fresh "a" in
             let Ha := fresh "Ha" in
             destruct H as (a & Ha & H)
         end.
  injection H as <-.
  repeat match goal with
         | Ha : zNumberMin0 _ = Ok _ |- _ => apply zNumberMin0_ok in Ha
         end.
  unfold submittedReport in Hreport. apply newDailyReport_ok in Hreport.
  cbn [InsertDailyReport.numberOfDials InsertDailyReport.connectedCalls
       InsertDailyReport.positiveProspect InsertDailyReport.deadCalls
       InsertDailyReport.demos InsertDailyReport.admission
       InsertDailyReport.clientVisit InsertDailyReport.clientClosing
       InsertDailyReport.backdoorCalls InsertDailyReport.postersDone
       ReportData.numberOfDials ReportData.connectedCalls
       ReportData.positiveProspect ReportData.deadCalls ReportData.demos
       ReportData.admission ReportData.clientVisit ReportData.clientClosing
       ReportData.backdoorCalls ReportData.postersDone] in Hreport.
  destruct Hreport as (_ & _ & _ & _ & _ & _ & H1 & H2 & H3 & H4 & H5 & H6
                       & H7 & H8 & H9 & n & Hn & H10).
  apply integerIn_ok in H1, H2, H3, H4, H5, H6, H7, H8, H9.
  unfold countersNotNegative.
  destruct H1 as [-> _], H2 as [-> _], H3 as [-> _], H4 as [-> _],
    H5 as [-> _], H6 as [-> _], H7 as [-> _], H8 as [-> _], H9 as [-> _].
  repeat (split; [assumption|]).
  exists n. split; [exact Hn|].
  destruct a10 as [v|].
  - apply integerIn_ok in H10. destruct H10 as [-> _].
    eapply zNumberMin0Optional_ok; eassumption.
  - lia.
Qed.

Lemma andThen_throw {A B} (o : Outcome A) (k : A -> Outcome B) (e : Error) :
  andThen o k = Throw e -> o = Throw e \/ exists a, k a = Throw e.
Proof. destruct o as [a|e']; simpl; [eauto|intros [= ->]; auto]. Qed.

Lemma zString_throw (v : Json) (e : Error) : zString v = Throw e -> e = ZodError.
Proof. destruct v; simpl; congruence. Qed.

Lemma zStringMin1_throw (v : Json) (e : Error) :
  zStringMin1 v = Throw e -> e = ZodError.
Proof.
  destruct v; simpl; try congruence.
  destruct (1 <=? _); congruence.
Qed.

Lemma zNumberMin0_throw (v : Json) (e : Error) :
  zNumberMin0 v = Throw e -> e = ZodError.
Proof.
  destruct v; simpl; try congruence.
  destruct (Qle_bool _ _); congruence.
Qed.

Lemma zNumberMin0Optional_throw (v : Json) (e : Error) :
  zNumberMin0Optional v = Throw e -> e = ZodError.
Proof.
  destruct v; simpl; try congruence.
  destruct (Qle_bool _ _); congruence.
Qed.

(** The schema of a report fails with a ZodError only. *)
Lemma insertDailyReportSchema_throws (reqBody : ReportBody.t) (e : Error) :
  insertDailyReportSchema reqBody = Throw e -> e = ZodError.
Proof.
  unfold insertDailyReportSchema. intros H.
  repeat match type of H with
         | andThen _ _ = Throw _ =>
             apply andThen_throw in H;
             destruct H as [H|[? H]];
             [first [exact (zString_throw _ _ H)
                    |exact (zNumberMin0_throw _ _ H)
                    |exact (zNumberMin0Optional_throw _ _ H)]|]
         end.
  discriminate.
Qed.

(** Postgres refuses with its own errors, never with the schema's. *)
Lemma newDailyReport_throws (id : string) (createdAt : Z)
    (r : InsertDailyReport.t) (e : Error) :
  newDailyReport id createdAt r = Throw e -> e = DataException.
Proof.
  assert (Hint : forall n e, integerIn n = Throw e -> e = DataException).
  { intros n e0. unfold integerIn. destruct (_ && _); [discriminate|].
    intros [= <-]. reflexivity. }
  unfold newDailyReport. intros H.
  repeat match type of H with
         | andThen _ _ = Throw _ =>
             apply andThen_throw in H;
             destruct H as [H|[? H]];
             [first [exact (Hint _ _ H)
                    |destruct (InsertDailyReport.postersDone r);
                     [exact (Hint _ _ H)|discriminate]
                    |unfold dateIn in H; destruct (readableDate _);
                     [discriminate|injection H as <-; reflexivity]]|]
         end.
  discriminate.
Qed.

(** What a submission does to the database, whatever it answers. *)
Lemma submitReport_outcomes (reqBody : ReportBody.t) (session : ReqSession)
    (env : Env) (db : Db) :
  exists res db',
    submitReport reqBody session env db = (Ok res, db')
    /\ ((status res = 200
         /\ exists report,
              body res = ReportSubmitted report
              /\ db' = mkDb (employees db) (dailyReports db ++ [report])
                            (admins db) (sessions db)
              /\ submitReport reqBody session env db
                 = (Ok (json 200 (ReportSubmitted report)), db'))
        \/ (db' = db
            /\ (status res = 404 \/ status res = 400 \/ status res = 409
                \/ status res = 500))).
Proof.
  unfold submitReport, getEmployee, checkExistingReport, createDailyReport,
    writeDailyReports, catchZod. run. cbn [fst snd].
  destruct (first (filter _ (employees db))) as [employee|].
  2: { eexists _, db. split; [reflexivity|]. right. simpl. auto. }
  destruct (insertDailyReportSchema reqBody) as [data|e] eqn:Hparse.
  2: { rewrite (insertDailyReportSchema_throws _ _ Hparse).
       eexists _, db. split; [reflexivity|]. right. simpl. auto. }
  destruct (isoDate (DateMs (clock env))) as [today|e] eqn:Htoday.
  2: { unfold isoDate in Htoday. destruct (_ && _); [discriminate|].
       injection Htoday as <-.
       eexists _, db. split; [reflexivity|]. right. simpl. auto. }
  destruct (isoDate (newDateOfDay today)) as [day|e] eqn:Hday.
  2: { unfold isoDate, newDateOfDay in Hday. destruct (_ && _); [discriminate|].
       injection Hday as <-.
       eexists _, db. split; [reflexivity|]. right. simpl. auto. }
  destruct (dateIn day) as [day'|e] eqn:Hin.
  2: { unfold dateIn in Hin. destruct (readableDate day); [discriminate|].
       injection Hin as <-.
       eexists _, db. split; [reflexivity|]. right. simpl. auto. }
  destruct (first (filter _ (dailyReports db))) as [existing|].
  { eexists _, db. split; [reflexivity|]. right. simpl. auto 6. }
  destruct (newDailyReport _ _ _) as [report|e] eqn:Hnew.
  2: { apply newDailyReport_throws in Hnew. subst e.
       eexists _, db. split; [reflexivity|]. right. simpl. auto 6. }
  destruct (uniqueText (map DailyReport.id (_ ++ _))) eqn:Hu.
  - eexists _, _. split; [reflexivity|]. left. simpl.
    split; [reflexivity|]. exists report. auto.
  - eexists _, db. split; [reflexivity|]. right. simpl. auto 6.
Qed.

(** X17.  What a submission can do.  [POST /api/reports/submit] always
    answers; either it answers 200 and has appended exactly one report,
    with the drawn uuid, the day of the request, the business id and the
    name of a stored employee, and counters that are not negative, or it
    answers 401, 404, 400, 409 or 500 and the database is as before.
    For a session that passes the middleware: without the employee row
    it answers 404; with it, on a day of the years 0001 to 9999, it
    answers 400 when the body fails the schema, 409 when the table holds
    a report of the employee for the day, and otherwise 200 with the
    stored report, when the counters are whole numbers within 32 bits,
    the report ids are distinct and the drawn uuid is free. *)
Theorem postReportsSubmit_outcomes
    (reqBody : ReportBody.t) (authorization : option string)
    (env : Env) (db : Db) :
  (exists res db',
     postReportsSubmit reqBody authorization env db = (Ok res, db')
     /\ ((status res = 200
          /\ exists report,
               body res = ReportSubmitted report
               /\ db' = mkDb (employees db) (dailyReports db ++ [report])
                             (admins db) (sessions db)
               /\ DailyReport.id report = uuid env
               /\ DailyReport.submissionDate report = clock env / msPerDay
               /\ (exists employee,
                     In employee (employees db)
                     /\ DailyReport.employeeId report
                        = Employee.employeeId employee
                     /\ DailyReport.employeeName report
                        = Employee.employeeName employee)
               /\ countersNotNegative report)
         \/ (db' = db
             /\ (status res = 401 \/ status res = 404 \/ status res = 400
                 \/ status res = 409 \/ status res = 500))))
  /\ (forall session,
        authenticateEmployee authorization env db = (Ok (next session), db) ->
        getEmployee (userId session) env db = (Ok None, db) ->
        postReportsSubmit reqBody authorization env db
        = (Ok (json 404 (Message "Employee not found")), db))
  /\ (forall session employee,
        authenticateEmployee authorization env db = (Ok (next session), db) ->
        getEmployee (userId session) env db = (Ok (Some employee), db) ->
        firstDay <= clock env / msPerDay <= lastDay ->
        (forall e,
           insertDailyReportSchema reqBody = Throw e ->
           postReportsSubmit reqBody authorization env db
           = (Ok (json 400 InvalidInput), db))
        /\ (forall data r,
              insertDailyReportSchema reqBody = Ok data ->
              In r (dailyReports db) ->
              submissionKey r
              = (Employee.employeeId employee, clock env / msPerDay) ->
              postReportsSubmit reqBody authorization env db
              = (Ok (json 409 (Message "Report for today already submitted")),
                 db))
        /\ (forall data,
              insertDailyReportSchema reqBody = Ok data ->
              (forall r, In r (dailyReports db) ->
                         submissionKey r
                         <> (Employee.employeeId employee,
                             clock env / msPerDay)) ->
              storableCounters data ->
              uniqueText (map DailyReport.id (dailyReports db)) = true ->
              ~ In (uuid env) (map DailyReport.id (dailyReports db)) ->
              exists report,
                postReportsSubmit reqBody authorization env db
                = (Ok (json 200 (ReportSubmitted report)),
                   mkDb (employees db) (dailyReports db ++ [report])
                        (admins db) (sessions db)))).
Proof.
  split; [|split].
  - unfold postReportsSubmit, authenticateEmployee.
    destruct (authenticate_reads "employee" authorization env db) as [m Hm].
    destruct m as [res|session].
    + rewrite (guarded_answered _ _ _ _ _ _ Hm). exists res, db.
      split; [reflexivity|]. right. split; [reflexivity|]. left.
      apply (authenticate_answered "employee" authorization env db).
      rewrite Hm. reflexivity.
    + rewrite (guarded_next _ _ _ _ _ _ Hm).
      destruct (submitReport_outcomes reqBody session env db)
        as (res & db' & Hrun & [(Hst & report & Hbody & Hdb' & Hok)|[Hdb' Hst]]).
      * exists res, db'. split; [exact Hrun|]. left. split; [exact Hst|].
        exists report. split; [exact Hbody|]. split; [exact Hdb'|].
        pose proof (submitReport_stored _ _ _ _ _ _ Hok) as (Hday & _ & Hid & _).
        apply submitReport_ok in Hok.
        destruct Hok as (employee & data & Hemp & Hparse & _ & _ & Hreport & _).
        split; [exact Hid|]. split; [exact Hday|]. split.
        -- exists employee. revert Hemp. unfold getEmployee. run. cbn [fst].
           intros [= Hemp]. apply first_filter_some in Hemp.
           pose proof Hreport as Hnew. unfold submittedReport in Hnew.
           apply newDailyReport_ok in Hnew. destruct Hnew as (_ & HE & HN & _).
           split; [tauto|]. split; [exact HE|exact HN].
        -- exact (insertDailyReportSchema_counters _ _ _ _ _ Hparse Hreport).
      * exists res, db'. split; [exact Hrun|]. right. split; [exact Hdb'|].
        tauto.
  - intros session Hauth Hemp.
    unfold postReportsSubmit. rewrite (guarded_next _ _ _ _ _ _ Hauth).
    unfold submitReport, catchZod. run. rewrite Hemp. reflexivity.
  - intros session employee Hauth Hemp Hday.
    destruct (isoDate_accepted (clock env) Hday) as [Htoday Hread].
    unfold postReportsSubmit. rewrite (guarded_next _ _ _ _ _ _ Hauth).
    split; [|split].
    + intros e He. rewrite (insertDailyReportSchema_throws _ _ He) in He.
      unfold submitReport, catchZod. run. rewrite Hemp, He. reflexivity.
    + intros data r Hparse Hr Hkey. unfold submissionKey in Hkey.
      injection Hkey as HE HD.
      assert (Hread' : readableDate (DailyReport.submissionDate r) = true)
        by (rewrite HD; exact Hread).
      destruct (checkExistingReport_found (Employee.employeeId employee) r
                  env db Hr HE Hread') as [existing Hex].
      rewrite HD in Hex.
      unfold submitReport, catchZod. run.
      rewrite Hemp, Hparse, Htoday, Hex. reflexivity.
    + intros data Hparse Hnone Hstorable Huniq Hfresh.
      destruct (submittedReport_storable employee data env Hstorable Hday)
        as [report Hreport].
      exists report.
      apply submitReport_succeeds with (employee := employee) (data := data);
        auto.
      rewrite map_app. apply uniqueText_snoc; [exact Huniq|].
      pose proof Hreport as Hnew. unfold submittedReport in Hnew.
      apply newDailyReport_ok in Hnew. destruct Hnew as (Hid & _).
      cbn [map]. rewrite Hid. exact Hfresh.
Qed.

Lemma postReportsSubmit_outcomes_witness :
  (exists report,
     postReportsSubmit sampleBody (Some "Bearer sess_1_emp") sampleEnv morningDb
     = (Ok (json 200 (ReportSubmitted report)),
        mkDb (employees morningDb) (dailyReports morningDb ++ [report])
             (admins morningDb) (sessions morningDb)))
  /\ postReportsSubmit sampleBody (Some "Bearer sess_1_emp") sampleEnv sampleDb
     = (Ok (json 409 (Message "Report for today already submitted")), sampleDb).
Proof.
  split.
  - destruct (postReportsSubmit_outcomes
                sampleBody (Some "Bearer sess_1_emp"%string) sampleEnv morningDb)
      as (_ & _ & H).
    destruct (H (mkReqSession "sess_1_emp" "u-1" "employee") sampleEmployee)
      as (_ & _ & H200).
    + vm_compute. reflexivity.
    + vm_compute. reflexivity.
    + vm_compute. split; discriminate.
    + apply (H200 (ReportData.mk "EMP999" "Mallory" 10 5 2 1 1 0 0 0 0 None
                                 "1999-12-31")).
      * reflexivity.
      * intros r [<-|[]]. vm_compute. discriminate.
      * unfold storableCounters, int32, optionalInt32.
        repeat split; try discriminate; vm_compute; reflexivity.
      * reflexivity.
      * simpl. intuition discriminate.
  - destruct (postReportsSubmit_outcomes
                sampleBody (Some "Bearer sess_1_emp"%string) sampleEnv sampleDb)
      as (_ & _ & H).
    destruct (H (mkReqSession "sess_1_emp" "u-1" "employee") sampleEmployee)
      as (_ & H409 & _).
    + vm_compute. reflexivity.
    + vm_compute. reflexivity.
    + vm_compute. split; discriminate.
    + apply (H409 (ReportData.mk "EMP999" "Mallory" 10 5 2 1 1 0 0 0 0 None
                                 "1999-12-31") reportA).
      * reflexivity.
      * simpl. auto.
      * reflexivity.
Defined.

(** ** Malformed logins *)

Lemma zStringMin1_cases (v : Json) :
  (exists s, zStringMin1 v = Ok s /\ nonEmptyText v)
  \/ (zStringMin1 v = Throw ZodError /\ ~ nonEmptyText v).
Proof.
  unfold nonEmptyText.
  destruct v as [| |b|n|s]; simpl;
    try (right; split; [reflexivity|]; intros (s' & H & _); discriminate).
  destruct s as [|c s]; simpl.
  - right. split; [reflexivity|]. intros (s' & [= <-] & H). congruence.
  - left. exists (String c s). split.
    + destruct (1 <=? Z.pos (Pos.of_succ_nat (String.length s))) eqn:H;
        [reflexivity|]. apply Z.leb_gt in H. lia.
    + exists (String c s). split; [reflexivity|discriminate].
Qed.

Lemma createSession_throws (userId : string) (kind : UserType)
    (env : Env) (db db' : Db) (e : Error) :
  createSession userId kind env db = (Throw e, db') ->
  db' = db /\ exists constraint, e = DbError constraint.
Proof.
  unfold createSession, writeSessions.
  cbv beta iota zeta delta
    [bind ret throw getDb putDb getEnv setSessions negb].
  destruct (uniqueText _); cbv beta iota; [discriminate|].
  intros [= <- <-]. eauto.
Qed.

(** X18.  Both logins answer 400 "Invalid input" exactly when the
    identifier or the password is not a non-empty string, and then
    neither looks at an account nor changes the database. *)
Theorem login_invalid_input
    (bcrypt_compare : string -> string -> bool)
    (reqBody : EmployeeLoginBody.t) (adminBody : AdminLoginBody.t)
    (env : Env) (db : Db) :
  (fst (postEmployeeLogin bcrypt_compare reqBody env db)
   = Ok (json 400 InvalidInput)
   <-> ~ (nonEmptyText (EmployeeLoginBody.employeeId reqBody)
          /\ nonEmptyText (EmployeeLoginBody.password reqBody)))
  /\ (fst (postEmployeeLogin bcrypt_compare reqBody env db)
      = Ok (json 400 InvalidInput) ->
      snd (postEmployeeLogin bcrypt_compare reqBody env db) = db)
  /\ (fst (postAdminLogin bcrypt_compare adminBody env db)
      = Ok (json 400 InvalidInput)
      <-> ~ (nonEmptyText (AdminLoginBody.username adminBody)
             /\ nonEmptyText (AdminLoginBody.password adminBody)))
  /\ (fst (postAdminLogin bcrypt_compare adminBody env db)
      = Ok (json 400 InvalidInput) ->
      snd (postAdminLogin bcrypt_compare adminBody env db) = db).
Proof.
  assert (Hemp :
    (~ (nonEmptyText (EmployeeLoginBody.employeeId reqBody)
        /\ nonEmptyText (EmployeeLoginBody.password reqBody))
     /\ postEmployeeLogin bcrypt_compare reqBody env db
        = (Ok (json 400 InvalidInput), db))
    \/ ((nonEmptyText (EmployeeLoginBody.employeeId reqBody)
         /\ nonEmptyText (EmployeeLoginBody.password reqBody))
        /\ fst (postEmployeeLogin bcrypt_compare reqBody env db)
           <> Ok (json 400 InvalidInput))).
  { unfold postEmployeeLogin, employeeLoginSchema, validateEmployeeCredentials,
      getEmployeeByEmployeeId, catchZod. run.
    destruct (zStringMin1_cases (EmployeeLoginBody.employeeId reqBody))
      as [(i & -> & Hi)|[-> Hi]]; simpl; [|left; tauto].
    destruct (zStringMin1_cases (EmployeeLoginBody.password reqBody))
      as [(p & -> & Hp)|[-> Hp]]; simpl; [|left; tauto].
    right. split; [tauto|].
    destruct (first _) as [employee|]; simpl; [|discriminate].
    destruct (bcrypt_compare _ _); simpl; [|discriminate].
    destruct (createSession _ _ _ _) as [[session|e] db1] eqn:Hc; simpl;
      [discriminate|].
    apply createSession_throws in Hc. destruct Hc as (_ & c & ->).
    discriminate. }
  assert (Hadm :
    (~ (nonEmptyText (AdminLoginBody.username adminBody)
        /\ nonEmptyText (AdminLoginBody.password adminBody))
     /\ postAdminLogin bcrypt_compare adminBody env db
        = (Ok (json 400 InvalidInput), db))
    \/ ((nonEmptyText (AdminLoginBody.username adminBody)
         /\ nonEmptyText (AdminLoginBody.password adminBody))
        /\ fst (postAdminLogin bcrypt_compare adminBody env db)
           <> Ok (json 400 InvalidInput))).
  { unfold postAdminLogin, adminLoginSchema, validateAdminCredentials,
      getAdminByUsername, catchZod. run.
    destruct (zStringMin1_cases (AdminLoginBody.username adminBody))
      as [(i & -> & Hi)|[-> Hi]]; simpl; [|left; tauto].
    destruct (zStringMin1_cases (AdminLoginBody.password adminBody))
      as [(p & -> & Hp)|[-> Hp]]; simpl; [|left; tauto].
    right. split; [tauto|].
    destruct (first _) as [admin|]; simpl; [|discriminate].
    destruct (bcrypt_compare _ _); simpl; [|discriminate].
    destruct (createSession _ _ _ _) as [[session|e] db1] eqn:Hc; simpl;
      [discriminate|].
    apply createSession_throws in Hc. destruct Hc as (_ & c & ->).
    discriminate. }
  destruct Hemp as [[Hn He]|[Hy He]], Hadm as [[Hn' Ha]|[Hy' Ha]];
    rewrite ?He, ?Ha; simpl; intuition.
Qed.

(** ** The request log *)

(** X19.  A logged line never has more than 80 code units: a line of at
    most 80 is logged as it is, a longer one is cut to its first 79 units
    and the ellipsis, 80 in all; cutting twice is cutting once. *)
Theorem truncateLogLine_bounded {C : Type} (ellipsis : C) (logLine : list C) :
  Z.of_nat (List.length (truncateLogLine ellipsis logLine)) <= 80
  /\ (Z.of_nat (List.length logLine) <= 80 ->
      truncateLogLine ellipsis logLine = logLine)
  /\ (80 < Z.of_nat (List.length logLine) ->
      truncateLogLine ellipsis logLine = (firstn 79 logLine ++ [ellipsis])%list
      /\ List.length (truncateLogLine ellipsis logLine) = 80%nat)
  /\ truncateLogLine ellipsis (truncateLogLine ellipsis logLine)
     = truncateLogLine ellipsis logLine.
Proof.
  assert (Hshort : forall l : list C,
            Z.of_nat (List.length l) <= 80 -> truncateLogLine ellipsis l = l).
  { intros l H. unfold truncateLogLine.
    assert (E : (80 <? Z.of_nat (List.length l)) = false)
      by (apply Z.ltb_ge; exact H).
    rewrite E. reflexivity. }
  assert (Hlong : 80 < Z.of_nat (List.length logLine) ->
            truncateLogLine ellipsis logLine
            = (firstn 79 logLine ++ [ellipsis])%list
            /\ List.length (firstn 79 logLine ++ [ellipsis]) = 80%nat).
  { intros H. split.
    - unfold truncateLogLine. apply Z.ltb_lt in H. rewrite H. reflexivity.
    - rewrite length_app, length_firstn. cbn [List.length]. lia. }
  destruct (Z.le_gt_cases (Z.of_nat (List.length logLine)) 80) as [Hle|Hgt].
  - rewrite (Hshort _ Hle). repeat split; auto; lia.
  - destruct (Hlong Hgt) as [-> Hlen]. rewrite Hlen.
    repeat split; try lia; auto.
    apply Hshort. rewrite Hlen. lia.
Qed.


(** ** The routes together *)

Lemma routeFrame_refl (db : Db) : routeFrame db db.
Proof. unfold routeFrame. auto. Qed.

Lemma routeFrame_sessions (db : Db) (rows : list Session.t) :
  routeFrame db (mkDb (employees db) (dailyReports db) (admins db) rows).
Proof. unfold routeFrame. simpl. auto. Qed.

Lemma guarded_frame (kind : string) (handler : ReqSession -> M Response)
    (authorization : option string) (env : Env) (db : Db) :
  (forall session, exists res db',
      handler session env db = (Ok res, db') /\ routeFrame db db') ->
  exists res db',
    guarded (authenticate kind) handler authorization env db = (Ok res, db')
    /\ routeFrame db db'.
Proof.
  intros Hh. destruct (authenticate_reads kind authorization env db) as [m Hm].
  destruct m as [res|session].
  - rewrite (guarded_answered _ _ _ _ _ _ Hm). exists res, db.
    split; [reflexivity|apply routeFrame_refl].
  - rewrite (guarded_next _ _ _ _ _ _ Hm). apply Hh.
Qed.

Lemma createSession_frame (userId : string) (kind : UserType)
    (env : Env) (db : Db) :
  exists o db', createSession userId kind env db = (o, db') /\ routeFrame db db'.
Proof.
  destruct (createSession userId kind env db) as [[session|e] db'] eqn:Hc.
  - exists (Ok session), db'. split; [reflexivity|].
    apply createSession_ok in Hc. destruct Hc as (_ & -> & _).
    apply routeFrame_sessions.
  - exists (Throw e), db'. split; [reflexivity|].
    apply createSession_throws in Hc. destruct Hc as (-> & _).
    apply routeFrame_refl.
Qed.

Lemma submitReport_frame (reqBody : ReportBody.t) (session : ReqSession)
    (env : Env) (db : Db) :
  exists res db',
    submitReport reqBody session env db = (Ok res, db') /\ routeFrame db db'.
Proof.
  destruct (submitReport_outcomes reqBody session env db)
    as (res & db' & Hrun & [(_ & report & _ & -> & _)|[-> _]]);
    exists res; eexists; (split; [exact Hrun|]).
  - unfold routeFrame. simpl. eauto.
  - apply routeFrame_refl.
Qed.

(** X20.  Every embedded route answers every request, whatever the state
    and the clock, and none goes beyond the frame: the employee and admin
    tables are as before, and the report table is as before or has one
    more row at its end.  The hourly cleanup, too, always completes
    within the frame. *)
Theorem serve_within_frame
    (bcrypt_compare : string -> string -> bool)
    (request : Request) (env : Env) (db : Db) :
  (exists res db',
     serve bcrypt_compare request env db = (Ok res, db') /\ routeFrame db db')
  /\ (exists db', sessionCleanup env db = (Ok tt, db') /\ routeFrame db db').
Proof.
  split.
  2: { eexists. split; [reflexivity|]. apply routeFrame_sessions. }
  destruct request as [reqBody|authorization|authorization|reqBody authorization
                      |reqBody|authorization|authorization]; cbn [serve].
  - unfold postEmployeeLogin, validateEmployeeCredentials,
      getEmployeeByEmployeeId, catchZod. run.
    destruct (employeeLoginSchema reqBody) as [[i p]|e] eqn:Hb; cbv beta iota.
    2: { destruct e; eexists _, db; (split; [reflexivity|apply routeFrame_refl]). }
    destruct (first _) as [employee|]; cbv beta iota.
    2: { eexists _, db. split; [reflexivity|apply routeFrame_refl]. }
    destruct (bcrypt_compare _ _); cbv beta iota.
    2: { eexists _, db. split; [reflexivity|apply routeFrame_refl]. }
    destruct (createSession_frame (Employee.id employee) EmployeeType env db)
      as (o & db' & -> & Hf).
    destruct o as [session|e]; cbv beta iota;
      [|destruct e]; eexists _, db'; (split; [reflexivity|exact Hf]).
  - apply guarded_frame. intros session. unfold logout, deleteSession. run.
    destruct (truthyString (sessionId session)); simpl; eexists _, _;
      (split; [reflexivity|]);
      [apply routeFrame_sessions|apply routeFrame_refl].
  - apply guarded_frame. intros session. unfold getEmployee. run. simpl.
    destruct (first _); simpl; eexists _, db;
      (split; [reflexivity|apply routeFrame_refl]).
  - apply guarded_frame. intros session. apply submitReport_frame.
  - unfold postAdminLogin, validateAdminCredentials, getAdminByUsername,
      catchZod. run.
    destruct (adminLoginSchema reqBody) as [[i p]|e] eqn:Hb; cbv beta iota.
    2: { destruct e; eexists _, db; (split; [reflexivity|apply routeFrame_refl]). }
    destruct (first _) as [admin|]; cbv beta iota.
    2: { eexists _, db. split; [reflexivity|apply routeFrame_refl]. }
    destruct (bcrypt_compare _ _); cbv beta iota.
    2: { eexists _, db. split; [reflexivity|apply routeFrame_refl]. }
    destruct (createSession_frame (Admin.id admin) AdminType env db)
      as (o & db' & -> & Hf).
    destruct o as [session|e]; cbv beta iota;
      [|destruct e]; eexists _, db'; (split; [reflexivity|exact Hf]).
  - apply guarded_frame. intros session. unfold logout, deleteSession. run.
    destruct (truthyString (sessionId session)); simpl; eexists _, _;
      (split; [reflexivity|]);
      [apply routeFrame_sessions|apply routeFrame_refl].
  - apply guarded_frame. intros session. unfold getAdmin. run. simpl.
    destruct (first _); simpl; eexists _, db;
      (split; [reflexivity|apply routeFrame_refl]).
Qed.


(** ** More on tokens, updates and queries *)

(** X21.  The middleware reads the header only through
    [replace('Bearer ', '')]: a token sent bare, without the scheme, is
    treated exactly as the same token sent after "Bearer ", whenever the
    token itself does not contain "Bearer ". *)
Theorem authenticate_bare_token
    (kind : string) (token : string) (env : Env) (db : Db) :
  replace "Bearer " "" token = token ->
  authenticate kind (Some token) env db
  = authenticate kind (Some ("Bearer " ++ token)%string) env db.
Proof.
  intros H. unfold authenticate. cbn [option_map].
  rewrite bearer_decoded, H. reflexivity.
Qed.

Lemma authenticate_bare_token_witness :
  authenticate "employee" (Some "sess_1_emp") sampleEnv sampleDb
  = authenticate "employee" (Some "Bearer sess_1_emp") sampleEnv sampleDb.
Proof.
  apply (authenticate_bare_token "employee" "sess_1_emp" sampleEnv sampleDb).
  reflexivity.
Defined.

Lemma map_unchanged {A} (f : A -> A) (rows : list A) :
  (forall a, In a rows -> f a = a) -> map f rows = rows.
Proof.
  induction rows as [|a rows IH]; simpl; [reflexivity|].
  intros H. rewrite (H a), IH by auto. auto.
Qed.

Lemma first_filter_unique {A} (key : A -> string) (rows : list A) (a : A) :
  NoDup (map key rows) -> In a rows ->
  first (filter (fun x => (key x =? key a)%string) rows) = Some a.
Proof.
  intros Hd Ha.
  destruct (first (filter (fun x => (key x =? key a)%string) rows))
    as [b|] eqn:Hb.
  - apply first_filter_some in Hb. destruct Hb as [Hin Hk].
    apply String.eqb_eq in Hk. f_equal.
    apply (NoDup_map_eq key rows); auto.
  - rewrite first_filter_none in Hb. specialize (Hb a Ha).
    rewrite String.eqb_refl in Hb. discriminate.
Qed.

Lemma supplied_int32 (v : option Q) :
  optionalInt32 v -> supplied integerIn v = Ok (option_map wholePart v).
Proof.
  destruct v as [n|]; [|reflexivity]. intros H. simpl.
  rewrite (integerIn_int32 n (H n eq_refl)). reflexivity.
Qed.

Lemma supplied_date (d : option Day) :
  (forall day, d = Some day -> firstDay <= day <= lastDay) ->
  supplied dateIn d = Ok d.
Proof.
  destruct d as [day|]; [|reflexivity]. intros H. simpl. unfold dateIn.
  rewrite (readableDate_of_accepted day (H day eq_refl)). reflexivity.
Qed.

(** X22.  [updateDailyReport] on the id of a stored report, in a table
    with distinct ids: with nothing to set it throws and changes
    nothing; with values the columns take (whole numbers within 32 bits,
    a date of the years 0001 to 9999) it returns the stored row of that
    id, which holds every supplied value and keeps the others, while the
    table keeps its length. *)
Theorem updateDailyReport_result
    (r : DailyReport.t) (report : PartialDailyReport.t) (env : Env) (db : Db) :
  uniqueText (map DailyReport.id (dailyReports db)) = true ->
  In r (dailyReports db) ->
  (noValues report = true ->
   updateDailyReport (DailyReport.id r) report env db = (Throw NoValuesToSet, db))
  /\ (noValues report = false -> storableUpdate report ->
      exists r' db',
        updateDailyReport (DailyReport.id r) report env db = (Ok (Some r'), db')
        /\ In r' (dailyReports db')
        /\ DailyReport.id r' = DailyReport.id r
        /\ reportStored report r'
        /\ reportFrame (DailyReport.id r) report r r'
        /\ List.length (dailyReports db') = List.length (dailyReports db)).
Proof.
  intros Huniq Hr.
  split.
  { intros Hno. unfold updateDailyReport. run. rewrite Hno. reflexivity. }
  intros Hno (H1 & H2 & H3 & H4 & H5 & H6 & H7 & H8 & H9 & H10 & H11).
  set (id := DailyReport.id r).
  assert (Hvalues : exists values,
            columnsIn report = Ok values
            /\ values
               = ReportColumns.mk
                   (PartialDailyReport.employeeId report)
                   (PartialDailyReport.employeeName report)
                   (option_map wholePart (PartialDailyReport.numberOfDials report))
                   (option_map wholePart (PartialDailyReport.connectedCalls report))
                   (option_map wholePart (PartialDailyReport.positiveProspect report))
                   (option_map wholePart (PartialDailyReport.deadCalls report))
                   (option_map wholePart (PartialDailyReport.demos report))
                   (option_map wholePart (PartialDailyReport.admission report))
                   (option_map wholePart (PartialDailyReport.clientVisit report))
                   (option_map wholePart (PartialDailyReport.clientClosing report))
                   (option_map wholePart (PartialDailyReport.backdoorCalls report))
                   (option_map wholePart (PartialDailyReport.postersDone report))
                   (PartialDailyReport.submissionDate report)).
  { eexists. split; [|reflexivity]. unfold columnsIn.
    rewrite (supplied_int32 _ H1), (supplied_int32 _ H2), (supplied_int32 _ H3),
      (supplied_int32 _ H4), (supplied_int32 _ H5), (supplied_int32 _ H6),
      (supplied_int32 _ H7), (supplied_int32 _ H8), (supplied_int32 _ H9),
      (supplied_int32 _ H10), (supplied_date _ H11).
    reflexivity. }
  destruct Hvalues as (values & Hcolumns & Hvalues).
  set (f := fun x : DailyReport.t => if (DailyReport.id x =? id)%string
                                     then setDailyReport values x else x).
  assert (Hids : map DailyReport.id (map f (dailyReports db))
                 = map DailyReport.id (dailyReports db)).
  { rewrite map_map. apply map_ext. intros x. unfold f.
    destruct (DailyReport.id x =? id)%string; reflexivity. }
  assert (Hfr : f r = setDailyReport values r).
  { unfold f, id. rewrite String.eqb_refl. reflexivity. }
  assert (Hin : In (f r) (map f (dailyReports db))) by (apply in_map; exact Hr).
  assert (Hk : DailyReport.id (f r) = id) by (rewrite Hfr; reflexivity).
  assert (Hfound : first (filter (fun x => (DailyReport.id x =? id)%string)
                                 (map f (dailyReports db))) = Some (f r)).
  { replace (fun x => (DailyReport.id x =? id)%string)
      with (fun x => (DailyReport.id x =? DailyReport.id (f r))%string)
      by (rewrite Hk; reflexivity).
    apply (first_filter_unique DailyReport.id); [|exact Hin].
    rewrite Hids. apply uniqueText_NoDup. exact Huniq. }
  exists (f r).
  exists (mkDb (employees db) (map f (dailyReports db)) (admins db) (sessions db)).
  split.
  { unfold updateDailyReport, writeDailyReports. run.
    rewrite Hno, Hcolumns. fold id. fold f. rewrite Hids, Huniq.
    cbn [negb dailyReports]. rewrite Hfound. reflexivity. }
  cbn [dailyReports].
  split; [exact Hin|]. split; [exact Hk|].
  split; [|split; [|apply length_map]].
  - assert (Hnum : forall (v : option Q) (old : Z) (q : Q),
              optionalInt32 v -> v = Some q ->
              (inject_Z (match option_map wholePart v with
                         | Some n => n | None => old end) == q)%Q).
    { intros v old q Hv ->. simpl. apply whole_inject. apply (Hv q eq_refl). }
    rewrite Hfr, Hvalues.
    unfold reportStored, stores, storesNumber, setDailyReport.
    cbn [ReportColumns.employeeId ReportColumns.employeeName
         ReportColumns.numberOfDials ReportColumns.connectedCalls
         ReportColumns.positiveProspect ReportColumns.deadCalls
         ReportColumns.demos ReportColumns.admission ReportColumns.clientVisit
         ReportColumns.clientClosing ReportColumns.backdoorCalls
         ReportColumns.postersDone ReportColumns.submissionDate
         DailyReport.employeeId DailyReport.employeeName
         DailyReport.numberOfDials DailyReport.connectedCalls
         DailyReport.positiveProspect DailyReport.deadCalls DailyReport.demos
         DailyReport.admission DailyReport.clientVisit
         DailyReport.clientClosing DailyReport.backdoorCalls
         DailyReport.postersDone DailyReport.submissionDate].
    repeat split; intros v Hv;
      try (rewrite Hv; reflexivity);
      try (apply Hnum; assumption).
    rewrite Hv. cbn [option_map]. eexists. split; [reflexivity|].
    apply whole_inject. apply (H10 v Hv).
  - assert (Hframe := setDailyReport_frame id report values r Hcolumns).
    unfold id at 2 in Hframe. rewrite String.eqb_refl in Hframe.
    rewrite Hfr. exact Hframe.
Qed.

Lemma updateDailyReport_result_witness :
  exists r' db',
    updateDailyReport "r-b" (onlySubmissionDate jan15) sampleEnv sampleDb
    = (Ok (Some r'), db')
    /\ In r' (dailyReports db')
    /\ DailyReport.id r' = "r-b"%string
    /\ reportStored (onlySubmissionDate jan15) r'
    /\ reportFrame "r-b" (onlySubmissionDate jan15) reportB r'
    /\ List.length (dailyReports db') = List.length (dailyReports sampleDb).
Proof.
  destruct (updateDailyReport_result reportB (onlySubmissionDate jan15)
              sampleEnv sampleDb eq_refl) as (_ & H).
  - simpl. auto.
  - apply (H eq_refl).
    unfold storableUpdate, optionalInt32.
    repeat split; try discriminate;
      injection H0 as <-; vm_compute; discriminate.
Defined.

(** X23.  A report that a submission stored shows up where the admin
    looks for it: [getDailyReports] filtered to the employee id and the
    day of the submission returns it, at any later time. *)
Theorem submitted_report_is_listed
    (reqBody : ReportBody.t) (authorization : option string)
    (env env' : Env) (db db' : Db) (report : DailyReport.t) :
  postReportsSubmit reqBody authorization env db
  = (Ok (json 200 (ReportSubmitted report)), db') ->
  exists rows,
    getDailyReports
      (Some (employeeOnDay (DailyReport.employeeId report) (clock env))) env' db'
    = (Ok rows, db')
    /\ In report rows
    /\ (forall r, In r rows ->
           DailyReport.submissionDate r = DailyReport.submissionDate report).
Proof.
  intros H. apply postReportsSubmit_ok in H. destruct H as (session & _ & H).
  pose proof (submitReport_stored _ _ _ _ _ _ H) as (Hday & Hread & _ & Hdb').
  assert (Hacc : firstDay <= clock env / msPerDay <= lastDay)
    by (rewrite <- Hday; apply readableDate_accepted; exact Hread).
  rewrite (getDailyReports_run
             (Some (employeeOnDay (DailyReport.employeeId report) (clock env)))
             env' db' Hacc Hacc eq_refl).
  cbn [filtersOf Filters.limit Filters.offset employeeOnDay positiveOnly
       nonzero applyLimit applyOffset].
  set (keep := effectiveFilters _).
  exists (orderRows byRecency (filter keep (dailyReports db'))).
  split; [reflexivity|].
  assert (Hperm := orderRows_perm byRecency (filter keep (dailyReports db'))).
  split.
  - apply (Permutation_in _ (Permutation_sym Hperm)).
    apply filter_In. split.
    + rewrite Hdb'. apply in_or_app. right. left. reflexivity.
    + unfold keep, effectiveFilters, employeeOnDay, onOrAfter, onOrBefore.
      simpl. rewrite Hday, Z.leb_refl.
      destruct (truthyString _); [rewrite String.eqb_refl|]; reflexivity.
  - intros r Hr. apply (Permutation_in _ Hperm) in Hr.
    apply filter_In in Hr. destruct Hr as [_ Hk].
    unfold keep, effectiveFilters, employeeOnDay, onOrAfter, onOrBefore in Hk.
    simpl in Hk. apply andb_true_iff in Hk. destruct Hk as [Hk Hle].
    apply andb_true_iff in Hk. destruct Hk as [_ Hge].
    apply Z.leb_le in Hle, Hge. lia.
Qed.

Lemma submitted_report_is_listed_witness :
  exists rows,
    getDailyReports (Some (employeeOnDay "EMP001" noonJan15))
      (mkEnv (noonJan15 + msPerDay) "" "" "" sevenDays)
      (snd (postReportsSubmit sampleBody (Some "Bearer sess_1_emp")
                              sampleEnv morningDb))
    = (Ok rows, snd (postReportsSubmit sampleBody (Some "Bearer sess_1_emp")
                                       sampleEnv morningDb))
    /\ In submittedSample rows
    /\ (forall r, In r rows ->
           DailyReport.submissionDate r
           = DailyReport.submissionDate submittedSample).
Proof.
  apply (submitted_report_is_listed
           sampleBody (Some "Bearer sess_1_emp"%string)
           sampleEnv (mkEnv (noonJan15 + msPerDay) "" "" "" sevenDays) morningDb
           (snd (postReportsSubmit sampleBody (Some "Bearer sess_1_emp")
                                   sampleEnv morningDb))
           submittedSample).
  vm_compute. reflexivity.
Defined.

(** X24.  A password change takes effect: after an [updateEmployee] that
    succeeded on a stored employee and supplied a password that is not
    empty, [validateEmployeeCredentials] for that employee accepts
    exactly the passwords that [bcrypt.compare] accepts against the hash
    of the new password. *)
Theorem updateEmployee_password_takes_effect
    (bcrypt_hash : string -> Z -> string -> string)
    (bcrypt_compare : string -> string -> bool)
    (id : string) (updates : PartialEmployee.t) (newPassword : string)
    (env : Env) (db db' : Db) (e' : Employee.t) :
  updateEmployee bcrypt_hash id updates env db = (Ok (Some e'), db') ->
  PartialEmployee.passwordHash updates = Some newPassword ->
  newPassword <> ""%string ->
  Employee.passwordHash e' = bcrypt_hash newPassword 10 (salt env)
  /\ forall password env',
       validateEmployeeCredentials bcrypt_compare (Employee.employeeId e')
                                   password env' db'
       = (Ok (if bcrypt_compare password (bcrypt_hash newPassword 10 (salt env))
              then Some e' else None), db').
Proof.
  intros H Hpw Hne. revert H.
  unfold updateEmployee, writeEmployees.
  cbv beta iota zeta delta
    [bind ret throw getDb putDb getEnv setEmployees negb].
  set (updateData := if truthyOptString _ then _ else updates).
  set (f := fun e : Employee.t => if (Employee.id e =? id)%string
                                  then setEmployee updateData (clock env) e
                                  else e).
  destruct (uniqueText (map Employee.id _)); cbv beta iota; [|discriminate].
  destruct (uniqueText (map Employee.employeeId (map f (employees db))))
    eqn:Hu; cbv beta iota; [|discriminate].
  intros [= Hfound <-].
  apply first_filter_some in Hfound. destruct Hfound as [Hin Hid].
  apply in_map_iff in Hin. destruct Hin as (e & Hfe & He).
  assert (Hide : Employee.id e = id).
  { apply String.eqb_eq in Hid. rewrite <- Hfe in Hid. unfold f in Hid.
    destruct (Employee.id e =? id)%string eqn:Heq.
    - apply String.eqb_eq. exact Heq.
    - exact Hid. }
  assert (Hhash : Employee.passwordHash e'
                  = bcrypt_hash newPassword 10 (salt env)).
  { rewrite <- Hfe. unfold f. rewrite Hide, String.eqb_refl.
    unfold setEmployee, updateData. cbn [Employee.passwordHash].
    rewrite Hpw. cbn [truthyOptString]. unfold truthyString.
    apply String.eqb_neq in Hne. rewrite Hne. reflexivity. }
  split; [exact Hhash|].
  intros password env'.
  unfold validateEmployeeCredentials, getEmployeeByEmployeeId. run.
  cbn [employees].
  rewrite (first_filter_unique Employee.employeeId (map f (employees db)) e').
  - cbv beta iota. rewrite Hhash. reflexivity.
  - apply uniqueText_NoDup. exact Hu.
  - rewrite <- Hfe. apply in_map. exact He.
Qed.

Lemma updateEmployee_password_takes_effect_witness :
  validateEmployeeCredentials sampleCompare "EMP001" "secret1" sampleEnv
    (snd (updateEmployee sampleHash "u-1" (onlyPassword "secret1")
                         sampleEnv sampleDb))
  = (Ok (Some (Employee.mk "u-1" "EMP001" "Asha"
                           (sampleHash "secret1" 10 "salt") 1000 noonJan15)),
     snd (updateEmployee sampleHash "u-1" (onlyPassword "secret1")
                         sampleEnv sampleDb)).
Proof.
  destruct (updateEmployee_password_takes_effect
              sampleHash sampleCompare "u-1" (onlyPassword "secret1") "secret1"
              sampleEnv sampleDb
              (snd (updateEmployee sampleHash "u-1" (onlyPassword "secret1")
                                   sampleEnv sampleDb))
              (Employee.mk "u-1" "EMP001" "Asha"
                           (sampleHash "secret1" 10 "salt") 1000 noonJan15)
              eq_refl eq_refl) as [_ H].
  - vm_compute. discriminate.
  - exact (H "secret1"%string sampleEnv).
Defined.

(** ** Values the columns refuse *)

Lemma integerIn_cases (n : Q) :
  (int32 n /\ integerIn n = Ok (wholePart n))
  \/ (~ int32 n /\ integerIn n = Throw DataException).
Proof.
  unfold int32, integerIn.
  destruct (whole n); cbn [andb].
  2: { right. split; [intros [H _]; discriminate|reflexivity]. }
  destruct (- 2147483648 <=? wholePart n) eqn:Hlo; cbn [andb].
  2: { right. apply Z.leb_gt in Hlo. split; [intros [_ H]; lia|reflexivity]. }
  destruct (wholePart n <=? 2147483647) eqn:Hhi.
  2: { right. apply Z.leb_gt in Hhi. split; [intros [_ H]; lia|reflexivity]. }
  left. apply Z.leb_le in Hlo, Hhi. auto.
Qed.

(** Postgres stores no row for a body with a counter that is not a whole
    number within 32 bits. *)
Lemma submittedReport_unstorable (employee : Employee.t) (data : ReportData.t)
    (env : Env) :
  ~ storableCounters data ->
  submittedReport employee data env = Throw DataException.
Proof.
  intros Hnot. unfold submittedReport, newDailyReport.
  cbn [InsertDailyReport.numberOfDials InsertDailyReport.connectedCalls
       InsertDailyReport.positiveProspect InsertDailyReport.deadCalls
       InsertDailyReport.demos InsertDailyReport.admission
       InsertDailyReport.clientVisit InsertDailyReport.clientClosing
       InsertDailyReport.backdoorCalls InsertDailyReport.postersDone
       InsertDailyReport.submissionDate].
  destruct (integerIn_cases (ReportData.numberOfDials data)) as [[H1 ->]|[_ ->]];
    [cbn [andThen]|reflexivity].
  destruct (integerIn_cases (ReportData.connectedCalls data)) as [[H2 ->]|[_ ->]];
    [cbn [andThen]|reflexivity].
  destruct (integerIn_cases (ReportData.positiveProspect data)) as [[H3 ->]|[_ ->]];
    [cbn [andThen]|reflexivity].
  destruct (integerIn_cases (ReportData.deadCalls data)) as [[H4 ->]|[_ ->]];
    [cbn [andThen]|reflexivity].
  destruct (integerIn_cases (ReportData.demos data)) as [[H5 ->]|[_ ->]];
    [cbn [andThen]|reflexivity].
  destruct (integerIn_cases (ReportData.admission data)) as [[H6 ->]|[_ ->]];
    [cbn [andThen]|reflexivity].
  destruct (integerIn_cases (ReportData.clientVisit data)) as [[H7 ->]|[_ ->]];
    [cbn [andThen]|reflexivity].
  destruct (integerIn_cases (ReportData.clientClosing data)) as [[H8 ->]|[_ ->]];
    [cbn [andThen]|reflexivity].
  destruct (integerIn_cases (ReportData.backdoorCalls data)) as [[H9 ->]|[_ ->]];
    [cbn [andThen]|reflexivity].
  destruct (ReportData.postersDone data) as [v|] eqn:Hv.
  - destruct (integerIn_cases v) as [[H10 ->]|[_ ->]]; [|reflexivity].
    exfalso. apply Hnot.
    assert (Hopt : optionalInt32 (Some v)) by (intros n [= <-]; exact H10).
    unfold storableCounters. rewrite Hv. tauto.
  - exfalso. apply Hnot.
    assert (Hopt : optionalInt32 (@None Q)) by (intros n Hn; discriminate Hn).
    unfold storableCounters. rewrite Hv. tauto.
Qed.

(** X25.  A body can pass the schema and still not be storable: when a
    counter is not a whole number within 32 bits (2147483648, or 1.5),
    the submission of an employee who has not reported today is answered
    500 "Internal server error" and stores nothing. *)
Theorem submit_unstorable_counter
    (reqBody : ReportBody.t) (data : ReportData.t)
    (authorization : option string) (session : ReqSession)
    (employee : Employee.t) (env : Env) (db : Db) :
  authenticateEmployee authorization env db = (Ok (next session), db) ->
  getEmployee (userId session) env db = (Ok (Some employee), db) ->
  firstDay <= clock env / msPerDay <= lastDay ->
  insertDailyReportSchema reqBody = Ok data ->
  (forall r, In r (dailyReports db) ->
             submissionKey r
             <> (Employee.employeeId employee, clock env / msPerDay)) ->
  ~ storableCounters data ->
  postReportsSubmit reqBody authorization env db
  = (Ok (json 500 (Message "Internal server error")), db).
Proof.
  intros Hauth Hemp Hday Hparse Hnone Hnot.
  destruct (isoDate_accepted (clock env) Hday) as [Htoday Hread].
  pose proof (submittedReport_unstorable employee data env Hnot) as Hreport.
  unfold postReportsSubmit. rewrite (guarded_next _ _ _ _ _ _ Hauth).
  unfold submitReport, checkExistingReport, createDailyReport,
    writeDailyReports, catchZod, dateIn. run.
  rewrite Hemp, Hparse, Htoday, (isoDate_newDateOfDay _ Hread), Hread.
  rewrite filter_none.
  2: { intros r Hr. specialize (Hnone r Hr). unfold submissionKey in Hnone.
       destruct (DailyReport.employeeId r =? Employee.employeeId employee)%string
         eqn:He; [|reflexivity].
       destruct (DailyReport.submissionDate r =? clock env / msPerDay) eqn:Hd;
         [|reflexivity].
       apply String.eqb_eq in He. apply Z.eqb_eq in Hd.
       exfalso. apply Hnone. rewrite He, Hd. reflexivity. }
  cbn [first hd_error]. unfold submittedReport in Hreport. rewrite Hreport.
  reflexivity.
Qed.

Lemma submit_unstorable_counter_witness :
  postReportsSubmit largeCounterBody (Some "Bearer sess_1_emp") sampleEnv morningDb
  = (Ok (json 500 (Message "Internal server error")), morningDb)
  /\ postReportsSubmit fractionBody (Some "Bearer sess_1_emp") sampleEnv morningDb
     = (Ok (json 500 (Message "Internal server error")), morningDb).
Proof.
  split.
  - apply (submit_unstorable_counter
             largeCounterBody
             (ReportData.mk "EMP001" "Asha" 2147483648 5 2 1 1 0 0 0 0 None
                            "2025-01-15")
             (Some "Bearer sess_1_emp"%string)
             (mkReqSession "sess_1_emp" "u-1" "employee")
             sampleEmployee sampleEnv morningDb).
    + vm_compute. reflexivity.
    + vm_compute. reflexivity.
    + vm_compute. split; discriminate.
    + reflexivity.
    + intros r [<-|[]]. vm_compute. discriminate.
    + intros [[_ [_ H]] _]. vm_compute in H. apply H. reflexivity.
  - apply (submit_unstorable_counter
             fractionBody
             (ReportData.mk "EMP001" "Asha" 10 5 2 1 (3 # 2) 0 0 0 0 None
                            "2025-01-15")
             (Some "Bearer sess_1_emp"%string)
             (mkReqSession "sess_1_emp" "u-1" "employee")
             sampleEmployee sampleEnv morningDb).
    + vm_compute. reflexivity.
    + vm_compute. reflexivity.
    + vm_compute. split; discriminate.
    + reflexivity.
    + intros r [<-|[]]. vm_compute. discriminate.
    + intros [_ [_ [_ [_ [[H _] _]]]]]. vm_compute in H. discriminate.
Defined.




(** ** Two submissions at once *)

(** The handler is its two steps, one after the other. *)
Lemma submitReport_steps (reqBody : ReportBody.t) (session : ReqSession)
    (env : Env) (db : Db) :
  submitReport reqBody session env db
  = (checked <- submitReportCheck reqBody session ;;
     match checked with
     | respond res => ret res
     | insert insertReport => submitReportStore insertReport
     end) env db.
Proof.
  unfold submitReport, submitReportCheck, submitReportStore, getEmployee,
    checkExistingReport, createDailyReport, writeDailyReports, catchZod.
  run. cbn [fst snd].
  destruct (first (filter _ (employees db))) as [employee|]; [|reflexivity].
  destruct (insertDailyReportSchema reqBody) as [data|e];
    [|destruct e; reflexivity].
  destruct (isoDate (DateMs (clock env))) as [today|e];
    [|destruct e; reflexivity].
  destruct (isoDate (newDateOfDay today)) as [day|e];
    [|destruct e; reflexivity].
  destruct (dateIn day) as [day'|e]; [|destruct e; reflexivity].
  destruct (first (filter _ (dailyReports db))) as [existing|];
    [reflexivity|].
  destruct (newDailyReport _ _ _) as [report|e]; [|destruct e; reflexivity].
  destruct (uniqueText _); reflexivity.
Qed.

